(** * CVSAnalY metrics extension: a shallow embedding of
      [pycvsanaly2/extensions/Metrics.py] and its properties.

    Python values are modelled as the code uses them: integers as [Z]
    (Python 2 [int]/[long] never wrap), strings as [string], lists as
    [list], [None] as [option], exceptions as a [result] sum.  The
    repository backend, the file system and the external tools are an
    explicit world threaded through the calls. *)

From Stdlib Require Import ZArith List String Ascii Lia Bool.
From stdpp Require Import base numbers list list_numbers sorting strings.
Import ListNotations.

Local Open Scope Z_scope.

(** ** Exceptions and results *)

(** The exceptions the extension distinguishes in its handlers:
    [ProgramNotFound] (an old-style class, not an [Exception]),
    [NotImplementedError] and every other [Exception] (carried by its
    [str (e)]). *)
Inductive exn : Type :=
| ProgramNotFound (program : string)
| NotImplementedError
| Exception (msg : string).

Inductive result (A : Type) : Type :=
| Ok (a : A)
| Raise (e : exn).
Arguments Ok {A} a.
Arguments Raise {A} e.

Definition bind {A B} (r : result A) (k : A -> result B) : result B :=
  match r with
  | Ok a => k a
  | Raise e => Raise e
  end.

Notation "'try!' x <- r ; k" := (bind r (fun x => k))
  (at level 10, x name, r at level 100, k at level 200).
Notation "'try!' ' p <- r ; k" := (bind r (fun p => k))
  (at level 10, p strict pattern, r at level 100, k at level 200).

(** ** Python builtins used by the statistics helper *)

(** [sum (l)]: left to right from 0. *)
Definition py_sum (l : list Z) : Z := fold_left Z.add l 0.

(** [min (l)] and [max (l)]: [ValueError] on the empty list. *)
Definition py_min (l : list Z) : result Z :=
  match l with
  | [] => Raise (Exception "min() arg is an empty sequence")
  | x :: xs => Ok (fold_left Z.min xs x)
  end.

Definition py_max (l : list Z) : result Z :=
  match l with
  | [] => Raise (Exception "max() arg is an empty sequence")
  | x :: xs => Ok (fold_left Z.max xs x)
  end.

(** [l.sort ()] on integers: ascending. *)
Definition py_sort (l : list Z) : list Z := merge_sort Z.le l.

(** [l[i]]: a negative index counts from the end, [IndexError] out of
    range. *)
Definition py_getitem {A} (l : list A) (i : Z) : result A :=
  let n := Z.of_nat (length l) in
  let j := if i <? 0 then i + n else i in
  if (j <? 0) || (n <=? j) then Raise (Exception "list index out of range")
  else match l !! Z.to_nat j with
       | Some x => Ok x
       | None => Raise (Exception "list index out of range")
       end.

(** ** FileMetrics._get_mccabe_stats *)

(** [mccabe_mean] and [mccabe_median] are local names that stay unbound
    on some paths; returning them then raises [UnboundLocalError].
    Python 2 [/] on integers is floor division, as [Z.div]. *)
Definition _get_mccabe_stats (nfunctions : Z) (mccabe_values : list Z)
  : result (Z * Z * Z * Z * Z) :=
  let mccabe_sum := py_sum mccabe_values in
  let mccabe_mean :=
    if 1 <=? nfunctions then Some (mccabe_sum / nfunctions) else None in
  try! mccabe_min <- py_min mccabe_values ;
  try! mccabe_max <- py_max mccabe_values ;
  let mccabe_values := py_sort mccabe_values in
  try! mccabe_median <-
    (if nfunctions =? 1 then Ok mccabe_mean
     else if 2 <=? nfunctions then
       let n := Z.of_nat (length mccabe_values) in
       if negb (Z.land nfunctions 1 =? 0) then
         try! m <- py_getitem mccabe_values (n / 2) ; Ok (Some m)
       else
         try! a <- py_getitem mccabe_values (n / 2 - 1) ;
         try! b <- py_getitem mccabe_values (n / 2) ;
         Ok (Some ((a + b) / 2))
     else Ok None) ;
  match mccabe_mean, mccabe_median with
  | Some mean, Some median =>
      Ok (mccabe_sum, mccabe_min, mccabe_max, mean, median)
  | _, _ => Raise (Exception "UnboundLocalError")
  end.

(** ** The statistics as the specification words them *)

Definition spec_sum (vs : list Z) : Z := foldr Z.add 0 vs.

Definition spec_mean (vs : list Z) : Z := spec_sum vs / Z.of_nat (length vs).

(** Median of an ascending list [s]: the middle element for an odd
    count, the floor-divided average of the two central ones for an even
    count. *)
Definition spec_median (s : list Z) : Z :=
  let n := length s in
  if Nat.odd n then nth (n / 2)%nat s 0
  else (nth (n / 2 - 1)%nat s 0 + nth (n / 2)%nat s 0) / 2.

Definition is_least (m : Z) (vs : list Z) : Prop :=
  m ∈ vs /\ Forall (fun v => m <= v) vs.

Definition is_greatest (m : Z) (vs : list Z) : Prop :=
  m ∈ vs /\ Forall (fun v => v <= m) vs.

(** ** Strings as Python uses them *)

Definition tab : ascii := ascii_of_nat 9.
Definition newline : ascii := ascii_of_nat 10.
Definition backspace : ascii := ascii_of_nat 8.

Definition str1 (c : ascii) : string := String c EmptyString.

(** [s.split (sep)] for a one-character separator: every occurrence
    cuts, empty fields are kept, the empty string gives one empty
    field. *)
Fixpoint split_on (sep : ascii) (s : string) : list string :=
  match s with
  | EmptyString => [EmptyString]
  | String c s' =>
      if Ascii.eqb c sep then EmptyString :: split_on sep s'
      else match split_on sep s' with
           | [] => [str1 c]
           | w :: ws => String c w :: ws
           end
  end.

(** [needle in hay] on strings. *)
Fixpoint py_in (needle hay : string) : bool :=
  String.prefix needle hay ||
  match hay with
  | EmptyString => false
  | String _ hay' => py_in needle hay'
  end.

Fixpoint lstrip (c : ascii) (s : string) : string :=
  match s with
  | EmptyString => EmptyString
  | String a s' => if Ascii.eqb a c then lstrip c s' else s
  end.

Fixpoint rstrip (c : ascii) (s : string) : string :=
  match s with
  | EmptyString => EmptyString
  | String a s' =>
      match rstrip c s' with
      | EmptyString => if Ascii.eqb a c then EmptyString else str1 a
      | r => String a r
      end
  end.

(** [s.strip (c)] *)
Definition strip (c : ascii) (s : string) : string := rstrip c (lstrip c s).

(** [s.replace (a, b)] for single characters. *)
Fixpoint replace_char (a b : ascii) (s : string) : string :=
  match s with
  | EmptyString => EmptyString
  | String c s' => String (if Ascii.eqb c a then b else c) (replace_char a b s')
  end.

Fixpoint ends_with_slash (s : string) : bool :=
  match s with
  | EmptyString => false
  | String c EmptyString => Ascii.eqb c "/"
  | String _ s' => ends_with_slash s'
  end.

(** [os.path.join (a, b)] of [posixpath]. *)
Definition os_path_join (a b : string) : string :=
  if String.prefix "/" b then b
  else if String.eqb a "" || ends_with_slash a then a +:+ b
  else a +:+ "/" +:+ b.

(** The longest prefix of characters satisfying [p], and the rest. *)
Fixpoint span (p : ascii -> bool) (s : string) : string * string :=
  match s with
  | EmptyString => (EmptyString, EmptyString)
  | String c s' =>
      if p c then let '(a, b) := span p s' in (String c a, b)
      else (EmptyString, s)
  end.

(** The character class of the two patterns: space, backspace (the
    patterns are not raw strings, so backslash-b is the backspace
    character) and tab. *)
Definition is_blank (c : ascii) : bool :=
  Ascii.eqb c " " || Ascii.eqb c backspace || Ascii.eqb c tab.

Definition is_digit (c : ascii) : bool :=
  let n := nat_of_ascii c in (48 <=? n)%nat && (n <=? 57)%nat.

(** The match of the mccabe pattern on a line without newline: at
    least one blank, at least one digit (group 1, the result), at least
    one blank, then anything.  Blanks and digits are disjoint and every
    repetition is followed by a character outside its class, so each
    one takes its whole run. *)
Definition match_mccabe (line : string) : option string :=
  let '(blanks, r1) := span is_blank line in
  if String.eqb blanks "" then None
  else
    let '(digits, r2) := span is_digit r1 in
    if String.eqb digits "" then None
    else match r2 with
         | String c _ => if is_blank c then Some digits else None
         | EmptyString => None
         end.

(** The match of the numComments pattern: blanks, digits (group 1),
    blanks, then the word numComments up to the end of the line. *)
Definition match_numComments (line : string) : option string :=
  let '(blanks, r1) := span is_blank line in
  if String.eqb blanks "" then None
  else
    let '(digits, r2) := span is_digit r1 in
    if String.eqb digits "" then None
    else
      let '(blanks2, r3) := span is_blank r2 in
      if String.eqb blanks2 "" then None
      else if String.eqb r3 "numComments" then Some digits else None.

(** ** Values and the Measures record *)

(** A float is carried by its printed form [str (f)]; the parser of
    floats is a parameter of the environment. *)
Inductive value : Type :=
| VInt (z : Z)
| VStr (s : string)
| VFloat (repr : string).

(** [Measures]: the dictionary of [__init__], one field per key. *)
Record Measures : Type := {
  lang : string;
  loc : option value;
  sloc : option value;
  ncomment : option value;
  lcomment : option value;
  lblank : option value;
  nfunctions : option value;
  mccabe_max : option value;
  mccabe_min : option value;
  mccabe_sum : option value;
  mccabe_mean : option value;
  mccabe_median : option value;
  halstead_length : option value;
  halstead_vol : option value;
  halstead_level : option value;
  halstead_md : option value
}.

Definition Measures_init : Measures :=
  {| lang := "unknown"; loc := None; sloc := None; ncomment := None;
     lcomment := None; lblank := None; nfunctions := None;
     mccabe_max := None; mccabe_min := None; mccabe_sum := None;
     mccabe_mean := None; mccabe_median := None; halstead_length := None;
     halstead_vol := None; halstead_level := None; halstead_md := None |}.

(** ** The cccc XML handler *)

Inductive sax_event : Type :=
| StartElement (name : string) (attributes : list (string * string))
| EndElement (name : string).

Record XMLMetricsHandler : Type := {
  h_comment_lines : Z;
  h_nfunctions : Z;
  h_mccabe_values : list Z;
  h_current : option string
}.

Definition XMLMetricsHandler_init : XMLMetricsHandler :=
  {| h_comment_lines := 0; h_nfunctions := 0; h_mccabe_values := [];
     h_current := None |}.

Fixpoint assoc (k : string) (l : list (string * string)) : option string :=
  match l with
  | [] => None
  | (k', v) :: l' => if String.eqb k k' then Some v else assoc k l'
  end.

Definition option_eqb (o : option string) (s : string) : bool :=
  match o with
  | Some s' => String.eqb s' s
  | None => false
  end.

(** The analyzer classes of the [_metrics] table. *)
Inductive fm_class : Type :=
| CFileMetrics
| CFileMetricsC
| CFileMetricsPython
| CFileMetricsCPP
| CFileMetricsJava.

(** A [FileMetrics] instance: [path], [lang] and [sloc] of [__init__]
    (here [fm_lang], [fm_sloc]: the names are taken by [Measures]), and
    the caches [pymetrics] and [handler] of the subclasses. *)
Record FileMetrics : Type := {
  fm_cls : fm_class;
  path : string;
  fm_lang : string;
  fm_sloc : value;
  pymetrics : option string;
  handler : option XMLMetricsHandler
}.

Definition _metrics (lang : string) : fm_class :=
  if String.eqb lang "unknown" then CFileMetrics
  else if String.eqb lang "ansic" then CFileMetricsC
  else if String.eqb lang "python" then CFileMetricsPython
  else if String.eqb lang "cpp" then CFileMetricsCPP
  else if String.eqb lang "java" then CFileMetricsJava
  else CFileMetrics.

Definition cccc_lang (c : fm_class) : string :=
  match c with
  | CFileMetricsCPP => "c++"
  | CFileMetricsJava => "java"
  | _ => ""
  end.

(** ** The environment *)

(** What the extension calls and does not define: the repository
    backend ([repositoryhandler]), [os.path], [tempfile], [open],
    [FindProgram], [commands], the builtins [int] and [float], and the
    history queries of [pycvsanaly2.utils].  [W] is the state of the
    world (working copies, files).  A backend call gives the new world
    and what it raised, if anything. *)
Record Env (W : Type) : Type := {
  repo_checkout : string -> string -> option string -> string -> W -> W * option exn;
  repo_update : string -> string -> W -> W * option exn;
  repo_get_last_revision : string -> W -> W * result string;
  os_path_isdir : string -> W -> bool;
  os_path_exists : string -> W -> bool;
  mkdtemp : W -> W * string;
  remove_directory : string -> W -> W;
  open_readlines : string -> W -> result (list string);
  find_program : string -> option string;
  getoutput : string -> W -> string;
  (** cccc run on a file in a directory of its own, and the parse of
      the cccc.xml it leaves: [None] when the file cannot be opened,
      else the elements read and the parse error that stopped the
      reading, if any. *)
  cccc_xml : string -> W -> option (list sax_event * option string);
  (** [int (s)]: [None] when it raises. *)
  py_int : string -> option Z;
  (** [str (float (s))]: [None] when [float] raises. *)
  py_float : string -> option string;
  get_path_for_revision : string -> Z -> string -> string;
  path_is_deleted_for_revision : string -> Z -> string -> bool
}.

Arguments repo_checkout {W} _ _ _ _ _ _.
Arguments repo_update {W} _ _ _ _.
Arguments repo_get_last_revision {W} _ _ _.
Arguments os_path_isdir {W} _ _ _.
Arguments os_path_exists {W} _ _ _.
Arguments mkdtemp {W} _ _.
Arguments remove_directory {W} _ _ _.
Arguments open_readlines {W} _ _ _.
Arguments find_program {W} _ _.
Arguments getoutput {W} _ _ _.
Arguments cccc_xml {W} _ _ _.
Arguments py_int {W} _ _.
Arguments py_float {W} _ _.
Arguments get_path_for_revision {W} _ _ _ _.
Arguments path_is_deleted_for_revision {W} _ _ _ _.

(** [except Exception] catches [NotImplementedError] and the other
    exceptions, not the old-style [ProgramNotFound]. *)
Definition is_Exception (e : exn) : bool :=
  match e with
  | ProgramNotFound _ => false
  | NotImplementedError => true
  | Exception _ => true
  end.

Definition str_exn (e : exn) : string :=
  match e with
  | ProgramNotFound p => p
  | NotImplementedError => ""
  | Exception msg => msg
  end.

(** ** The analyzers *)

Section Analyzers.
Context {W : Type} (E : Env W).

(** [try: v = int (s) except: v = 0] *)
Definition int_or_zero (s : result string) : Z :=
  match s with
  | Ok s => default 0 (py_int E s)
  | Raise _ => 0
  end.

(** The loop of [FileMetricsC.get_MccabeComplexity] over the output
    lines: the pair [(nfunctions, mccabe_values)] it leaves. *)
Definition mccabe_scan_C (outputlines : list string) : Z * list Z :=
  fold_left
    (fun '(nfunctions, mccabe_values) l =>
       let values := split_on tab l in
       if negb (Z.of_nat (length values) =? 5) then (nfunctions, mccabe_values)
       else
         let mccabe := int_or_zero (py_getitem values (-2)) in
         (nfunctions + 1, mccabe_values ++ [mccabe]))
    outputlines (0, []).

(** The loop of [FileMetricsPython.get_MccabeComplexity]. *)
Definition mccabe_scan_Python (outputlines : list string) : Z * list Z :=
  fold_left
    (fun '(nfunctions, mccabe_values) line =>
       match match_mccabe line with
       | Some group1 =>
           let nfunctions := nfunctions + 1 in
           let mccabe := int_or_zero (Ok group1) in
           (nfunctions, mccabe_values ++ [mccabe])
       | None => (nfunctions, mccabe_values)
       end)
    outputlines (0, []).

Definition mccabe_tuple : Type :=
  option Z * option Z * option Z * option Z * option Z * option Z.

Definition mccabe_unset : mccabe_tuple := (None, None, None, None, None, None).

(** The common end of the three [get_MccabeComplexity]: the names
    start as [None]; with values the helper sets five of them, without
    values [nfunctions] becomes [None]. *)
Definition mccabe_result (nfunctions : Z) (mccabe_values : list Z)
  : result mccabe_tuple :=
  match mccabe_values with
  | _ :: _ =>
      try! ' (mccabe_sum, mccabe_min, mccabe_max, mccabe_mean, mccabe_median)
        <- _get_mccabe_stats nfunctions mccabe_values ;
      Ok (Some mccabe_sum, Some mccabe_min, Some mccabe_max,
          Some mccabe_mean, Some mccabe_median, Some nfunctions)
  | [] => Ok mccabe_unset
  end.

Definition get_MccabeComplexity_C (self : FileMetrics) (w : W)
  : result mccabe_tuple :=
  match find_program E "mccabe" with
  | None => Raise (ProgramNotFound "mccabe")
  | Some mccabe =>
      let mccabecmd := mccabe +:+ " -n " +:+ path self in
      let outputlines := split_on newline (getoutput E mccabecmd w) in
      let '(nfunctions, mccabe_values) := mccabe_scan_C outputlines in
      mccabe_result nfunctions mccabe_values
  end.

(** [__ensure_pymetrics]: the located program is kept in the
    instance. *)
Definition ensure_pymetrics (self : FileMetrics) : result string * FileMetrics :=
  match pymetrics self with
  | Some p => (Ok p, self)
  | None =>
      let found := find_program E "pymetrics" in
      let self' :=
        {| fm_cls := fm_cls self; path := path self; fm_lang := fm_lang self;
           fm_sloc := fm_sloc self; pymetrics := found; handler := handler self |} in
      match found with
      | Some p => (Ok p, self')
      | None => (Raise (ProgramNotFound "pymetrics"), self')
      end
  end.

Definition get_MccabeComplexity_Python (self : FileMetrics) (w : W)
  : result mccabe_tuple * FileMetrics :=
  match ensure_pymetrics self with
  | (Raise e, self') => (Raise e, self')
  | (Ok pymetrics, self') =>
      let command := pymetrics +:+ " -C -S -B -i mccabe:McCabeMetric " +:+ path self' in
      let outputlines := split_on newline (getoutput E command w) in
      let '(nfunctions, mccabe_values) := mccabe_scan_Python outputlines in
      (mccabe_result nfunctions mccabe_values, self')
  end.

(** *** FileMetricsCCCC *)

Definition attr_int (attributes : list (string * string)) : result Z :=
  match assoc "value" attributes with
  | None => Raise (Exception "KeyError: 'value'")
  | Some v =>
      match py_int E v with
      | Some z => Ok z
      | None => Raise (Exception "invalid literal for int()")
      end
  end.

Definition startElement (h : XMLMetricsHandler) (name : string)
    (attributes : list (string * string)) : result XMLMetricsHandler :=
  if String.eqb name "project_summary" then
    Ok {| h_comment_lines := h_comment_lines h; h_nfunctions := h_nfunctions h;
          h_mccabe_values := h_mccabe_values h; h_current := Some name |}
  else if String.eqb name "lines_of_comment"
          && option_eqb (h_current h) "project_summary" then
    try! v <- attr_int attributes ;
    Ok {| h_comment_lines := v; h_nfunctions := h_nfunctions h;
          h_mccabe_values := h_mccabe_values h; h_current := h_current h |}
  else if String.eqb name "module" then
    Ok {| h_comment_lines := h_comment_lines h;
          h_nfunctions := h_nfunctions h + 1;
          h_mccabe_values := h_mccabe_values h; h_current := Some name |}
  else if String.eqb name "McCabes_cyclomatic_complexity"
          && option_eqb (h_current h) "module" then
    try! v <- attr_int attributes ;
    Ok {| h_comment_lines := h_comment_lines h; h_nfunctions := h_nfunctions h;
          h_mccabe_values := h_mccabe_values h ++ [v];
          h_current := h_current h |}
  else Ok h.

Definition endElement (h : XMLMetricsHandler) (name : string) : XMLMetricsHandler :=
  if String.eqb name "project_summary" || String.eqb name "module" then
    {| h_comment_lines := h_comment_lines h; h_nfunctions := h_nfunctions h;
       h_mccabe_values := h_mccabe_values h; h_current := None |}
  else h.

(** [parser.feed]: the handler object is updated in place, so what it
    collected before an exception stays. *)
Fixpoint feed (h : XMLMetricsHandler) (events : list sax_event)
  : XMLMetricsHandler * option exn :=
  match events with
  | [] => (h, None)
  | StartElement name attributes :: rest =>
      match startElement h name attributes with
      | Ok h' => feed h' rest
      | Raise e => (h, Some e)
      end
  | EndElement name :: rest => feed (endElement h name) rest
  end.

Definition set_handler (self : FileMetrics) (h : XMLMetricsHandler) : FileMetrics :=
  {| fm_cls := fm_cls self; path := path self; fm_lang := fm_lang self;
     fm_sloc := fm_sloc self; pymetrics := pymetrics self; handler := Some h |}.

(** [__ensure_handler]: [self.handler] is assigned before the XML
    file is opened and read. *)
Definition ensure_handler (self : FileMetrics) (w : W)
  : result XMLMetricsHandler * FileMetrics :=
  match handler self with
  | Some h => (Ok h, self)
  | None =>
      match find_program E "cccc" with
      | None => (Raise (ProgramNotFound "cccc"), self)
      | Some cccc =>
          let command :=
            cccc +:+ " --lang=" +:+ cccc_lang (fm_cls self) +:+ " " +:+ path self in
          match cccc_xml E command w with
          | None =>
              (Raise (Exception "IOError: cccc.xml"),
               set_handler self XMLMetricsHandler_init)
          | Some (events, err) =>
              let '(h, raised) := feed XMLMetricsHandler_init events in
              match raised, err with
              | Some e, _ => (Raise e, set_handler self h)
              | None, Some msg => (Raise (Exception msg), set_handler self h)
              | None, None => (Ok h, set_handler self h)
              end
          end
      end
  end.

Definition comments_tuple : Type := option value * option value * option value.

Definition get_CommentsBlank_CCCC (self : FileMetrics) (w : W)
  : result comments_tuple * FileMetrics :=
  match ensure_handler self w with
  | (Raise e, self') => (Raise e, self')
  | (Ok h, self') => (Ok (None, Some (VInt (h_comment_lines h)), None), self')
  end.

(** The helper sorts the list of the handler in place. *)
Definition get_MccabeComplexity_CCCC (self : FileMetrics) (w : W)
  : result mccabe_tuple * FileMetrics :=
  match ensure_handler self w with
  | (Raise e, self') => (Raise e, self')
  | (Ok h, self') =>
      let sorted :=
        {| h_comment_lines := h_comment_lines h; h_nfunctions := h_nfunctions h;
           h_mccabe_values := py_sort (h_mccabe_values h);
           h_current := h_current h |} in
      (mccabe_result (h_nfunctions h) (h_mccabe_values h),
       match h_mccabe_values h with
       | [] => self'
       | _ :: _ => set_handler self' sorted
       end)
  end.

(** *** FileMetricsC: kdsi and halstead *)

Definition get_CommentsBlank_C (self : FileMetrics) (w : W) : result comments_tuple :=
  match find_program E "kdsi" with
  | None => Raise (ProgramNotFound "kdsi")
  | Some kdsi =>
      let kdsicmd := kdsi +:+ " " +:+ path self in
      let outputtext := getoutput E kdsicmd w in
      let output_values :=
        filter (fun x => x <> "") (split_on " " outputtext) in
      match output_values with
      | [_; blank_lines; comment_lines; comment_number; _] =>
          Ok (Some (VStr comment_number), Some (VStr comment_lines),
              Some (VStr blank_lines))
      | _ => Raise (Exception "ValueError: unpack")
      end
  end.

(** [try: v = int (values[i]) except: v = None] *)
Definition int_or_None (values : list string) (i : Z) : option value :=
  match py_getitem values i with
  | Ok s => VInt <$> py_int E s
  | Raise _ => None
  end.

Definition float_or_None (values : list string) (i : Z) : option value :=
  match py_getitem values i with
  | Ok s =>
      match py_float E (replace_char "," "." s) with
      | Some repr =>
          if String.eqb repr "inf" || String.eqb repr "nan" then None
          else Some (VFloat repr)
      | None => None
      end
  | Raise _ => None
  end.

Definition halstead_tuple : Type :=
  option value * option value * option value * option value.

Definition get_HalsteadComplexity_C (self : FileMetrics) (w : W)
  : result halstead_tuple :=
  match find_program E "halstead" with
  | None => Raise (ProgramNotFound "halstead")
  | Some halstead =>
      let halsteadcmd := halstead +:+ " " +:+ path self in
      let values := split_on tab (getoutput E halsteadcmd w) in
      try! filename <- py_getitem values 0 ;
      Ok (int_or_None values 1, int_or_None values 2,
          float_or_None values 3, int_or_None values 4)
  end.

(** *** FileMetricsPython: comments *)

Definition get_CommentsBlank_Python (self : FileMetrics) (w : W)
  : result comments_tuple * FileMetrics :=
  match ensure_pymetrics self with
  | (Raise e, self') => (Raise e, self')
  | (Ok pymetrics, self') =>
      let command := pymetrics +:+ " -C -S -i simple:SimpleMetric " +:+ path self' in
      let outputlines := split_on newline (getoutput E command w) in
      let comment_lines :=
        fold_left
          (fun comment_lines line =>
             match match_numComments line with
             | Some group1 => Some (VStr group1)
             | None => comment_lines
             end)
          outputlines None in
      (Ok (None, comment_lines, None), self')
  end.

(** *** The methods, by class *)

Definition get_LOC (self : FileMetrics) (w : W) : result Z :=
  try! lines <- open_readlines E (path self) w ;
  Ok (Z.of_nat (length lines)).

Definition get_SLOCLang (self : FileMetrics) : result (value * string) :=
  Ok (fm_sloc self, fm_lang self).

Definition get_CommentsBlank (self : FileMetrics) (w : W)
  : result comments_tuple * FileMetrics :=
  match fm_cls self with
  | CFileMetrics => (Raise NotImplementedError, self)
  | CFileMetricsC => (get_CommentsBlank_C self w, self)
  | CFileMetricsPython => get_CommentsBlank_Python self w
  | CFileMetricsCPP | CFileMetricsJava => get_CommentsBlank_CCCC self w
  end.

Definition get_HalsteadComplexity (self : FileMetrics) (w : W)
  : result halstead_tuple :=
  match fm_cls self with
  | CFileMetricsC => get_HalsteadComplexity_C self w
  | _ => Raise NotImplementedError
  end.

Definition get_MccabeComplexity (self : FileMetrics) (w : W)
  : result mccabe_tuple * FileMetrics :=
  match fm_cls self with
  | CFileMetrics => (Raise NotImplementedError, self)
  | CFileMetricsC => (get_MccabeComplexity_C self w, self)
  | CFileMetricsPython => get_MccabeComplexity_Python self w
  | CFileMetricsCPP | CFileMetricsJava => get_MccabeComplexity_CCCC self w
  end.

(** *** create_file_metrics *)

(** The loop over the sloccount lines: a line with the top_dir field
    must have exactly four fields, the first two are kept. *)
Fixpoint sloccount_scan (outputlines : list string) (sloc : value) (lang : string)
  : result (value * string) :=
  match outputlines with
  | [] => Ok (sloc, lang)
  | l :: rest =>
      if py_in (str1 tab +:+ "top_dir" +:+ str1 tab) l then
        match split_on tab l with
        | [sloc'; lang'; _; _] => sloccount_scan rest (VStr sloc') lang'
        | _ => Raise (Exception "ValueError: unpack")
        end
      else sloccount_scan rest sloc lang
  end.

Definition create_file_metrics (path : string) (w : W) : result FileMetrics :=
  let sloc := VInt 0 in
  let lang := "unknown" in
  try! ' (sloc, lang) <-
    match find_program E "sloccount" with
    | Some sloccount =>
        let sloccountcmd := sloccount +:+ " --wide --details " +:+ path in
        let outputlines := split_on newline (getoutput E sloccountcmd w) in
        sloccount_scan outputlines sloc lang
    | None => Ok (sloc, lang)
    end ;
  Ok {| fm_cls := _metrics lang; path := path; fm_lang := lang; fm_sloc := sloc;
        pymetrics := None; handler := None |}.
End Analyzers.

(** ** The Metrics extension *)

Definition RETRIES : Z := 1.
Definition MAX_METRICS : Z := 100.

(** A row of the [metrics] table: the tuple appended to
    [self.metrics], its sixteen measure columns grouped. *)
Record row : Type := {
  r_id : Z;
  r_file_id : Z;
  r_commit_id : Z;
  r_measures : Measures
}.

(** A row of the query for files and revisions. *)
Record workitem : Type := {
  revision : string;
  filepath : string;
  commit_id : Z;
  file_id : Z;
  composed : bool
}.

(** What a run does to the outside, in order: the calls of the
    backend ([repo.checkout], [repo.update], [repo.get_last_revision]),
    the deletion query on the history, the call of
    [create_file_metrics] that starts the analysis of a file, the
    messages of [printout], [printerr] and [printdbg] with their format
    and arguments, and on the database [executemany] and [commit].
    The calls of the profiler are left out. *)
Inductive event : Type :=
| EvCheckout (uri rootdir : string) (newdir : option string) (rev : string)
| EvUpdate (uri rev : string)
| EvGetLastRevision (file_path : string)
| EvDeletedLookup (relative_path : string) (file_id : Z) (rev : string)
| EvAnalyze (checkout_path : string)
| EvPrintout (fmt : string) (args : list value)
| EvPrinterr (fmt : string) (args : list value)
| EvPrintdbg (fmt : string) (args : list value)
| EvExecutemany (rows : list row)
| EvCommit.

Definition pair_eqb (a b : Z * Z) : bool :=
  (fst a =? fst b) && (snd a =? snd b).

(** [(file_id, commit_id) in metrics] on a list of pairs. *)
Definition pair_in (p : Z * Z) (metrics : list (Z * Z)) : bool :=
  existsb (pair_eqb p) metrics.

(** [SELECT file_id, commit_id from metrics] *)
Definition __get_metrics (table : list row) : list (Z * Z) :=
  map (fun res => (r_file_id res, r_commit_id res)) table.

(** [SELECT max(id) from metrics]: [None] on an empty table. *)
Definition select_max_id (table : list row) : option Z :=
  match table with
  | [] => None
  | r :: rest => Some (fold_left Z.max (map r_id rest) (r_id r))
  end.

Definition set_loc (m : Measures) (v : option value) : Measures :=
  {| lang := lang m; loc := v; sloc := sloc m; ncomment := ncomment m;
     lcomment := lcomment m; lblank := lblank m; nfunctions := nfunctions m;
     mccabe_max := mccabe_max m; mccabe_min := mccabe_min m;
     mccabe_sum := mccabe_sum m; mccabe_mean := mccabe_mean m;
     mccabe_median := mccabe_median m; halstead_length := halstead_length m;
     halstead_vol := halstead_vol m; halstead_level := halstead_level m;
     halstead_md := halstead_md m |}.

Definition set_sloc_lang (m : Measures) (s : value) (l : string) : Measures :=
  {| lang := l; loc := loc m; sloc := Some s; ncomment := ncomment m;
     lcomment := lcomment m; lblank := lblank m; nfunctions := nfunctions m;
     mccabe_max := mccabe_max m; mccabe_min := mccabe_min m;
     mccabe_sum := mccabe_sum m; mccabe_mean := mccabe_mean m;
     mccabe_median := mccabe_median m; halstead_length := halstead_length m;
     halstead_vol := halstead_vol m; halstead_level := halstead_level m;
     halstead_md := halstead_md m |}.

Definition set_comments (m : Measures) (t : comments_tuple) : Measures :=
  let '(n, l, b) := t in
  {| lang := lang m; loc := loc m; sloc := sloc m; ncomment := n;
     lcomment := l; lblank := b; nfunctions := nfunctions m;
     mccabe_max := mccabe_max m; mccabe_min := mccabe_min m;
     mccabe_sum := mccabe_sum m; mccabe_mean := mccabe_mean m;
     mccabe_median := mccabe_median m; halstead_length := halstead_length m;
     halstead_vol := halstead_vol m; halstead_level := halstead_level m;
     halstead_md := halstead_md m |}.

Definition set_halstead (m : Measures) (t : halstead_tuple) : Measures :=
  let '(hl, hv, hlev, hmd) := t in
  {| lang := lang m; loc := loc m; sloc := sloc m; ncomment := ncomment m;
     lcomment := lcomment m; lblank := lblank m; nfunctions := nfunctions m;
     mccabe_max := mccabe_max m; mccabe_min := mccabe_min m;
     mccabe_sum := mccabe_sum m; mccabe_mean := mccabe_mean m;
     mccabe_median := mccabe_median m; halstead_length := hl;
     halstead_vol := hv; halstead_level := hlev; halstead_md := hmd |}.

Definition set_mccabe (m : Measures) (t : mccabe_tuple) : Measures :=
  let '(msum, mmin, mmax, mmean, mmedian, nf) := t in
  {| lang := lang m; loc := loc m; sloc := sloc m; ncomment := ncomment m;
     lcomment := lcomment m; lblank := lblank m; nfunctions := VInt <$> nf;
     mccabe_max := VInt <$> mmax; mccabe_min := VInt <$> mmin;
     mccabe_sum := VInt <$> msum; mccabe_mean := VInt <$> mmean;
     mccabe_median := VInt <$> mmedian; halstead_length := halstead_length m;
     halstead_vol := halstead_vol m; halstead_level := halstead_level m;
     halstead_md := halstead_md m |}.

Section Driver.
Context {W : Type} (E : Env W).

(** *** __checkout and __update *)

(** The [while self.RETRIES - count >= 0] loop of [__checkout].
    [fuel] bounds the iterations; [__checkout] gives enough of it
    for the guard to end the loop. *)
Fixpoint checkout_loop (retries : Z) (fuel : nat) (uri rootdir : string)
    (newdir : option string) (rev file_path : string) (count : Z)
    (w : W) (log : list event) : result unit * W * list event :=
  if 0 <=? retries - count then
    match fuel with
    | O => (Ok tt, w, log)
    | S fuel =>
        let log := log ++ [EvCheckout uri rootdir newdir rev] in
        let '(w, raised) := repo_checkout E uri rootdir newdir rev w in
        match raised with
        | Some e => (Raise e, w, log)
        | None =>
            let log := log ++ [EvGetLastRevision file_path] in
            let '(w, new_rev) := repo_get_last_revision E file_path w in
            match new_rev with
            | Ok new_rev =>
                if String.eqb rev new_rev then (Ok tt, w, log)
                else
                  checkout_loop retries fuel uri rootdir newdir rev file_path
                    (count + 1) w
                    (log ++ [EvPrintout "Warning: checkout %s@%s failed in try %d: got %s."
                               [VStr uri; VStr rev; VInt (count + 1); VStr new_rev]])
            | Raise e =>
                if is_Exception e then
                  checkout_loop retries fuel uri rootdir newdir rev file_path
                    (count + 1) w
                    (log ++ [EvPrintout "Warning: checkout %s@%s failed in try %d: %s"
                               [VStr uri; VStr rev; VInt (count + 1); VStr (str_exn e)]])
                else (Raise e, w, log)
            end
        end
    end
  else (Ok tt, w, log).

Definition checkout_with (retries : Z) (uri rootdir : string)
    (newdir : option string) (rev : string) (w : W) (log : list event)
  : result unit * W * list event :=
  let count := 0 in
  let file_path :=
    match newdir with
    | Some newdir => os_path_join rootdir newdir
    | None => os_path_join rootdir uri
    end in
  checkout_loop retries (Z.to_nat (retries + 1)) uri rootdir newdir rev
    file_path count w log.

Definition __checkout := checkout_with RETRIES.

Fixpoint update_loop (retries : Z) (fuel : nat) (uri rev : string) (count : Z)
    (w : W) (log : list event) : result unit * W * list event :=
  if 0 <=? retries - count then
    match fuel with
    | O => (Ok tt, w, log)
    | S fuel =>
        let log := log ++ [EvUpdate uri rev] in
        let '(w, raised) := repo_update E uri rev w in
        match raised with
        | Some e => (Raise e, w, log)
        | None =>
            let log := log ++ [EvGetLastRevision uri] in
            let '(w, new_rev) := repo_get_last_revision E uri w in
            match new_rev with
            | Ok new_rev =>
                if String.eqb rev new_rev then (Ok tt, w, log)
                else
                  update_loop retries fuel uri rev (count + 1) w
                    (log ++ [EvPrintout "Warning: update %s@%s failed in try %d: got %s."
                               [VStr uri; VStr rev; VInt (count + 1); VStr new_rev]])
            | Raise e =>
                if is_Exception e then
                  update_loop retries fuel uri rev (count + 1) w
                    (log ++ [EvPrintout "Warning: update %s@%s failed in try %d: %s"
                               [VStr uri; VStr rev; VInt (count + 1); VStr (str_exn e)]])
                else (Raise e, w, log)
            end
        end
    end
  else (Ok tt, w, log).

Definition update_with (retries : Z) (uri rev : string) (w : W) (log : list event)
  : result unit * W * list event :=
  let count := 0 in
  update_loop retries (Z.to_nat (retries + 1)) uri rev count w log.

Definition __update := update_with RETRIES.

(** *** The state of [run] *)

(** [table] is the [metrics] table of the database, [self_metrics]
    the pending list [self.metrics]. *)
Record state : Type := {
  world : W;
  table : list row;
  self_metrics : list row;
  id_counter : Z;
  current_revision : option string;
  log : list event
}.

Definition with_io (st : state) (w : W) (l : list event) : state :=
  {| world := w; table := table st; self_metrics := self_metrics st;
     id_counter := id_counter st; current_revision := current_revision st;
     log := l |}.

Definition emit (st : state) (e : event) : state :=
  with_io st (world st) (log st ++ [e]).

Definition set_current_revision (st : state) (r : string) : state :=
  {| world := world st; table := table st; self_metrics := self_metrics st;
     id_counter := id_counter st; current_revision := Some r;
     log := log st |}.

(** [__insert_many]: nothing on an empty list, else one
    [executemany] and the list is emptied. *)
Definition __insert_many (st : state) : state :=
  match self_metrics st with
  | [] => st
  | _ :: _ =>
      {| world := world st; table := table st ++ self_metrics st;
         self_metrics := []; id_counter := id_counter st;
         current_revision := current_revision st;
         log := log st ++ [EvExecutemany (self_metrics st)] |}
  end.

Definition commit (st : state) : state := emit st EvCommit.

(** *** Measuring one file *)

(** From [create_file_metrics] to the last [get_] call of the loop
    body.  The result is the [Measures] object and the messages
    printed; an exception that no handler of the body catches ends
    the run. *)
Definition measure (checkout_path rev : string) (w : W) (l : list event)
  : result Measures * list event :=
  let args := [VStr checkout_path; VStr rev] in
  let l := l ++ [EvAnalyze checkout_path] in
  match create_file_metrics E checkout_path w with
  | Raise e => (Raise e, l)
  | Ok fm =>
      let l := l ++ [EvPrintdbg "Measuring %s @ %s" args] in
      let measures := Measures_init in
      match
        match get_LOC E fm w with
        | Ok v => Ok (set_loc measures (Some (VInt v)), l)
        | Raise e =>
            if is_Exception e then
              Ok (measures,
                  l ++ [EvPrinterr "Error running loc for %s@%s. Exception: %s"
                          (args ++ [VStr (str_exn e)])])
            else Raise e
        end
      with
      | Raise e => (Raise e, l)
      | Ok (measures, l) =>
          let '(measures, l) :=
            match get_SLOCLang fm with
            | Ok (s, la) => (set_sloc_lang measures s la, l)
            | Raise (ProgramNotFound p) =>
                (measures,
                 l ++ [EvPrintout "Program %s is not installed. Skipping sloc metric"
                         [VStr p]])
            | Raise e =>
                (measures,
                 l ++ [EvPrinterr "Error running sloc for %s@%s. Exception: %s"
                         (args ++ [VStr (str_exn e)])])
            end in
          let '(r, fm) := get_CommentsBlank E fm w in
          let '(measures, l) :=
            match r with
            | Ok t => (set_comments measures t, l)
            | Raise NotImplementedError => (measures, l)
            | Raise (ProgramNotFound p) =>
                (measures,
                 l ++ [EvPrintout "Program %s is not installed. Skipping CommentsBlank metric"
                         [VStr p]])
            | Raise e =>
                (measures,
                 l ++ [EvPrinterr "Error running CommentsBlank for %s@%s. Exception: %s"
                         (args ++ [VStr (str_exn e)])])
            end in
          let '(measures, l) :=
            match get_HalsteadComplexity E fm w with
            | Ok t => (set_halstead measures t, l)
            | Raise NotImplementedError => (measures, l)
            | Raise (ProgramNotFound p) =>
                (measures,
                 l ++ [EvPrintout "Program %s is not installed. Skipping halstead metric"
                         [VStr p]])
            | Raise e =>
                (measures,
                 l ++ [EvPrinterr "Error running cmetrics halstead for %s@%s. Exception: %s"
                         (args ++ [VStr (str_exn e)])])
            end in
          let '(r, fm) := get_MccabeComplexity E fm w in
          let '(measures, l) :=
            match r with
            | Ok t => (set_mccabe measures t, l)
            | Raise NotImplementedError => (measures, l)
            | Raise (ProgramNotFound p) =>
                (measures,
                 l ++ [EvPrintout "Program %s is not installed. Skipping mccabe metric"
                         [VStr p]])
            | Raise e =>
                (measures,
                 l ++ [EvPrinterr "Error running cmetrics mccabe for %s@%s. Exception: %s"
                         (args ++ [VStr (str_exn e)])])
            end in
          (Ok measures, l)
      end
  end.

(** *** The body of the loop over work items *)

(** [revision.split ("|")[0]] for a composed revision. *)
Definition resolve_rev (it : workitem) : string :=
  if composed it then
    match split_on "|" (revision it) with
    | r :: _ => r
    | [] => revision it
    end
  else revision it.

(** The loop over [topdirs] of the svn branch; an exception of
    [__update] leaves the loop. *)
Fixpoint update_topdirs (topdirs : list (string * string))
    (relative_path rev tmpdir : string) (w : W) (l : list event)
  : result unit * W * list event :=
  match topdirs with
  | [] => (Ok tt, w, l)
  | (topdir, first_rev) :: rest =>
      if String.eqb relative_path topdir && String.eqb rev first_rev then
        update_topdirs rest relative_path rev tmpdir w l
      else if negb (String.prefix topdir relative_path) then
        update_topdirs rest relative_path rev tmpdir w l
      else
        let l := l ++ [EvPrintdbg "Updating tree %s to revision %s"
                         [VStr topdir; VStr rev]] in
        match __update (os_path_join tmpdir topdir) rev w l with
        | (Ok _, w, l) => update_topdirs rest relative_path rev tmpdir w l
        | (Raise e, w, l) => (Raise e, w, l)
        end
  end.

(** The [try] block under [if revision != current_revision]. *)
Definition materialize (type : string) (topdirs : list (string * string))
    (tmpdir relative_path rev : string) (w : W) (l : list event)
  : result unit * W * list event :=
  if String.eqb type "svn" then
    update_topdirs topdirs relative_path rev tmpdir w l
  else
    let l := l ++ [EvPrintdbg "Checking out %s @ %s"
                     [VStr relative_path; VStr rev]] in
    __checkout relative_path tmpdir None rev w l.

Definition append_row (st : state) (it : workitem) (measures : Measures) : state :=
  {| world := world st; table := table st;
     self_metrics :=
       self_metrics st ++
         [{| r_id := id_counter st; r_file_id := file_id it;
             r_commit_id := commit_id it; r_measures := measures |}];
     id_counter := id_counter st; current_revision := current_revision st;
     log := log st |}.

Definition incr_id_counter (st : state) : state :=
  {| world := world st; table := table st; self_metrics := self_metrics st;
     id_counter := id_counter st + 1;
     current_revision := current_revision st; log := log st |}.

(** From [checkout_path = os.path.join (tmpdir, relative_path)] to the
    end of the body. *)
Definition measure_item (tmpdir relative_path rev : string) (it : workitem)
    (st : state) : result unit * state :=
  let checkout_path := os_path_join tmpdir relative_path in
  if os_path_isdir E checkout_path (world st) then (Ok tt, st)
  else if negb (os_path_exists E checkout_path (world st)) then
    (Ok tt, emit st (EvPrinterr "Error measuring %s@%s. File not found"
                       [VStr checkout_path; VStr rev]))
  else
    match measure checkout_path rev (world st) (log st) with
    | (Raise e, l) => (Raise e, with_io st (world st) l)
    | (Ok measures, l) =>
        let st := append_row (with_io st (world st) l) it measures in
        let st :=
          if MAX_METRICS <=? Z.of_nat (length (self_metrics st)) then
            commit (__insert_many st)
          else st in
        (Ok tt, incr_id_counter st)
    end.

(** From [if revision != current_revision] to the end of the body. *)
Definition advance_and_measure (type : string) (topdirs : list (string * string))
    (tmpdir relative_path rev : string) (it : workitem) (st : state)
  : result unit * state :=
  if negb (option_eqb (current_revision st) (revision it)) then
    match materialize type topdirs tmpdir relative_path rev (world st) (log st) with
    | (Ok _, w, l) =>
        measure_item tmpdir relative_path rev it
          (set_current_revision (with_io st w l) (revision it))
    | (Raise e, w, l) =>
        if is_Exception e then
          measure_item tmpdir relative_path rev it
            (set_current_revision
               (with_io st w
                  (l ++ [EvPrinterr "Error obtaining %s@%s. Exception: %s"
                           [VStr relative_path; VStr rev; VStr (str_exn e)]]))
               (revision it))
        else (Raise e, with_io st w l)
    end
  else measure_item tmpdir relative_path rev it st.

(** One iteration of [for revision, filepath, commit_id, file_id,
    composed in read_cursor.fetchall ()].  [metrics] is the list of
    pairs read when the run started. *)
Definition loop_body (type : string) (topdirs : list (string * string))
    (tmpdir : string) (metrics : list (Z * Z)) (it : workitem) (st : state)
  : result unit * state :=
  if pair_in (file_id it, commit_id it) metrics then (Ok tt, st)
  else
    let rev := resolve_rev it in
    let relative_path := filepath it in
    if negb (String.eqb type "cvs") then
      let st := emit st (EvDeletedLookup relative_path (file_id it) rev) in
      if path_is_deleted_for_revision E relative_path (file_id it) rev then
        (Ok tt, emit st (EvPrintdbg "Path %s is deleted in revision %s, skipping"
                           [VStr relative_path; VStr rev]))
      else
        let relative_path :=
          strip "/" (get_path_for_revision E relative_path (file_id it) rev) in
        let st := emit st (EvPrintdbg "File path %s is relative path %s on revision %s"
                             [VStr (filepath it); VStr relative_path; VStr rev]) in
        advance_and_measure type topdirs tmpdir relative_path rev it st
    else advance_and_measure type topdirs tmpdir relative_path rev it st.

(** The [for] loop: an exception that leaves the body leaves the
    loop. *)
Fixpoint loop (type : string) (topdirs : list (string * string))
    (tmpdir : string) (metrics : list (Z * Z)) (items : list workitem)
    (st : state) : result unit * state :=
  match items with
  | [] => (Ok tt, st)
  | it :: rest =>
      match loop_body type topdirs tmpdir metrics it st with
      | (Ok _, st) => loop type topdirs tmpdir metrics rest st
      | (Raise e, st) => (Raise e, st)
      end
  end.

(** *** run *)

(** The checkout of each top level directory at its first revision
    (svn only); any exception there ends the run with an
    [ExtensionRunError]. *)
Fixpoint checkout_topdirs (rows : list (string * Z * string)) (tmpdir : string)
    (topdirs : list (string * string)) (w : W) (l : list event)
  : result (list (string * string)) * W * list event :=
  match rows with
  | [] => (Ok topdirs, w, l)
  | (topdir, topdir_id, first_rev) :: rest =>
      let topdirs := topdirs ++ [(topdir, first_rev)] in
      let aux_topdir :=
        strip "/" (get_path_for_revision E topdir topdir_id first_rev) in
      match __checkout aux_topdir tmpdir (Some topdir) first_rev w l with
      | (Ok _, w, l) => checkout_topdirs rest tmpdir topdirs w l
      | (Raise e, w, l) =>
          if is_Exception e then
            (Raise (Exception ("SVN checkout first rev (" +:+ first_rev +:+
                               ") failed. Error: " +:+ str_exn e)), w, l)
          else (Raise e, w, l)
      end
  end.

(** [run]: [type] is [repo.get_type ()], [topdir_rows] and [items] are
    the results of the two history queries, [db] is the [metrics]
    table when the run starts ([None]: there is no such table) and
    [w] the world then.  [self.metrics] is the empty list of
    [__init__]. *)
Definition run (type : string) (topdir_rows : list (string * Z * string))
    (items : list workitem) (db : option (list row)) (w : W)
  : result unit * state :=
  let id_counter0 := 1 in
  let '(tbl, id_counter0, metrics, l) :=
    match db with
    | None => ([], id_counter0, [], [EvCommit])
    | Some rows =>
        (rows,
         match select_max_id rows with
         | Some id => id + 1
         | None => id_counter0
         end,
         __get_metrics rows, [])
    end in
  let '(w, tmpdir) := mkdtemp E w in
  let st0 :=
    {| world := w; table := tbl; self_metrics := []; id_counter := id_counter0;
       current_revision := None; log := l |} in
  let '(topdirs, st) :=
    if String.eqb type "svn" then
      match checkout_topdirs topdir_rows tmpdir [] w l with
      | (Ok topdirs, w, l) =>
          (Ok topdirs,
           with_io st0 w (l ++ [EvPrintdbg "SVN checkout first rev finished" []]))
      | (Raise e, w, l) => (Raise e, with_io st0 w l)
      end
    else (Ok [], st0) in
  match topdirs with
  | Raise e => (Raise e, st)
  | Ok topdirs =>
      match loop type topdirs tmpdir metrics items st with
      | (Raise e, st) => (Raise e, st)
      | (Ok _, st) =>
          let st := commit (__insert_many st) in
          (Ok tt, with_io st (remove_directory E tmpdir (world st)) (log st))
      end
  end.
End Driver.

(** ** A small concrete world *)

(** Working copies as a finite table from paths to the revision found
    there, and a list of directories.  A checkout puts the one path
    that was asked for at the revision asked for, as a checkout of a
    single file does. *)
Record fs : Type := {
  fs_files : list (string * string);
  fs_dirs : list string
}.

Fixpoint fs_lookup (p : string) (files : list (string * string)) : option string :=
  match files with
  | [] => None
  | (q, r) :: rest => if String.eqb p q then Some r else fs_lookup p rest
  end.

Definition fs_put (p r : string) (w : fs) : fs :=
  {| fs_files := (p, r) :: fs_files w; fs_dirs := fs_dirs w |}.

Definition fs_empty : fs := {| fs_files := []; fs_dirs := [] |}.

(** Decimal digits to a number; [None] on anything else. *)
Fixpoint decimal_acc (s : string) (acc : Z) : option Z :=
  match s with
  | EmptyString => Some acc
  | String c s' =>
      if is_digit c then decimal_acc s' (10 * acc + Z.of_nat (nat_of_ascii c) - 48)
      else None
  end.

Definition decimal (s : string) : option Z :=
  match s with
  | EmptyString => None
  | _ => decimal_acc s 0
  end.

(** [tools] locates programs, [output] is what a command prints,
    [deleted] answers the deletion query, and with [stale] the backend
    reports the revision [stale] after every operation. *)
Definition fake_env (tools : string -> option string) (output : string -> string)
    (deleted : string -> Z -> string -> bool) (stale : option string) : Env fs :=
  {| repo_checkout := fun uri rootdir newdir rev w =>
       (fs_put (os_path_join rootdir (default uri newdir)) rev w, None);
     repo_update := fun uri rev w => (fs_put uri rev w, None);
     repo_get_last_revision := fun p w =>
       (w, match stale with
           | Some r => Ok r
           | None =>
               match fs_lookup p (fs_files w) with
               | Some r => Ok r
               | None => Raise (Exception "not a working copy")
               end
           end);
     os_path_isdir := fun p w => existsb (String.eqb p) (fs_dirs w);
     os_path_exists := fun p w =>
       existsb (String.eqb p) (fs_dirs w) ||
       match fs_lookup p (fs_files w) with Some _ => true | None => false end;
     mkdtemp := fun w => (w, "/tmp/tmpmetrics");
     remove_directory := fun d w =>
       {| fs_files :=
            List.filter (fun '(p, _) => negb (String.prefix d p)) (fs_files w);
          fs_dirs := List.filter (fun p => negb (String.prefix d p)) (fs_dirs w) |};
     open_readlines := fun p w =>
       match fs_lookup p (fs_files w) with
       | Some _ => Ok ["import os"; "print os.getcwd ()"]
       | None => Raise (Exception "No such file or directory")
       end;
     find_program := tools;
     getoutput := fun cmd w => output cmd;
     cccc_xml := fun cmd w => None;
     py_int := decimal;
     py_float := fun s => None;
     get_path_for_revision := fun p fid rev => p;
     path_is_deleted_for_revision := deleted |}.

Definition no_tools (program : string) : option string := None.
Definition no_output (cmd : string) : string := "".
Definition never_deleted (p : string) (fid : Z) (rev : string) : bool := false.

Definition item (rev filepath : string) (commit file : Z) : workitem :=
  {| revision := rev; filepath := filepath; commit_id := commit;
     file_id := file; composed := false |}.

(** The sizes of the [executemany] calls of a log, in order. *)
Definition flush_sizes (l : list event) : list Z :=
  omap (fun e =>
          match e with
          | EvExecutemany rows => Some (Z.of_nat (length rows))
          | _ => None
          end) l.

(** The calls of the backend's checkout and update in a log. *)
Definition is_attempt (e : event) : bool :=
  match e with
  | EvCheckout _ _ _ _ | EvUpdate _ _ => true
  | _ => false
  end.

Definition attempts (l : list event) : Z :=
  Z.of_nat (length (List.filter is_attempt l)).

(** The events of materializing and measuring: everything but the
    deletion query and the writes to the database. *)
Definition is_work_event (e : event) : bool :=
  match e with
  | EvDeletedLookup _ _ _ | EvExecutemany _ | EvCommit => false
  | _ => true
  end.

Definition is_printerr (e : event) : bool :=
  match e with
  | EvPrinterr _ _ => true
  | _ => false
  end.

Definition row_pair (r : row) : Z * Z := (r_file_id r, r_commit_id r).

Definition item_pair (it : workitem) : Z * Z := (file_id it, commit_id it).

(** The sizes of the flushes of [n] records written in batches of
    [MAX_METRICS]: full batches, then the rest if there is one. *)
Definition batch_sizes (n : Z) : list Z :=
  replicate (Z.to_nat (n / MAX_METRICS)) MAX_METRICS ++
  (if n mod MAX_METRICS =? 0 then [] else [n mod MAX_METRICS]).

(** ** Predicates used by the statements *)

(** [nfunctions] of an accumulator of the scans counts its values. *)
Definition counted (acc : Z * list Z) : Prop :=
  fst acc = Z.of_nat (length (snd acc)).

(** [l'] is [l] followed by events that all satisfy [P]. *)
Definition extends (P : event -> bool) (l l' : list event) : Prop :=
  exists evs, l' = l ++ evs /\ forallb P evs = true.

(** Everything but the writes to the database. *)
Definition is_quiet (e : event) : bool :=
  match e with
  | EvExecutemany _ | EvCommit => false
  | _ => true
  end.

Definition mkrow (id : Z) (it : workitem) (m : Measures) : row :=
  {| r_id := id; r_file_id := file_id it; r_commit_id := commit_id it;
     r_measures := m |}.

Section Posts.
Context {W : Type} (E : Env W).

(** The backend never reports [rev] after an operation (it reports
    another revision, or the query fails with an [Exception]). *)
Definition never_verifies (rev : string) : Prop :=
  forall p w,
    match snd (repo_get_last_revision E p w) with
    | Ok r => r <> rev
    | Raise e => is_Exception e = true
    end.

Definition unchanged_db (st st' : @state W) : Prop :=
  table st' = table st /\ self_metrics st' = self_metrics st
  /\ id_counter st' = id_counter st.

(** What one iteration for the item [it] does to the state: either
    the database side is untouched, or exactly one row for [it] with
    the id [id_counter] is appended to the pending list, which is
    written and committed when it has reached [MAX_METRICS]. *)
Inductive body_post (P : event -> bool) (it : workitem) (st : @state W)
  : result unit -> @state W -> Prop :=
| post_skip r st' :
    unchanged_db st st' ->
    extends P (log st) (log st') ->
    body_post P it st r st'
| post_append st' m evs :
    forallb P evs = true ->
    id_counter st' = id_counter st + 1 ->
    (let pend := self_metrics st ++ [mkrow (id_counter st) it m] in
     if MAX_METRICS <=? Z.of_nat (length pend)
     then table st' = table st ++ pend /\ self_metrics st' = []
          /\ log st' = log st ++ evs ++ [EvExecutemany pend; EvCommit]
     else table st' = table st /\ self_metrics st' = pend
          /\ log st' = log st ++ evs) ->
    body_post P it st (Ok tt) st'.

(** The path the body of the loop tests on disk for the item. *)
Definition checkout_path_of (type tmpdir : string) (it : workitem) : string :=
  os_path_join tmpdir
    (if negb (String.eqb type "cvs") then
       strip "/" (get_path_for_revision E (filepath it) (file_id it) (resolve_rev it))
     else filepath it).
End Posts.

Section StateMeasures.
Context {W : Type}.

(** The length of the pending list [self.metrics]. *)
Definition plen (st : @state W) : Z := Z.of_nat (length (self_metrics st)).
End StateMeasures.

(** The first value of [id_counter]: 1 after the table was created,
    [max (id) + 1] when it was there, 1 again when it was there and
    empty. *)
Definition seed_of (db : option (list row)) : Z :=
  match db with
  | None => 1
  | Some rows =>
      match select_max_id rows with
      | Some id => id + 1
      | None => 1
      end
  end.

Definition is_deleted_lookup (e : event) : bool :=
  match e with
  | EvDeletedLookup _ _ _ => true
  | _ => false
  end.

Definition is_printout (e : event) : bool :=
  match e with
  | EvPrintout _ _ => true
  | _ => false
  end.

(** ** Concrete runs *)

(** No tool installed, nothing deleted, a backend that verifies. *)
Definition plain_env : Env fs := fake_env no_tools no_output never_deleted None.

(** A backend that reports revision 0 whatever was asked. *)
Definition stale_env : Env fs :=
  fake_env no_tools no_output never_deleted (Some "0").

(** History says that every path is deleted. *)
Definition deleted_env : Env fs :=
  fake_env no_tools no_output (fun _ _ _ => true) None.

(** Only mccabe is installed, and it prints a line that is not a
    function line. *)
Definition mccabe_env : Env fs :=
  fake_env (fun p => assoc p [("mccabe", "/usr/bin/mccabe")])
    (fun cmd => "no functions found") never_deleted None.

(** Two files of one CVS commit: both are at revision 1.1. *)
Definition items_ab : list workitem :=
  [item "1.1" "a" 1 1; item "1.1" "b" 1 2].

Definition first_run : result unit * @state fs :=
  run plain_env "cvs" [] items_ab None fs_empty.

(** The same query against the table and the world the first run
    left. *)
Definition second_run : result unit * @state fs :=
  run plain_env "cvs" [] items_ab (Some (table (snd first_run)))
    (world (snd first_run)).

(** A world where the path of the work item is a directory. *)
Definition dir_world : fs :=
  {| fs_files := []; fs_dirs := ["/tmp/tmpmetrics/src"] |}.

Definition dir_run : result unit * @state fs :=
  run plain_env "cvs" [] [item "1.1" "src" 1 1] None dir_world.

Definition state0 (w : fs) : @state fs :=
  {| world := w; table := []; self_metrics := []; id_counter := 1;
     current_revision := None; log := [] |}.

(** 250 files of one revision, all at the same path of the working
    copy. *)
Definition items250 : list workitem :=
  map (fun i => item "r1" "f" 1 (Z.of_nat i)) (seq 0 250).

Definition c_file : FileMetrics :=
  {| fm_cls := CFileMetricsC; path := "main.c"; fm_lang := "ansic";
     fm_sloc := VStr "10"; pymetrics := None; handler := None |}.

(** ** The command line of [pycvsanaly/main.py] *)

(** The local names of [main] that the options set. *)
Record options : Type := {
  user : string;
  passwd : option string;
  hostname : string;
  database : string;
  branch : option string;
  driver : string;
  logfile : option string
}.

Definition default_options : options :=
  {| user := "operator"; passwd := None; hostname := "localhost";
     database := "cvsanaly"; branch := None; driver := "sqlite";
     logfile := None |}.

Inductive printed : Type :=
| Usage
| Version.

(** The loop over the options either returns (what it printed and the
    exit code) or goes on with the names set. *)
Inductive opts_result : Type :=
| Return (what : printed) (code : Z)
| Continue (o : options).

(** [opt in (a, b, ...)] on a tuple of strings. *)
Definition in_tuple (opt : string) (t : list string) : bool :=
  existsb (String.eqb opt) t.

(** One iteration of [for opt, value in opts].  The test of the driver
    option is written [opt in ("--db-driver")], which is a test on a
    string, not on a tuple: [opt] is searched in it as a substring. *)
Definition option_step (o : options) (opt value : string) : opts_result :=
  if in_tuple opt ["-h"; "--help"; "-help"] then Return Usage 0
  else if in_tuple opt ["-V"; "--version"] then Return Version 0
  else if in_tuple opt ["-u"; "--db-user"] then
    Continue {| user := value; passwd := passwd o; hostname := hostname o;
                database := database o; branch := branch o; driver := driver o;
                logfile := logfile o |}
  else if in_tuple opt ["-p"; "--db-password"] then
    Continue {| user := user o; passwd := Some value; hostname := hostname o;
                database := database o; branch := branch o; driver := driver o;
                logfile := logfile o |}
  else if in_tuple opt ["-H"; "--db-hostname"] then
    Continue {| user := user o; passwd := passwd o; hostname := value;
                database := database o; branch := branch o; driver := driver o;
                logfile := logfile o |}
  else if in_tuple opt ["-d"; "--db-database"] then
    Continue {| user := user o; passwd := passwd o; hostname := hostname o;
                database := value; branch := branch o; driver := driver o;
                logfile := logfile o |}
  else if py_in opt "--db-driver" then
    Continue {| user := user o; passwd := passwd o; hostname := hostname o;
                database := database o; branch := branch o; driver := value;
                logfile := logfile o |}
  else if in_tuple opt ["-b"; "--branch"] then
    Continue {| user := user o; passwd := passwd o; hostname := hostname o;
                database := database o; branch := Some value; driver := driver o;
                logfile := logfile o |}
  else if in_tuple opt ["-l"; "--repo-logfile"] then
    Continue {| user := user o; passwd := passwd o; hostname := hostname o;
                database := database o; branch := branch o; driver := driver o;
                logfile := Some value |}
  else Continue o.

Fixpoint option_loop (opts : list (string * string)) (o : options) : opts_result :=
  match opts with
  | [] => Continue o
  | (opt, value) :: rest =>
      match option_step o opt value with
      | Return what code => Return what code
      | Continue o' => option_loop rest o'
      end
  end.

(** The option names [getopt.getopt] can give with [short_opts] and
    [long_opts] of [main]. *)
Definition getopt_names : list string :=
  ["-h"; "-V"; "-b"; "-l"; "-u"; "-p"; "-d"; "-H";
   "--help"; "--version"; "--branch"; "--repo-logfile"; "--db-user";
   "--db-password"; "--db-hostname"; "--db-database"; "--db-driver"].

(** [s.strip ()]: the white space of Python 2 on both ends. *)
Definition is_space (c : ascii) : bool :=
  let n := nat_of_ascii c in
  (n =? 32)%nat || ((9 <=? n)%nat && (n <=? 13)%nat).

Fixpoint lstrip_ws (s : string) : string :=
  match s with
  | EmptyString => EmptyString
  | String a s' => if is_space a then lstrip_ws s' else s
  end.

Fixpoint rstrip_ws (s : string) : string :=
  match s with
  | EmptyString => EmptyString
  | String a s' =>
      match rstrip_ws s' with
      | EmptyString => if is_space a then EmptyString else str1 a
      | r => String a r
      end
  end.

Definition strip_ws (s : string) : string := rstrip_ws (lstrip_ws s).

(** [repo.get_uri ().split ("/")[-1].strip ()]: the name under which a
    new repository is stored. *)
Definition repo_name (uri : string) : result string :=
  try! last_item <- py_getitem (split_on "/" uri) (-1) ;
  Ok (strip_ws last_item).

(** ** Further predicates *)

Fixpoint has_char (c : ascii) (s : string) : bool :=
  match s with
  | EmptyString => false
  | String a s' => Ascii.eqb a c || has_char c s'
  end.

(** A line of mccabe that stands for a function: five fields. *)
Definition is_function_line (l : string) : bool :=
  Z.of_nat (length (split_on tab l)) =? 5.

(** A line of sloccount with the top_dir field. *)
Definition is_top_dir_line (l : string) : bool :=
  py_in (str1 tab +:+ "top_dir" +:+ str1 tab) l.

(** The sloc and the language of a line with exactly four fields. *)
Definition top_dir_fields (l : string) : option (value * string) :=
  match split_on tab l with
  | [sloc'; lang'; _; _] => Some (VStr sloc', lang')
  | _ => None
  end.

(** What the handler of cccc keeps true of itself: values are only
    collected inside a module, and every module was counted. *)
Definition handler_inv (h : XMLMetricsHandler) : Prop :=
  0 <= h_nfunctions h
  /\ (h_current h = Some "module" -> 1 <= h_nfunctions h)
  /\ (h_mccabe_values h <> [] -> 1 <= h_nfunctions h).

Definition handler_ok (self : FileMetrics) : Prop :=
  match handler self with
  | Some h => handler_inv h
  | None => True
  end.

(** The warnings of the retry loops in a log. *)
Definition warnings (l : list event) : Z :=
  Z.of_nat (length (List.filter is_printout l)).

Definition is_analyze (e : event) : bool :=
  match e with
  | EvAnalyze _ => true
  | _ => false
  end.

(** ** More concrete runs *)

(** sloccount is installed; for the file b of the working copy it
    prints a top_dir line with three fields only, for the others
    nothing. *)
Definition broken_line : string := "10" +:+ str1 tab +:+ "top_dir" +:+ str1 tab +:+ "/x".

Definition broken_sloccount_env : Env fs :=
  fake_env (fun p => assoc p [("sloccount", "/usr/bin/sloccount")])
    (fun cmd => if py_in "tmpmetrics/b" cmd then broken_line else "")
    never_deleted None.

Definition items_ab2 : list workitem :=
  [item "1.2" "a" 2 1; item "1.1" "b" 1 2].

(** Only cccc is installed, and its XML file cannot be opened. *)
Definition cccc_env : Env fs :=
  fake_env (fun p => assoc p [("cccc", "/usr/bin/cccc")]) no_output
    never_deleted None.

Definition cpp_file : FileMetrics :=
  {| fm_cls := CFileMetricsCPP; path := "main.cpp"; fm_lang := "cpp";
     fm_sloc := VStr "10"; pymetrics := None; handler := None |}.

(** A backend whose checkout always raises. *)
Definition failing_env : Env fs :=
  {| repo_checkout := fun uri rootdir newdir rev w =>
       (w, Some (Exception "connection refused"));
     repo_update := repo_update plain_env;
     repo_get_last_revision := repo_get_last_revision plain_env;
     os_path_isdir := os_path_isdir plain_env;
     os_path_exists := os_path_exists plain_env;
     mkdtemp := mkdtemp plain_env;
     remove_directory := remove_directory plain_env;
     open_readlines := open_readlines plain_env;
     find_program := find_program plain_env;
     getoutput := getoutput plain_env;
     cccc_xml := cccc_xml plain_env;
     py_int := py_int plain_env;
     py_float := py_float plain_env;
     get_path_for_revision := get_path_for_revision plain_env;
     path_is_deleted_for_revision := path_is_deleted_for_revision plain_env |}.

Definition row0 (id file commit : Z) : row :=
  {| r_id := id; r_file_id := file; r_commit_id := commit;
     r_measures := Measures_init |}.


(** The languages that have an analyzer of their own. *)
Definition analyzed_langs : list string := ["ansic"; "python"; "cpp"; "java"].

(** The fields of a record that only an analyzer of a language sets. *)
Definition analyzer_fields (m : Measures) : list (option value) :=
  [ncomment m; lcomment m; lblank m; nfunctions m; mccabe_max m; mccabe_min m;
   mccabe_sum m; mccabe_mean m; mccabe_median m; halstead_length m;
   halstead_vol m; halstead_level m; halstead_md m].

(** Only kdsi is installed; it prints five numbers in columns. *)
Definition kdsi_env : Env fs :=
  fake_env (fun p => assoc p [("kdsi", "/usr/bin/kdsi")])
    (fun cmd => "    12      3      4      2 main.c")
    never_deleted None.

Definition base_file (p : string) : FileMetrics :=
  {| fm_cls := CFileMetrics; path := p; fm_lang := "unknown";
     fm_sloc := VInt 0; pymetrics := None; handler := None |}.

(** An analysed file lies under the directory [tmpdir]. *)
Definition analysed_under (tmpdir : string) (e : event) : bool :=
  match e with
  | EvAnalyze p => String.prefix tmpdir p
  | _ => true
  end.

(** The calls of the update of the backend. *)
Definition is_update (e : event) : bool :=
  match e with
  | EvUpdate _ _ => true
  | _ => false
  end.

Definition no_update (e : event) : bool := negb (is_update e).

(** The world of [fake_env] with all tools chosen: [xml] is what the
    XML file of cccc holds, and [floats] lists the strings [float]
    accepts, each with the printed form of its value. *)
Definition lab_env (tools : string -> option string) (output : string -> string)
    (xml : option (list sax_event * option string))
    (floats : list (string * string)) : Env fs :=
  {| repo_checkout := repo_checkout plain_env;
     repo_update := repo_update plain_env;
     repo_get_last_revision := repo_get_last_revision plain_env;
     os_path_isdir := os_path_isdir plain_env;
     os_path_exists := os_path_exists plain_env;
     mkdtemp := mkdtemp plain_env;
     remove_directory := remove_directory plain_env;
     open_readlines := open_readlines plain_env;
     find_program := tools;
     getoutput := fun cmd w => output cmd;
     cccc_xml := fun cmd w => xml;
     py_int := py_int plain_env;
     py_float := fun s => assoc s floats;
     get_path_for_revision := get_path_for_revision plain_env;
     path_is_deleted_for_revision := path_is_deleted_for_revision plain_env |}.

(** Strings [float] accepts, with [str] of the value. *)
Definition float_table : list (string * string) :=
  [("0.05", "0.05"); ("inf", "inf"); ("-inf", "-inf"); ("nan", "nan")].

(** halstead is installed and prints a line of five fields, the level
    with a decimal comma. *)
Definition halstead_lab_env : Env fs :=
  lab_env (fun p => assoc p [("halstead", "/usr/bin/halstead")])
    (fun cmd => "main.c" +:+ str1 tab +:+ "120" +:+ str1 tab +:+ "640"
                +:+ str1 tab +:+ "0,05" +:+ str1 tab +:+ "7")
    None float_table.

(** The XML file of cccc for a file of two modules. *)
Definition cccc_events : list sax_event :=
  [StartElement "CCCC_Project" [];
   StartElement "project_summary" [];
   StartElement "lines_of_comment" [("value", "4"); ("level", "0")];
   EndElement "lines_of_comment";
   EndElement "project_summary";
   StartElement "module" [];
   StartElement "McCabes_cyclomatic_complexity" [("value", "5"); ("level", "0")];
   EndElement "McCabes_cyclomatic_complexity";
   EndElement "module";
   StartElement "module" [];
   StartElement "McCabes_cyclomatic_complexity" [("value", "3"); ("level", "0")];
   EndElement "McCabes_cyclomatic_complexity";
   EndElement "module";
   EndElement "CCCC_Project"].

Definition cccc_lab_env : Env fs :=
  lab_env (fun p => assoc p [("cccc", "/usr/bin/cccc")]) no_output
    (Some (cccc_events, None)) [].

(** The file [cpp_file] after cccc has run on it once. *)
Definition cpp_file_measured : FileMetrics :=
  snd (get_CommentsBlank_CCCC cccc_lab_env cpp_file fs_empty).

(** sloccount and mccabe work, kdsi prints a line that cannot be
    unpacked, halstead is not installed. *)
Definition mixed_env : Env fs :=
  lab_env
    (fun p => assoc p [("sloccount", "/usr/bin/sloccount"); ("kdsi", "/usr/bin/kdsi");
                       ("mccabe", "/usr/bin/mccabe")])
    (fun cmd =>
       if py_in "sloccount" cmd then
         "12" +:+ str1 tab +:+ "ansic" +:+ str1 tab +:+ "top_dir" +:+ str1 tab
           +:+ "/tmp/tmpmetrics"
       else if py_in "kdsi" cmd then "kdsi: cannot open file"
       else "main.c" +:+ str1 tab +:+ "main" +:+ str1 tab +:+ "1" +:+ str1 tab
              +:+ "4" +:+ str1 tab +:+ "20")
    None [].

Definition mixed_file : FileMetrics :=
  {| fm_cls := CFileMetricsC; path := "/tmp/tmpmetrics/a.c"; fm_lang := "ansic";
     fm_sloc := VStr "12"; pymetrics := None; handler := None |}.

Definition mixed_world : fs := fs_put "/tmp/tmpmetrics/a.c" "1.1" fs_empty.

(** * Properties *)

(** ** The statistics helper *)

Section Aggregator.
Implicit Types (vs s : list Z) (x a : Z).

Lemma fold_left_add vs a : fold_left Z.add vs a = a + spec_sum vs.
Proof.
  revert a; induction vs as [|x vs IH]; intros a; simpl; [lia|].
  rewrite IH. unfold spec_sum. simpl. lia.
Qed.

Lemma py_sum_spec vs : py_sum vs = spec_sum vs.
Proof. unfold py_sum. rewrite fold_left_add. lia. Qed.

Lemma fold_left_min_least vs a : is_least (fold_left Z.min vs a) (a :: vs).
Proof.
  revert a; induction vs as [|x vs IH]; intros a; simpl.
  - split; [left | repeat constructor; lia].
  - destruct (IH (Z.min a x)) as [Hin Hall].
    apply Forall_cons in Hall as [Hm Hall]. split.
    + apply elem_of_cons in Hin as [->|Hin].
      * destruct (Z.min_spec a x) as [[_ ->]|[_ ->]];
          [left | right; left].
      * by do 2 right.
    + repeat constructor; [lia..|done].
Qed.

Lemma fold_left_max_greatest vs a : is_greatest (fold_left Z.max vs a) (a :: vs).
Proof.
  revert a; induction vs as [|x vs IH]; intros a; simpl.
  - split; [left | repeat constructor; lia].
  - destruct (IH (Z.max a x)) as [Hin Hall].
    apply Forall_cons in Hall as [Hm Hall]. split.
    + apply elem_of_cons in Hin as [->|Hin].
      * destruct (Z.max_spec a x) as [[_ ->]|[_ ->]];
          [right; left | left].
      * by do 2 right.
    + repeat constructor; [lia..|done].
Qed.

Lemma py_sort_unique vs s : Sorted Z.le s → s ≡ₚ vs → py_sort vs = s.
Proof.
  intros Hs Hp. apply (Sorted_unique Z.le).
  - apply Sorted_merge_sort; apply _.
  - done.
  - unfold py_sort. by rewrite merge_sort_Permutation.
Qed.

Lemma py_sort_length vs : length (py_sort vs) = length vs.
Proof. unfold py_sort. by rewrite merge_sort_Permutation. Qed.

Lemma py_getitem_nth s (i : nat) :
  (i < length s)%nat → py_getitem s (Z.of_nat i) = Ok (nth i s 0).
Proof.
  intros Hi. unfold py_getitem.
  assert ((Z.of_nat i <? 0) = false) as -> by lia.
  assert (((Z.of_nat i <? 0) || (Z.of_nat (length s) <=? Z.of_nat i)) = false) as ->.
  { apply orb_false_iff; split; lia. }
  rewrite Nat2Z.id.
  destruct (s !! i) as [x|] eqn:Hx.
  - f_equal. symmetry. by apply nth_lookup_Some with (d := 0) in Hx.
  - apply lookup_ge_None in Hx. lia.
Qed.

Lemma land_1_odd (n : nat) : negb (Z.land (Z.of_nat n) 1 =? 0) = Nat.odd n.
Proof.
  change 1 with (Z.ones 1). rewrite Z.land_ones by lia.
  change (2 ^ 1) with 2.
  change 2 with (Z.of_nat 2). rewrite <- Nat2Z.inj_mod.
  destruct (Nat.odd n) eqn:Ho.
  - apply Nat.odd_spec in Ho. destruct Ho as [k ->].
    replace ((2 * k + 1) mod 2)%nat with 1%nat; [done|].
    rewrite Nat.add_comm, Nat.mul_comm, Nat.Div0.mod_add. done.
  - assert (Nat.even n = true) as He.
    { rewrite <- Nat.negb_odd, Ho. done. }
    apply Nat.even_spec in He. destruct He as [k ->].
    rewrite Nat.mul_comm, Nat.Div0.mod_mul. done.
Qed.

Lemma half_lt (n : nat) : (1 <= n)%nat → (n / 2 < n)%nat.
Proof. intros. apply Nat.div_lt; lia. Qed.

(** C2. Aggregator correctness: for a non-empty list of non-negative
    values passed with its length as unit count, the helper returns the
    sum, the least and the greatest value, the mean (sum divided by the
    count, floor division, which truncates here) and the median of the
    ascending list: its middle element for an odd count, the floor
    average of its two central elements for an even count.  The list
    [[4]] gives median 4 and mean 4, [[2; 4]] gives mean 3 and median
    3, [[1; 2; 3]] gives median 2. *)
Theorem aggregator_correct vs :
  vs ≠ [] →
  Forall (λ v, 0 <= v) vs →
  (∃ mn mx md,
     _get_mccabe_stats (Z.of_nat (length vs)) vs
       = Ok (spec_sum vs, mn, mx, spec_mean vs, md)
     ∧ is_least mn vs ∧ is_greatest mx vs
     ∧ spec_mean vs = spec_sum vs ÷ Z.of_nat (length vs)
     ∧ ∀ s, Sorted Z.le s → s ≡ₚ vs → md = spec_median s)
  ∧ _get_mccabe_stats 1 [4] = Ok (4, 4, 4, 4, 4)
  ∧ _get_mccabe_stats 2 [2; 4] = Ok (6, 2, 4, 3, 3)
  ∧ (∃ sm mn mx mean, _get_mccabe_stats 3 [1; 2; 3] = Ok (sm, mn, mx, mean, 2)).
Proof.
  intros Hne Hpos. split; [|split; [done|split; [done|by eexists _, _, _, _]]].
  destruct vs as [|x vs]; [done|]. clear Hne.
  set (l := x :: vs) in *.
  set (n := length l).
  assert (1 <= n)%nat as Hn by (subst n l; simpl; lia).
  assert (0 <= spec_sum l) as Hsum.
  { clear -Hpos. induction Hpos; unfold spec_sum in *; simpl; lia. }
  assert (length (py_sort l) = n) as Hlen by apply py_sort_length.
  unfold _get_mccabe_stats. rewrite py_sum_spec.
  assert ((1 <=? Z.of_nat n) = true) as -> by lia.
  change (py_min l) with (Ok (fold_left Z.min vs x)).
  change (py_max l) with (Ok (fold_left Z.max vs x)).
  cbn [bind]. rewrite Hlen.
  assert (∃ md,
    (if Z.of_nat n =? 1 then Ok (Some (spec_sum l / Z.of_nat n))
     else if 2 <=? Z.of_nat n then
       if negb (Z.land (Z.of_nat n) 1 =? 0) then
         try! m <- py_getitem (py_sort l) (Z.of_nat n / 2) ; Ok (Some m)
       else
         try! a <- py_getitem (py_sort l) (Z.of_nat n / 2 - 1) ;
         try! b <- py_getitem (py_sort l) (Z.of_nat n / 2) ;
         Ok (Some ((a + b) / 2))
     else Ok None) = Ok (Some md)
    ∧ md = spec_median (py_sort l)) as (md & -> & Hmd).
  { unfold spec_median. rewrite Hlen.
    destruct (Z.of_nat n =? 1) eqn:H1.
    - assert (n = 1%nat) as Hn1 by lia.
      eexists; split; [done|].
      destruct vs; [|subst n l; simpl in Hn1; lia].
      rewrite Hn1. subst l. cbn. unfold spec_sum; simpl. rewrite Z.div_1_r. lia.
    - assert ((2 <=? Z.of_nat n) = true) as -> by lia.
      rewrite land_1_odd.
      change 2 with (Z.of_nat 2) at 1 2 3. rewrite <- !Nat2Z.inj_div.
      pose proof (half_lt n Hn) as Hh.
      assert (1 <= n / 2)%nat as Hh1.
      { apply Nat.div_le_lower_bound; lia. }
      destruct (Nat.odd n).
      + rewrite py_getitem_nth by lia. eexists; split; [done|done].
      + replace (Z.of_nat (n / 2) - 1) with (Z.of_nat (n / 2 - 1)) by lia.
        rewrite !py_getitem_nth by lia. eexists; split; [done|done]. }
  cbn [bind].
  eexists _, _, _. split; [reflexivity|].
  split; [apply fold_left_min_least|].
  split; [apply fold_left_max_greatest|].
  split.
  - unfold spec_mean. fold n. rewrite Z.quot_div_nonneg by lia. done.
  - intros s Hs Hp. rewrite Hmd. f_equal. by apply py_sort_unique.
Qed.
End Aggregator.

(** ** The scans of the C and Python analyzers *)

Section Scans.
Context {W : Type} (E : Env W).

Lemma scan_C_counted lines acc :
  counted acc →
  counted
    (fold_left
       (fun '(nfunctions, mccabe_values) l =>
          let values := split_on tab l in
          if negb (Z.of_nat (length values) =? 5) then (nfunctions, mccabe_values)
          else
            let mccabe := int_or_zero E (py_getitem values (-2)) in
            (nfunctions + 1, mccabe_values ++ [mccabe]))
       lines acc).
Proof.
  revert acc; induction lines as [|l lines IH]; intros [n vs] Hacc; [done|].
  simpl. apply IH. destruct (negb _); [done|].
  unfold counted in *; simpl in *. rewrite length_app; simpl. lia.
Qed.

Lemma scan_Python_counted lines acc :
  counted acc →
  counted
    (fold_left
       (fun '(nfunctions, mccabe_values) line =>
          match match_mccabe line with
          | Some group1 =>
              let nfunctions := nfunctions + 1 in
              let mccabe := int_or_zero E (Ok group1) in
              (nfunctions, mccabe_values ++ [mccabe])
          | None => (nfunctions, mccabe_values)
          end)
       lines acc).
Proof.
  revert acc; induction lines as [|l lines IH]; intros [n vs] Hacc; [done|].
  simpl. apply IH. destruct (match_mccabe l); [|done].
  unfold counted in *; simpl in *. rewrite length_app; simpl. lia.
Qed.

Lemma mccabe_scan_C_counted lines : counted (mccabe_scan_C E lines).
Proof. by apply scan_C_counted. Qed.

Lemma mccabe_scan_Python_counted lines : counted (mccabe_scan_Python E lines).
Proof. by apply scan_Python_counted. Qed.

Lemma counted_zero acc : counted acc → fst acc = 0 → acc = (0, []).
Proof.
  destruct acc as [n vs]. unfold counted; simpl. intros -> Hz.
  destruct vs; [done|]. simpl in Hz. lia.
Qed.

(** C10. In [FileMetricsC.get_MccabeComplexity] and in
    [FileMetricsPython.get_MccabeComplexity] the unit count handed to
    the statistics helper is the length of the list of values handed
    with it: both scans leave [nfunctions] equal to the number of
    values, so each call of the helper can be read with the length of
    the list as first argument, and its parity test and its indexing
    agree. *)
Theorem nfunctions_is_length (self : FileMetrics) (w : W) :
  (∀ lines,
     fst (mccabe_scan_C E lines)
       = Z.of_nat (length (snd (mccabe_scan_C E lines)))
     ∧ fst (mccabe_scan_Python E lines)
       = Z.of_nat (length (snd (mccabe_scan_Python E lines))))
  ∧ get_MccabeComplexity_C E self w =
      match find_program E "mccabe" with
      | None => Raise (ProgramNotFound "mccabe")
      | Some mccabe =>
          let mccabe_values :=
            snd (mccabe_scan_C E
                   (split_on newline
                      (getoutput E (mccabe +:+ " -n " +:+ path self) w))) in
          mccabe_result (Z.of_nat (length mccabe_values)) mccabe_values
      end
  ∧ fst (get_MccabeComplexity_Python E self w) =
      match ensure_pymetrics E self with
      | (Raise e, _) => Raise e
      | (Ok pymetrics, self') =>
          let mccabe_values :=
            snd (mccabe_scan_Python E
                   (split_on newline
                      (getoutput E
                         (pymetrics +:+ " -C -S -B -i mccabe:McCabeMetric "
                            +:+ path self') w))) in
          mccabe_result (Z.of_nat (length mccabe_values)) mccabe_values
      end.
Proof.
  split; [|split].
  - intros lines. split;
      [apply mccabe_scan_C_counted | apply mccabe_scan_Python_counted].
  - unfold get_MccabeComplexity_C.
    destruct (find_program E "mccabe") as [mccabe|]; [|done].
    cbv zeta.
    pose proof (mccabe_scan_C_counted
      (split_on newline (getoutput E (mccabe +:+ " -n " +:+ path self) w))) as Hc.
    destruct (mccabe_scan_C E _) as [n vs]. unfold counted in Hc; simpl in *.
    by rewrite Hc.
  - unfold get_MccabeComplexity_Python.
    destruct (ensure_pymetrics E self) as [[p|e] self']; [|done].
    cbv zeta.
    pose proof (mccabe_scan_Python_counted
      (split_on newline
         (getoutput E (p +:+ " -C -S -B -i mccabe:McCabeMetric " +:+ path self') w)))
      as Hc.
    destruct (mccabe_scan_Python E _) as [n vs]. unfold counted in Hc; simpl in *.
    by rewrite Hc.
Qed.

(** C3. Zero units: when the tool of the C or of the Python analyzer
    ran and no line of its output was parsed as a function, the sum,
    the minimum, the maximum, the mean, the median and the function
    count that are returned are all [None], not zero, and so are the
    six fields of the record they are stored in. *)
Theorem zero_units_unset (self : FileMetrics) (w : W) (prog : string) :
  match fm_cls self with
  | CFileMetricsC =>
      find_program E "mccabe" = Some prog
      ∧ fst (mccabe_scan_C E
               (split_on newline
                  (getoutput E (prog +:+ " -n " +:+ path self) w))) = 0
  | CFileMetricsPython =>
      fst (ensure_pymetrics E self) = Ok prog
      ∧ fst (mccabe_scan_Python E
               (split_on newline
                  (getoutput E
                     (prog +:+ " -C -S -B -i mccabe:McCabeMetric "
                        +:+ path self) w))) = 0
  | _ => False
  end →
  fst (get_MccabeComplexity E self w) = Ok (None, None, None, None, None, None)
  ∧ ∀ m, let m' := set_mccabe m (None, None, None, None, None, None) in
      mccabe_sum m' = None ∧ mccabe_min m' = None ∧ mccabe_max m' = None
      ∧ mccabe_mean m' = None ∧ mccabe_median m' = None ∧ nfunctions m' = None.
Proof.
  intros H. split; [|by intros m].
  unfold get_MccabeComplexity.
  destruct (fm_cls self); try done.
  - destruct H as [Hp Hz]. simpl. unfold get_MccabeComplexity_C. rewrite Hp.
    cbv zeta.
    rewrite (counted_zero _ (mccabe_scan_C_counted _) Hz). done.
  - destruct H as [Hp Hz]. unfold get_MccabeComplexity_Python.
    assert (path (snd (ensure_pymetrics E self)) = path self) as Hpath.
    { unfold ensure_pymetrics. destruct (pymetrics self); [done|].
      by destruct (find_program E "pymetrics"). }
    destruct (ensure_pymetrics E self) as [[p|e] self']; simpl in *; [|done].
    injection Hp as ->. rewrite Hpath.
    rewrite (counted_zero _ (mccabe_scan_Python_counted _) Hz). done.
Qed.
End Scans.

(** ** The retry loops *)

Lemma attempts_app l1 l2 : attempts (l1 ++ l2) = attempts l1 + attempts l2.
Proof. unfold attempts. rewrite List.filter_app, length_app. lia. Qed.

Section Retry.
Context {W : Type} (E : Env W).

(** The fuel [__checkout] gives is enough: more of it changes
    nothing, so the guard of the loop is what ends it. *)
Lemma checkout_loop_fuel retries uri rootdir newdir rev file_path :
  ∀ fuel count w l,
    (Z.to_nat (retries - count + 1) <= fuel)%nat →
    checkout_loop E retries fuel uri rootdir newdir rev file_path count w l
    = checkout_loop E retries (S fuel) uri rootdir newdir rev file_path count w l.
Proof.
  induction fuel as [|fuel IH]; intros count w l Hfuel.
  - cbn [checkout_loop].
    destruct (0 <=? retries - count) eqn:Hg; [|done].
    apply Z.leb_le in Hg. lia.
  - cbn [checkout_loop].
    destruct (0 <=? retries - count) eqn:Hg; [|done].
    apply Z.leb_le in Hg.
    destruct (repo_checkout E uri rootdir newdir rev w) as [w1 [e|]]; [done|].
    destruct (repo_get_last_revision E file_path w1) as [w2 [new_rev|e]].
    + destruct (String.eqb rev new_rev); [done|].
      rewrite IH by lia. done.
    + destruct (is_Exception e); [|done].
      rewrite IH by lia. done.
Qed.

Lemma update_loop_fuel retries uri rev :
  ∀ fuel count w l,
    (Z.to_nat (retries - count + 1) <= fuel)%nat →
    update_loop E retries fuel uri rev count w l
    = update_loop E retries (S fuel) uri rev count w l.
Proof.
  induction fuel as [|fuel IH]; intros count w l Hfuel.
  - cbn [update_loop].
    destruct (0 <=? retries - count) eqn:Hg; [|done].
    apply Z.leb_le in Hg. lia.
  - cbn [update_loop].
    destruct (0 <=? retries - count) eqn:Hg; [|done].
    apply Z.leb_le in Hg.
    destruct (repo_update E uri rev w) as [w1 [e|]]; [done|].
    destruct (repo_get_last_revision E uri w1) as [w2 [new_rev|e]].
    + destruct (String.eqb rev new_rev); [done|].
      rewrite IH by lia. done.
    + destruct (is_Exception e); [|done].
      rewrite IH by lia. done.
Qed.

Lemma checkout_loop_gives_up retries uri rootdir newdir rev file_path :
  (∀ u r n v w, snd (repo_checkout E u r n v w) = None) →
  never_verifies E rev →
  ∀ fuel count w l,
    fuel = Z.to_nat (retries - count + 1) →
    ∃ w1 evs,
      checkout_loop E retries fuel uri rootdir newdir rev file_path count w l
        = (Ok tt, w1, l ++ evs)
      ∧ attempts evs = Z.of_nat fuel.
Proof.
  intros Hco Hnv. induction fuel as [|fuel IH]; intros count w l Hfuel.
  - exists w, []. rewrite app_nil_r. split; [|done].
    simpl. by destruct (0 <=? retries - count).
  - cbn [checkout_loop].
    assert ((0 <=? retries - count) = true) as -> by lia.
    specialize (Hco uri rootdir newdir rev w).
    destruct (repo_checkout E uri rootdir newdir rev w) as [w1 raised].
    simpl in Hco; subst raised.
    specialize (Hnv file_path w1).
    destruct (repo_get_last_revision E file_path w1) as [w2 new_rev].
    simpl in Hnv. destruct new_rev as [new_rev|e].
    + apply String.eqb_neq in Hnv. rewrite String.eqb_sym, Hnv.
      edestruct (IH (count + 1) w2) as (w3 & evs & -> & Hevs); [lia|].
      eexists w3, (_ :: _ :: _ :: evs). split.
      * rewrite <- !app_assoc. reflexivity.
      * change (?a :: ?b :: ?c :: evs) with ([a; b; c] ++ evs).
        rewrite attempts_app, Hevs. unfold attempts; simpl. lia.
    + rewrite Hnv.
      edestruct (IH (count + 1) w2) as (w3 & evs & -> & Hevs); [lia|].
      eexists w3, (_ :: _ :: _ :: evs). split.
      * rewrite <- !app_assoc. reflexivity.
      * change (?a :: ?b :: ?c :: evs) with ([a; b; c] ++ evs).
        rewrite attempts_app, Hevs. unfold attempts; simpl. lia.
Qed.

Lemma update_loop_gives_up retries uri rev :
  (∀ u v w, snd (repo_update E u v w) = None) →
  never_verifies E rev →
  ∀ fuel count w l,
    fuel = Z.to_nat (retries - count + 1) →
    ∃ w1 evs,
      update_loop E retries fuel uri rev count w l = (Ok tt, w1, l ++ evs)
      ∧ attempts evs = Z.of_nat fuel.
Proof.
  intros Hup Hnv. induction fuel as [|fuel IH]; intros count w l Hfuel.
  - exists w, []. rewrite app_nil_r. split; [|done].
    simpl. by destruct (0 <=? retries - count).
  - cbn [update_loop].
    assert ((0 <=? retries - count) = true) as -> by lia.
    specialize (Hup uri rev w).
    destruct (repo_update E uri rev w) as [w1 raised].
    simpl in Hup; subst raised.
    specialize (Hnv uri w1).
    destruct (repo_get_last_revision E uri w1) as [w2 new_rev].
    simpl in Hnv. destruct new_rev as [new_rev|e].
    + apply String.eqb_neq in Hnv. rewrite String.eqb_sym, Hnv.
      edestruct (IH (count + 1) w2) as (w3 & evs & -> & Hevs); [lia|].
      eexists w3, (_ :: _ :: _ :: evs). split.
      * rewrite <- !app_assoc. reflexivity.
      * change (?a :: ?b :: ?c :: evs) with ([a; b; c] ++ evs).
        rewrite attempts_app, Hevs. unfold attempts; simpl. lia.
    + rewrite Hnv.
      edestruct (IH (count + 1) w2) as (w3 & evs & -> & Hevs); [lia|].
      eexists w3, (_ :: _ :: _ :: evs). split.
      * rewrite <- !app_assoc. reflexivity.
      * change (?a :: ?b :: ?c :: evs) with ([a; b; c] ++ evs).
        rewrite attempts_app, Hevs. unfold attempts; simpl. lia.
Qed.

(** C4. Retry bound: with a backend whose checkout and update do not
    raise and whose revision query never gives the requested revision,
    a checkout and an update make exactly [retries + 1] attempts and
    then return normally; with [RETRIES] = 1 that is two attempts. *)
Theorem retry_bound retries uri rootdir newdir rev w l :
  (∀ u r n v w, snd (repo_checkout E u r n v w) = None) →
  (∀ u v w, snd (repo_update E u v w) = None) →
  never_verifies E rev →
  0 <= retries →
  (∃ w1 evs,
     checkout_with E retries uri rootdir newdir rev w l = (Ok tt, w1, l ++ evs)
     ∧ attempts evs = retries + 1)
  ∧ (∃ w1 evs,
       update_with E retries uri rev w l = (Ok tt, w1, l ++ evs)
       ∧ attempts evs = retries + 1)
  ∧ (∃ w1 evs,
       __checkout E uri rootdir newdir rev w l = (Ok tt, w1, l ++ evs)
       ∧ attempts evs = 2)
  ∧ (∃ w1 evs,
       __update E uri rev w l = (Ok tt, w1, l ++ evs) ∧ attempts evs = 2).
Proof.
  intros Hco Hup Hnv Hr.
  assert (∀ retries, 0 <= retries →
    (∃ w1 evs,
       checkout_with E retries uri rootdir newdir rev w l = (Ok tt, w1, l ++ evs)
       ∧ attempts evs = retries + 1)
    ∧ (∃ w1 evs,
         update_with E retries uri rev w l = (Ok tt, w1, l ++ evs)
         ∧ attempts evs = retries + 1)) as Hgen.
  { clear retries Hr. intros retries Hr. split.
    - unfold checkout_with.
      edestruct (checkout_loop_gives_up retries uri rootdir newdir rev)
        as (w1 & evs & -> & Hevs); [done..| |].
      + f_equal. lia.
      + exists w1, evs. split; [done|]. lia.
    - unfold update_with.
      edestruct (update_loop_gives_up retries uri rev)
        as (w1 & evs & -> & Hevs); [done..| |].
      + f_equal. lia.
      + exists w1, evs. split; [done|]. lia. }
  destruct (Hgen retries Hr) as [H1 H2].
  destruct (Hgen RETRIES ltac:(done)) as [H3 H4].
  done.
Qed.
End Retry.

(** ** The log only grows *)

Lemma extends_refl P l : extends P l l.
Proof. exists []. by rewrite app_nil_r. Qed.

Lemma extends_trans P l1 l2 l3 :
  extends P l1 l2 → extends P l2 l3 → extends P l1 l3.
Proof.
  intros (e1 & -> & H1) (e2 & -> & H2). exists (e1 ++ e2).
  rewrite app_assoc, forallb_app, H1, H2. done.
Qed.

Lemma extends_snoc P l l' e :
  extends P l l' → P e = true → extends P l (l' ++ [e]).
Proof.
  intros H He. eapply extends_trans; [exact H|].
  exists [e]. simpl. by rewrite He.
Qed.

Lemma extends_weaken (P Q : event → bool) l l' :
  (∀ e, P e = true → Q e = true) → extends P l l' → extends Q l l'.
Proof.
  intros HPQ (evs & -> & H). exists evs. split; [done|].
  rewrite forallb_forall in *. auto.
Qed.

Ltac extends_tac :=
  repeat first
    [ apply extends_refl
    | assumption
    | apply extends_snoc; [|reflexivity] ].

Section DriverLemmas.
Context {W : Type} (E : Env W).

Lemma checkout_loop_extends retries uri rootdir newdir rev file_path fuel :
  ∀ count w l,
    extends is_work_event l
      (snd (checkout_loop E retries fuel uri rootdir newdir rev file_path count w l)).
Proof.
  induction fuel as [|fuel IH]; intros count w l; cbn [checkout_loop].
  - destruct (0 <=? retries - count); apply extends_refl.
  - destruct (0 <=? retries - count); [|apply extends_refl].
    destruct (repo_checkout E uri rootdir newdir rev w) as [w1 [e|]];
      [simpl; extends_tac|].
    destruct (repo_get_last_revision E file_path w1) as [w2 [new_rev|e]].
    + destruct (String.eqb rev new_rev); [simpl; extends_tac|].
      eapply extends_trans; [|apply IH]. extends_tac.
    + destruct (is_Exception e); [|simpl; extends_tac].
      eapply extends_trans; [|apply IH]. extends_tac.
Qed.

Lemma update_loop_extends retries uri rev fuel :
  ∀ count w l,
    extends is_work_event l
      (snd (update_loop E retries fuel uri rev count w l)).
Proof.
  induction fuel as [|fuel IH]; intros count w l; cbn [update_loop].
  - destruct (0 <=? retries - count); apply extends_refl.
  - destruct (0 <=? retries - count); [|apply extends_refl].
    destruct (repo_update E uri rev w) as [w1 [e|]];
      [simpl; extends_tac|].
    destruct (repo_get_last_revision E uri w1) as [w2 [new_rev|e]].
    + destruct (String.eqb rev new_rev); [simpl; extends_tac|].
      eapply extends_trans; [|apply IH]. extends_tac.
    + destruct (is_Exception e); [|simpl; extends_tac].
      eapply extends_trans; [|apply IH]. extends_tac.
Qed.

Lemma update_topdirs_extends topdirs relative_path rev tmpdir :
  ∀ w l,
    extends is_work_event l
      (snd (update_topdirs E topdirs relative_path rev tmpdir w l)).
Proof.
  induction topdirs as [|[topdir first_rev] rest IH]; intros w l; simpl.
  - apply extends_refl.
  - destruct (_ && _); [apply IH|].
    destruct (negb _); [apply IH|].
    pose proof (update_loop_extends RETRIES (os_path_join tmpdir topdir) rev
                  (Z.to_nat (RETRIES + 1)) 0 w
                  (l ++ [EvPrintdbg "Updating tree %s to revision %s"
                           [VStr topdir; VStr rev]])) as Hu.
    unfold __update, update_with.
    destruct (update_loop E _ _ _ _ _ _ _) as [[[[]|e] w1] l1]; simpl in Hu.
    + eapply extends_trans; [|apply IH].
      eapply extends_trans; [|exact Hu]. extends_tac.
    + simpl. eapply extends_trans; [|exact Hu]. extends_tac.
Qed.

Lemma materialize_extends type topdirs tmpdir relative_path rev w l :
  extends is_work_event l
    (snd (materialize E type topdirs tmpdir relative_path rev w l)).
Proof.
  unfold materialize. destruct (String.eqb type "svn").
  - apply update_topdirs_extends.
  - unfold __checkout, checkout_with.
    eapply extends_trans; [|apply checkout_loop_extends]. extends_tac.
Qed.

Lemma measure_extends checkout_path rev w l :
  extends is_work_event l (snd (measure E checkout_path rev w l)).
Proof.
  unfold measure.
  repeat case_match; simplify_eq; simpl; extends_tac.
Qed.
End DriverLemmas.

(** ** One iteration of the loop *)

Lemma work_event_quiet e : is_work_event e = true → is_quiet e = true.
Proof. by destruct e. Qed.

Section BodyPosts.
Context {W : Type} (E : Env W).
Implicit Types (st : @state W) (it : workitem).

Lemma unchanged_db_refl st : unchanged_db st st.
Proof. done. Qed.

Lemma body_post_weaken (P Q : event → bool) it st r st' :
  (∀ e, P e = true → Q e = true) →
  body_post P it st r st' → body_post Q it st r st'.
Proof.
  intros HPQ [r' st1 Hdb Hext|st1 m evs Hevs Hid Hpend].
  - apply post_skip; [done|]. by eapply extends_weaken.
  - eapply post_append; [|done..].
    rewrite forallb_forall in *. auto.
Qed.

(** An iteration that starts after more events were logged. *)
Lemma body_post_pre P it st st0 r st' :
  unchanged_db st st0 →
  extends P (log st) (log st0) →
  body_post P it st0 r st' → body_post P it st r st'.
Proof.
  intros (Ht & Hs & Hi) Hext [r' st1 (Ht1 & Hs1 & Hi1) Hext1|st1 m evs Hevs Hid Hpend].
  - apply post_skip.
    + repeat split; congruence.
    + by eapply extends_trans.
  - destruct Hext as (evs0 & Hl & Hevs0).
    apply (post_append P it st st1 m (evs0 ++ evs)).
    + by rewrite forallb_app, Hevs0, Hevs.
    + lia.
    + cbv zeta in *. rewrite Hs, Hi, Ht, Hl in Hpend.
      destruct (MAX_METRICS <=? _).
      * destruct Hpend as (-> & -> & ->). by rewrite <- !app_assoc.
      * destruct Hpend as (-> & -> & ->). by rewrite <- !app_assoc.
Qed.

Lemma insert_many_frame st :
  world (__insert_many st) = world st
  ∧ current_revision (__insert_many st) = current_revision st
  ∧ id_counter (__insert_many st) = id_counter st.
Proof. unfold __insert_many. by destruct (self_metrics st). Qed.

Lemma insert_many_nonempty st :
  self_metrics st ≠ [] →
  table (__insert_many st) = table st ++ self_metrics st
  ∧ self_metrics (__insert_many st) = []
  ∧ log (__insert_many st) = log st ++ [EvExecutemany (self_metrics st)].
Proof. unfold __insert_many. by destruct (self_metrics st). Qed.

Lemma measure_item_post tmpdir relative_path rev it st r st' :
  measure_item E tmpdir relative_path rev it st = (r, st') →
  body_post is_work_event it st r st'
  ∧ world st' = world st ∧ current_revision st' = current_revision st.
Proof.
  unfold measure_item.
  destruct (os_path_isdir E _ _).
  { intros [= <- <-]. split; [|done]. apply post_skip; [done|apply extends_refl]. }
  destruct (negb _).
  { intros [= <- <-]. split; [|done]. apply post_skip; [done|].
    simpl. extends_tac. }
  pose proof (measure_extends E (os_path_join tmpdir relative_path) rev
                (world st) (log st)) as Hm.
  destruct (measure E _ _ _ _) as [[m|e] l]; simpl in Hm.
  - destruct Hm as (evs & -> & Hevs).
    set (st1 := append_row (with_io st (world st) (log st ++ evs)) it m).
    assert (self_metrics st1 = self_metrics st ++ [mkrow (id_counter st) it m])
      as Hpend by done.
    rewrite Hpend.
    destruct (MAX_METRICS <=? _) eqn:Hmax; intros [= <- <-].
    + destruct (insert_many_frame st1) as (Hw & Hc & Hi).
      destruct (insert_many_nonempty st1) as (Ht & Hs & Hl).
      { rewrite Hpend. by destruct (self_metrics st). }
      split; [|by split; simpl; [rewrite Hw|rewrite Hc]].
      apply (post_append _ _ _ _ m evs); [done|..].
      * simpl. by rewrite Hi.
      * cbv zeta. rewrite Hmax. simpl. rewrite Ht, Hs, Hl, Hpend. simpl.
        by rewrite <- !app_assoc.
    + split; [|done].
      apply (post_append _ _ _ _ m evs); [done..|].
      cbv zeta. by rewrite Hmax.
  - intros [= <- <-]. split; [|done]. by apply post_skip.
Qed.

Lemma advance_and_measure_post type topdirs tmpdir relative_path rev it st r st' :
  advance_and_measure E type topdirs tmpdir relative_path rev it st = (r, st') →
  body_post is_work_event it st r st'.
Proof.
  unfold advance_and_measure.
  destruct (negb _); [|by intros [? _]%measure_item_post].
  pose proof (materialize_extends E type topdirs tmpdir relative_path rev
                (world st) (log st)) as Hm.
  destruct (materialize E _ _ _ _ _ _ _) as [[[[]|e] w] l]; simpl in Hm.
  - intros [H _]%measure_item_post.
    eapply body_post_pre; [| |exact H]; done.
  - destruct (is_Exception e).
    + intros [H _]%measure_item_post.
      eapply body_post_pre; [| |exact H]; [done|]. simpl. extends_tac.
    + intros [= <- <-]. by apply post_skip.
Qed.

Lemma loop_body_skip type topdirs tmpdir metrics it st :
  pair_in (item_pair it) metrics = true →
  loop_body E type topdirs tmpdir metrics it st = (Ok tt, st).
Proof. unfold loop_body, item_pair. by intros ->. Qed.

Lemma loop_body_post type topdirs tmpdir metrics it st r st' :
  loop_body E type topdirs tmpdir metrics it st = (r, st') →
  body_post is_quiet it st r st'
  ∧ (pair_in (item_pair it) metrics = true → st' = st).
Proof.
  unfold loop_body. fold (item_pair it).
  destruct (pair_in _ _).
  { intros [= <- <-]. split; [|done]. apply post_skip; [done|apply extends_refl]. }
  intros H. split; [|done].
  destruct (negb (String.eqb type "cvs")).
  - destruct (path_is_deleted_for_revision E _ _ _).
    + injection H as <- <-. apply post_skip; [done|]. simpl. extends_tac.
    + apply advance_and_measure_post in H.
      apply (body_post_weaken is_work_event is_quiet) in H;
        [|apply work_event_quiet].
      eapply body_post_pre; [| |exact H]; [done|]. simpl. extends_tac.
  - apply advance_and_measure_post in H.
    eapply body_post_weaken; [apply work_event_quiet|done].
Qed.
End BodyPosts.

(** ** The loop *)

Lemma flush_sizes_app l1 l2 : flush_sizes (l1 ++ l2) = flush_sizes l1 ++ flush_sizes l2.
Proof. unfold flush_sizes. apply omap_app. Qed.

Lemma flush_sizes_quiet evs : forallb is_quiet evs = true → flush_sizes evs = [].
Proof.
  induction evs as [|e evs IH]; [done|]. simpl.
  intros [He Hevs]%andb_true_iff. unfold flush_sizes in *. simpl.
  rewrite IH by done. by destruct e.
Qed.

Section LoopPost.
Context {W : Type} (E : Env W).
Implicit Types (st : @state W) (it : workitem).

Lemma loop_post type topdirs tmpdir metrics items :
  ∀ st r st',
    loop E type topdirs tmpdir metrics items st = (r, st') →
    plen st < MAX_METRICS →
    ∃ new evs,
      table st' ++ self_metrics st' = (table st ++ self_metrics st) ++ new
      ∧ map r_id new = seqZ (id_counter st) (Z.of_nat (length new))
      ∧ id_counter st' = id_counter st + Z.of_nat (length new)
      ∧ Forall (λ row, pair_in (row_pair row) metrics = false
                       ∧ ∃ it, it ∈ items ∧ row_pair row = item_pair it) new
      ∧ log st' = log st ++ evs
      ∧ flush_sizes evs
          = replicate (Z.to_nat ((plen st + Z.of_nat (length new)) / MAX_METRICS))
              MAX_METRICS
      ∧ plen st' = (plen st + Z.of_nat (length new)) mod MAX_METRICS
      ∧ ∃ flushed, table st' = table st ++ flushed.
Proof.
  unfold plen, MAX_METRICS.
  induction items as [|it items IH]; intros st r st' Hloop Hp.
  { injection Hloop as <- <-. exists [], []. rewrite !app_nil_r. simpl.
    rewrite Z.add_0_r, Z.div_small, Z.mod_small by lia.
    repeat split; try done; try lia. exists []. by rewrite app_nil_r. }
  simpl in Hloop.
  destruct (loop_body E type topdirs tmpdir metrics it st) as [r1 st1] eqn:Hbody.
  apply loop_body_post in Hbody as [Hpost Hskip].
  assert (∃ new1 evs1,
    table st1 ++ self_metrics st1 = (table st ++ self_metrics st) ++ new1
    ∧ map r_id new1 = seqZ (id_counter st) (Z.of_nat (length new1))
    ∧ id_counter st1 = id_counter st + Z.of_nat (length new1)
    ∧ Forall (λ row, pair_in (row_pair row) metrics = false
                     ∧ row_pair row = item_pair it) new1
    ∧ log st1 = log st ++ evs1
    ∧ flush_sizes evs1
        = replicate (Z.to_nat ((Z.of_nat (length (self_metrics st))
                                + Z.of_nat (length new1)) / 100)) 100
    ∧ Z.of_nat (length (self_metrics st1))
        = (Z.of_nat (length (self_metrics st)) + Z.of_nat (length new1)) mod 100
    ∧ ∃ flushed, table st1 = table st ++ flushed)
    as (new1 & evs1 & H1 & H2 & H3 & H4 & H5 & H6 & H7 & (fl1 & H8)).
  { destruct Hpost as [r1 st1 (Ht & Hs & Hi) (evs & Hl & Hevs)|st1 m evs Hevs Hid Hpend].
    - exists [], evs. rewrite Ht, Hs, Hi, Hl, app_nil_r. simpl.
      rewrite Z.add_0_r, Z.div_small, Z.mod_small by lia.
      rewrite flush_sizes_quiet by done.
      repeat split; try done; try lia. exists []. by rewrite app_nil_r.
    - exists [mkrow (id_counter st) it m]. cbv zeta in Hpend.
      rewrite length_app in Hpend. simpl in Hpend.
      assert (pair_in (item_pair it) metrics = false) as Hnotin.
      { destruct (pair_in (item_pair it) metrics) eqn:Hin; [|done].
        rewrite (Hskip eq_refl) in Hid. lia. }
      unfold MAX_METRICS in Hpend.
      destruct (100 <=? _) eqn:Hmax;
        [apply Z.leb_le in Hmax|apply Z.leb_gt in Hmax].
      + destruct Hpend as (Ht & Hs & Hl).
        exists (evs ++ [EvExecutemany (self_metrics st ++ [mkrow (id_counter st) it m]);
                        EvCommit]).
        rewrite Ht, Hs, Hl, Hid, app_nil_r. simpl.
        assert (Z.of_nat (length (self_metrics st)) = 99) as Hp99 by lia.
        rewrite flush_sizes_app, flush_sizes_quiet by done.
        unfold flush_sizes at 1. simpl. rewrite length_app. simpl.
        rewrite Hp99. change ((99 + 1) / 100) with 1. change ((99 + 1) mod 100) with 0.
        simpl. rewrite <- app_assoc.
        repeat split; try done; try lia.
        * by repeat constructor.
        * f_equal. lia.
        * by eexists.
      + destruct Hpend as (Ht & Hs & Hl).
        exists evs. rewrite Ht, Hs, Hl, Hid, length_app. simpl.
        rewrite flush_sizes_quiet by done.
        rewrite Z.div_small, Z.mod_small by lia.
        rewrite <- app_assoc.
        repeat split; try done; try lia.
        * by repeat constructor.
        * exists []. by rewrite app_nil_r. }
  destruct r1 as [[]|e].
  2:{ injection Hloop as <- <-. exists new1, evs1.
      repeat split; try done; [|by exists fl1].
      eapply Forall_impl; [exact H4|]. intros row [? ?]. split; [done|].
      exists it. split; [left|done]. }
  apply IH in Hloop as (new2 & evs2 & G1 & G2 & G3 & G4 & G5 & G6 & G7 & (fl2 & G8)).
  2:{ rewrite H7. apply Z.mod_pos_bound. lia. }
  exists (new1 ++ new2), (evs1 ++ evs2).
  rewrite G1, H1, G5, H5, G3, H3, G7, H7, !length_app, <- !app_assoc, map_app, H2, G2, H3.
  rewrite flush_sizes_app, H6, G6, H7.
  set (p := Z.of_nat (length (self_metrics st))) in *.
  set (n1 := Z.of_nat (length new1)). set (n2 := Z.of_nat (length new2)).
  rewrite Nat2Z.inj_add. fold n1 n2.
  repeat split.
  - rewrite seqZ_app by lia. done.
  - lia.
  - apply Forall_app. split.
    + eapply Forall_impl; [exact H4|]. intros row [? ?]. split; [done|].
      exists it. split; [left|done].
    + eapply Forall_impl; [exact G4|]. intros row [? (it' & ? & ?)]. split; [done|].
      exists it'. split; [by right|done].
  - rewrite <- replicate_add. f_equal.
    assert (0 <= p + n1) as Hpn by lia.
    assert (0 <= n2) as Hn2 by lia.
    clear -Hpn Hn2. Z.div_mod_to_equations. lia.
  - clear. Z.div_mod_to_equations. lia.
  - exists (fl1 ++ fl2). by rewrite G8, H8, <- app_assoc.
Qed.
End LoopPost.

(** ** A whole run *)

Section RunPost.
Context {W : Type} (E : Env W).
Implicit Types (st : @state W) (it : workitem).

Lemma checkout_topdirs_extends rows tmpdir :
  ∀ topdirs w l,
    extends is_work_event l (snd (checkout_topdirs E rows tmpdir topdirs w l)).
Proof.
  induction rows as [|[[topdir topdir_id] first_rev] rows IH];
    intros topdirs w l; simpl; [apply extends_refl|].
  pose proof (checkout_loop_extends E RETRIES
                (strip "/" (get_path_for_revision E topdir topdir_id first_rev))
                tmpdir (Some topdir) first_rev (os_path_join tmpdir topdir)
                (Z.to_nat (RETRIES + 1)) 0 w l) as Hc.
  unfold __checkout, checkout_with.
  destruct (checkout_loop E _ _ _ _ _ _ _ _ _ _) as [[[[]|e] w1] l1]; simpl in Hc.
  - eapply extends_trans; [exact Hc|apply IH].
  - by destruct (is_Exception e).
Qed.

Lemma run_post type topdir_rows items db w r st' :
  run E type topdir_rows items db w = (r, st') →
  ∃ new,
    table st' ++ self_metrics st' = default [] db ++ new
    ∧ map r_id new = seqZ (seed_of db) (Z.of_nat (length new))
    ∧ id_counter st' = seed_of db + Z.of_nat (length new)
    ∧ Forall (λ row, pair_in (row_pair row) (__get_metrics (default [] db)) = false
                     ∧ ∃ it, it ∈ items ∧ row_pair row = item_pair it) new
    ∧ (∃ flushed, table st' = default [] db ++ flushed)
    ∧ (r = Ok tt →
       self_metrics st' = []
       ∧ flush_sizes (log st') = batch_sizes (Z.of_nat (length new))
       ∧ ∃ l, log st' = l ++ [EvCommit]).
Proof.
  unfold run.
  set (tbl := default [] db).
  set (l0 := match db with None => [EvCommit] | Some _ => [] end).
  assert (match db with
          | None => ([], 1, [], [EvCommit])
          | Some rows =>
              (rows, match select_max_id rows with
                     | Some id => id + 1
                     | None => 1
                     end, __get_metrics rows, [])
          end = (tbl, seed_of db, __get_metrics tbl, l0)) as ->.
  { by destruct db. }
  assert (flush_sizes l0 = []) as Hl0 by (by destruct db).
  destruct (mkdtemp E w) as [w1 tmpdir].
  set (st0 := {| world := w1; table := tbl; self_metrics := [];
                 id_counter := seed_of db; current_revision := None; log := l0 |}).
  assert (∃ topdirs st,
    (if String.eqb type "svn" then
       match checkout_topdirs E topdir_rows tmpdir [] w1 l0 with
       | (Ok topdirs, w, l) =>
           (Ok topdirs,
            with_io st0 w (l ++ [EvPrintdbg "SVN checkout first rev finished" []]))
       | (Raise e, w, l) => (Raise e, with_io st0 w l)
       end
     else (Ok [], st0)) = (topdirs, st)
    ∧ table st = tbl ∧ self_metrics st = [] ∧ id_counter st = seed_of db
    ∧ flush_sizes (log st) = []) as (topdirs & st & -> & Ht & Hs & Hi & Hl).
  { destruct (String.eqb type "svn"); [|by eexists _, _].
    pose proof (checkout_topdirs_extends topdir_rows tmpdir [] w1 l0)
      as (evs & Hevs & Hq).
    destruct (checkout_topdirs E _ _ _ _ _) as [[[topdirs|e] w2] l2];
      simpl in Hevs; subst l2; eexists _, _; (split; [reflexivity|]); simpl;
      rewrite ?flush_sizes_app, Hl0, flush_sizes_quiet; try done;
      (rewrite forallb_forall in *; intros; apply work_event_quiet; auto). }
  destruct topdirs as [topdirs|e].
  2:{ intros [= <- <-]. exists []. rewrite Ht, Hs, Hi, !app_nil_r. simpl.
      rewrite Z.add_0_r. repeat split; try done. exists []. by rewrite app_nil_r. }
  destruct (loop E type topdirs tmpdir (__get_metrics tbl) items st)
    as [r1 st1] eqn:Hloop.
  apply loop_post in Hloop
    as (new & evs & G1 & G2 & G3 & G4 & G5 & G6 & G7 & (fl & G8));
    [|unfold plen; rewrite Hs; done].
  unfold plen in *. rewrite Ht, Hs, Hi in *.
  change (Z.of_nat (length [])) with 0 in G6, G7.
  rewrite Z.add_0_l in G6, G7.
  rewrite app_nil_r in G1.
  destruct r1 as [[]|e]; intros [= <- <-]; exists new.
  2:{ repeat split; try done. by exists fl. }
  destruct (insert_many_frame st1) as (Hw & Hc & Hid).
  cbn [table self_metrics id_counter log with_io commit emit].
  rewrite Hid.
  destruct (self_metrics st1) as [|row pend] eqn:Hpend.
  - assert (__insert_many st1 = st1) as -> by (unfold __insert_many; by rewrite Hpend).
    rewrite Hpend. repeat split; try done; [by exists fl|..].
    rewrite G5, !flush_sizes_app, Hl, G6. simpl in *.
    + unfold batch_sizes. rewrite <- G7. simpl. by rewrite app_nil_r.
    + by eexists.
  - destruct (insert_many_nonempty st1) as (Ht1 & Hs1 & Hl1); [by rewrite Hpend|].
    rewrite Ht1, Hs1, Hl1, app_nil_r, Hpend. repeat split; try done;
      [exists (fl ++ row :: pend); by rewrite G8, <- app_assoc|..].
    rewrite G5, !flush_sizes_app, Hl, G6. simpl.
    unfold batch_sizes. rewrite <- G7.
    assert (Z.of_nat (length (row :: pend)) ≠ 0) as Hne by (simpl; lia).
    + apply Z.eqb_neq in Hne. rewrite Hne. by rewrite app_nil_r.
    + by eexists.
Qed.
End RunPost.

(** ** Batches, ids and resumed runs *)

Lemma pair_in_elem p (l : list (Z * Z)) : pair_in p l = true ↔ p ∈ l.
Proof.
  unfold pair_in. rewrite existsb_exists. split.
  - intros (q & Hq & Heq). unfold pair_eqb in Heq.
    apply andb_true_iff in Heq as [H1 H2].
    apply Z.eqb_eq in H1, H2. destruct p, q; simpl in *; subst.
    by apply list_elem_of_In.
  - intros Hp. exists p. split; [by apply list_elem_of_In|].
    unfold pair_eqb. by rewrite !Z.eqb_refl.
Qed.

Section RunClaims.
Context {W : Type} (E : Env W).
Implicit Types (st : @state W) (it : workitem).

Lemma select_max_id_greatest rows id :
  select_max_id rows = Some id → is_greatest id (map r_id rows).
Proof.
  destruct rows as [|row rows]; [done|]. simpl. intros [= <-].
  apply fold_left_max_greatest.
Qed.

(** C5. Batch flush boundary: in a run that ends normally, the
    records were written in batches of [MAX_METRICS] = 100 followed by
    the rest, if any, nothing stays pending and the last action on the
    database is a commit; 250 records are written as 100, 100 and 50.
    In the loop, an iteration writes exactly when its record makes the
    pending list reach 100, then it writes these 100 rows and commits,
    and no other iteration writes or commits. *)
Theorem batch_flush_boundary type topdir_rows items db w st :
  run E type topdir_rows items db w = (Ok tt, st) →
  let n := Z.of_nat (length (table st)) - Z.of_nat (length (default [] db)) in
  self_metrics st = []
  ∧ flush_sizes (log st) = batch_sizes n
  ∧ (n = 250 → flush_sizes (log st) = [100; 100; 50])
  ∧ (∃ l, log st = l ++ [EvCommit])
  ∧ ∀ topdirs tmpdir metrics it st0 r st1,
      loop_body E type topdirs tmpdir metrics it st0 = (r, st1) →
      plen st0 < MAX_METRICS →
      (plen st0 + 1 = MAX_METRICS
       ∧ id_counter st1 = id_counter st0 + 1
       ∧ self_metrics st1 = []
       ∧ ∃ evs m,
           forallb is_quiet evs = true
           ∧ log st1 = log st0 ++ evs
               ++ [EvExecutemany (self_metrics st0 ++ [mkrow (id_counter st0) it m]);
                   EvCommit])
      ∨ (table st1 = table st0 ∧ plen st1 < MAX_METRICS
         ∧ extends is_quiet (log st0) (log st1)).
Proof.
  intros Hrun n.
  apply run_post in Hrun as (new & Hrows & _ & _ & _ & _ & Hok).
  destruct (Hok eq_refl) as (Hs & Hf & Hc).
  assert (n = Z.of_nat (length new)) as Hn.
  { subst n. rewrite Hs, app_nil_r in Hrows. rewrite Hrows, length_app. lia. }
  rewrite Hn.
  split; [done|]. split; [done|].
  split; [intros H250; by rewrite Hf, H250|]. split; [done|].
  intros topdirs tmpdir metrics it st0 r st1 Hbody Hp.
  apply loop_body_post in Hbody as [Hpost _].
  unfold plen in *.
  destruct Hpost as [r1 st1 (Ht1 & Hs1 & Hi1) Hext|st1 m evs Hevs Hid Hpend].
  - right. by rewrite Ht1, Hs1.
  - cbv zeta in Hpend. rewrite length_app in Hpend. simpl in Hpend.
    destruct (MAX_METRICS <=? _) eqn:Hmax;
      [apply Z.leb_le in Hmax|apply Z.leb_gt in Hmax];
      destruct Hpend as (Ht1 & Hs1 & Hl1).
    + left. repeat split; [lia|done..|]. by exists evs, m.
    + right. rewrite Hs1, length_app; simpl. repeat split; [done|lia|].
      by exists evs.
Qed.

(** C6. Id seeding: the rows a run appends (written or still
    pending) carry the consecutive ids [seed], [seed + 1], ... and the
    counter ends at [seed] plus their number, where [seed] is 1 for a
    table just created or found empty and the greatest id plus one for
    a table found with rows. *)
Theorem monotonic_id_seeding type topdir_rows items db w :
  let st := snd (run E type topdir_rows items db w) in
  ∃ new,
    table st ++ self_metrics st = default [] db ++ new
    ∧ map r_id new = seqZ (seed_of db) (Z.of_nat (length new))
    ∧ id_counter st = seed_of db + Z.of_nat (length new)
    ∧ match db with
      | Some (row :: rows) =>
          is_greatest (seed_of db - 1) (map r_id (row :: rows))
      | _ => seed_of db = 1
      end.
Proof.
  intros st.
  destruct (run E type topdir_rows items db w) as [r st'] eqn:Hrun.
  apply run_post in Hrun as (new & H1 & H2 & H3 & _).
  exists new. repeat split; try done.
  destruct db as [[|row rows]|]; [done| |done].
  unfold seed_of.
  destruct (select_max_id (row :: rows)) as [id|] eqn:Hmax; [|done].
  replace (id + 1 - 1) with id by lia. by apply select_max_id_greatest.
Qed.

(** C1, amended. A work item whose pair (file_id, commit_id) is in
    the table when the run starts is skipped: its iteration leaves the
    state as it was, so nothing is looked up, materialized, measured or
    appended for it.  The pairs that are skipped are exactly the pairs
    of the rows of the table, so an item that an earlier run left
    without a row is not skipped for that reason.  A run on an existing
    table keeps its rows and appends only rows whose pair was not in
    it; when the pair of every work item is in the table, the run
    appends nothing and leaves the table as it found it. *)
Theorem resume_skips_measured type topdir_rows items rows w it :
  it ∈ items →
  pair_in (item_pair it) (__get_metrics rows) = true →
  (∀ topdirs tmpdir st,
     loop_body E type topdirs tmpdir (__get_metrics rows) it st = (Ok tt, st))
  ∧ (∀ it', pair_in (item_pair it') (__get_metrics rows) = true
            ↔ ∃ row, row ∈ rows ∧ row_pair row = item_pair it')
  ∧ let st := snd (run E type topdir_rows items (Some rows) w) in
    ∃ new,
      table st ++ self_metrics st = rows ++ new
      ∧ Forall (λ row, pair_in (row_pair row) (__get_metrics rows) = false
                       ∧ row_pair row ≠ item_pair it) new
      ∧ (Forall (λ it', pair_in (item_pair it') (__get_metrics rows) = true) items →
         new = [] ∧ table st = rows ∧ self_metrics st = []).
Proof.
  intros Hin Hpair. split.
  { intros. by apply loop_body_skip. }
  split.
  { intros it'. rewrite pair_in_elem. unfold __get_metrics. split.
    - intros Hmem. apply list_elem_of_fmap in Hmem as (row & Heq & Hrow).
      by exists row.
    - intros (row & Hrow & Heq). apply list_elem_of_fmap. by exists row. }
  intros st.
  destruct (run E type topdir_rows items (Some rows) w) as [r st'] eqn:Hrun.
  apply run_post in Hrun as (new & H1 & _ & _ & H4 & (fl & H5) & _).
  subst st. simpl in *. exists new. split; [done|]. split.
  - eapply Forall_impl; [exact H4|]. intros row [Hrow _]. split; [done|].
    intros Heq. rewrite Heq in Hrow. congruence.
  - intros Hall.
    assert (new = []) as ->.
    { destruct new as [|row new]; [done|].
      apply Forall_cons in H4 as [[Hrow (it' & Hit' & Heq)] _].
      rewrite Forall_forall in Hall. specialize (Hall it' Hit').
      rewrite Heq in Hrow. congruence. }
    split; [done|]. rewrite app_nil_r in H1.
    destruct (self_metrics st') as [|row pend] eqn:Hs.
    + by rewrite app_nil_r in H1.
    + rewrite H5 in H1. apply (f_equal length) in H1.
      rewrite !length_app in H1. simpl in H1. lia.
Qed.
End RunClaims.

(** ** Skipped items and the missing sloccount *)

Section SkipClaims.
Context {W : Type} (E : Env W).
Implicit Types (st : @state W) (it : workitem).

Lemma body_post_extends (P Q : event → bool) it st r st' :
  (∀ e, P e = true → Q e = true) →
  (∀ rows, Q (EvExecutemany rows) = true) →
  Q EvCommit = true →
  body_post P it st r st' → extends Q (log st) (log st').
Proof.
  intros HPQ Hex Hco [r1 st1 _ Hext|st1 m evs Hevs _ Hpend].
  - by eapply extends_weaken.
  - assert (forallb Q evs = true) as HQ.
    { rewrite forallb_forall in *. auto. }
    cbv zeta in Hpend. destruct (MAX_METRICS <=? _).
    + destruct Hpend as (_ & _ & ->).
      exists (evs ++ [EvExecutemany (self_metrics st ++ [mkrow (id_counter st) it m]);
                      EvCommit]).
      split; [done|]. rewrite forallb_app, HQ. simpl. by rewrite Hex, Hco.
    + destruct Hpend as (_ & _ & ->). by exists evs.
Qed.

(** C7. Skip on delete: for a repository that is not CVS, an item
    whose path the history reports as deleted at its revision ends its
    iteration at once: the world, the rows, the counter and the current
    revision are as before and the log gains the deletion query and one
    debug message only (nothing when the item was already measured), so
    there is no checkout, no update and no analysis.  For CVS no
    iteration makes a deletion query. *)
Theorem skip_on_delete type topdirs tmpdir metrics it st :
  type ≠ "cvs" →
  path_is_deleted_for_revision E (filepath it) (file_id it) (resolve_rev it) = true →
  (∃ st',
     loop_body E type topdirs tmpdir metrics it st = (Ok tt, st')
     ∧ world st' = world st
     ∧ unchanged_db st st'
     ∧ current_revision st' = current_revision st
     ∧ log st' = log st ++
         (if pair_in (item_pair it) metrics then []
          else [EvDeletedLookup (filepath it) (file_id it) (resolve_rev it);
                EvPrintdbg "Path %s is deleted in revision %s, skipping"
                  [VStr (filepath it); VStr (resolve_rev it)]]))
  ∧ ∀ r st',
      loop_body E "cvs" topdirs tmpdir metrics it st = (r, st') →
      extends (λ e, negb (is_deleted_lookup e)) (log st) (log st').
Proof.
  intros Hcvs Hdel. split.
  - unfold loop_body. fold (item_pair it).
    destruct (pair_in (item_pair it) metrics).
    { exists st. by rewrite app_nil_r. }
    apply String.eqb_neq in Hcvs. rewrite Hcvs, Hdel. simpl.
    eexists. split; [reflexivity|]. simpl. by rewrite <- app_assoc.
  - intros r st'. unfold loop_body. fold (item_pair it).
    destruct (pair_in (item_pair it) metrics).
    { intros [= <- <-]. apply extends_refl. }
    simpl. intros Hadv%advance_and_measure_post.
    eapply body_post_extends; [| | |exact Hadv]; [|done..].
    by intros [].
Qed.

Lemma measure_item_skips tmpdir relative_path rev it st :
  let p := os_path_join tmpdir relative_path in
  os_path_isdir E p (world st) = true ∨ os_path_exists E p (world st) = false →
  ∃ st',
    measure_item E tmpdir relative_path rev it st = (Ok tt, st')
    ∧ world st' = world st
    ∧ unchanged_db st st'
    ∧ current_revision st' = current_revision st
    ∧ log st' = log st ++
        (if os_path_isdir E p (world st) then []
         else [EvPrinterr "Error measuring %s@%s. File not found"
                 [VStr p; VStr rev]]).
Proof.
  intros p Hcond. unfold measure_item. fold p.
  destruct (os_path_isdir E p (world st)).
  { exists st. by rewrite app_nil_r. }
  destruct Hcond as [?| ->]; [done|]. simpl.
  eexists. split; [reflexivity|]. done.
Qed.

Lemma advance_and_measure_skips type topdirs tmpdir relative_path rev it st r st' :
  advance_and_measure E type topdirs tmpdir relative_path rev it st = (r, st') →
  (let p := os_path_join tmpdir relative_path in
   os_path_isdir E p (world st') = true ∨ os_path_exists E p (world st') = false) →
  unchanged_db st st'.
Proof.
  intros Hadv Hcond. cbv zeta in Hcond.
  assert (∀ st2, unchanged_db st st2 →
    measure_item E tmpdir relative_path rev it st2 = (r, st') →
    unchanged_db st st') as Hmi.
  { intros st2 (Ht & Hs & Hi) Hm.
    pose proof (measure_item_post E _ _ _ _ _ _ _ Hm) as (_ & Hw & _).
    rewrite Hw in Hcond.
    destruct (measure_item_skips tmpdir relative_path rev it st2 Hcond)
      as (st3 & Hm3 & _ & (Ht3 & Hs3 & Hi3) & _).
    rewrite Hm in Hm3. injection Hm3 as _ <-.
    repeat split; congruence. }
  unfold advance_and_measure in Hadv.
  destruct (negb _); [|by eapply Hmi].
  destruct (materialize E _ _ _ _ _ _ _) as [[[[]|e] w] l].
  - by eapply Hmi; [|exact Hadv].
  - destruct (is_Exception e).
    + by eapply Hmi; [|exact Hadv].
    + by injection Hadv as _ <-.
Qed.

(** C8, amended. When the checkout path of an item is a directory the
    iteration ends there without any message; when it is neither a
    directory nor an existing path the iteration ends with the error
    message File not found.  In both cases no row is appended, the
    counter is unchanged, and the loop goes on with the next item. *)
Theorem dir_or_missing_skip tmpdir relative_path rev it st :
  let p := os_path_join tmpdir relative_path in
  os_path_isdir E p (world st) = true ∨ os_path_exists E p (world st) = false →
  (∃ st',
     measure_item E tmpdir relative_path rev it st = (Ok tt, st')
     ∧ world st' = world st
     ∧ unchanged_db st st'
     ∧ current_revision st' = current_revision st
     ∧ log st' = log st ++
         (if os_path_isdir E p (world st) then []
          else [EvPrinterr "Error measuring %s@%s. File not found"
                  [VStr p; VStr rev]]))
  ∧ ∀ type topdirs metrics rest st0 st1,
      loop_body E type topdirs tmpdir metrics it st0 = (Ok tt, st1) →
      (let q := checkout_path_of E type tmpdir it in
       os_path_isdir E q (world st1) = true ∨ os_path_exists E q (world st1) = false) →
      unchanged_db st0 st1
      ∧ loop E type topdirs tmpdir metrics (it :: rest) st0
        = loop E type topdirs tmpdir metrics rest st1.
Proof.
  intros p Hcond. split; [by apply measure_item_skips|].
  intros type topdirs metrics rest st0 st1 Hbody Hq.
  split; [|by simpl; rewrite Hbody].
  unfold loop_body in Hbody. unfold checkout_path_of in Hq. cbv zeta in Hq.
  destruct (pair_in _ _); [by injection Hbody as <-|].
  destruct (negb (String.eqb type "cvs")).
  - destruct (path_is_deleted_for_revision E _ _ _); [by injection Hbody as <-|].
    apply advance_and_measure_skips in Hbody; [|done].
    destruct Hbody as (? & ? & ?). done.
  - by apply advance_and_measure_skips in Hbody.
Qed.

(** C9, at the failing input: when sloccount cannot be located,
    [create_file_metrics] gives the base analyzer with sloc 0, and the
    record of the file has [sloc] equal to the integer 0, not [None],
    and language unknown; no message about a missing program is
    printed. *)
Theorem sloccount_missing_gives_zero checkout_path rev w l :
  find_program E "sloccount" = None →
  (∀ e, open_readlines E checkout_path w = Raise e → is_Exception e = true) →
  create_file_metrics E checkout_path w
    = Ok {| fm_cls := CFileMetrics; path := checkout_path; fm_lang := "unknown";
            fm_sloc := VInt 0; pymetrics := None; handler := None |}
  ∧ ∃ m l',
      measure E checkout_path rev w l = (Ok m, l')
      ∧ sloc m = Some (VInt 0)
      ∧ lang m = "unknown"
      ∧ extends (λ e, negb (is_printout e)) l l'.
Proof.
  intros Hfind Hopen.
  assert (create_file_metrics E checkout_path w
          = Ok {| fm_cls := CFileMetrics; path := checkout_path;
                  fm_lang := "unknown"; fm_sloc := VInt 0;
                  pymetrics := None; handler := None |}) as Hfm.
  { unfold create_file_metrics. by rewrite Hfind. }
  split; [done|].
  unfold measure. rewrite Hfm. unfold get_LOC. simpl.
  destruct (open_readlines E checkout_path w) as [lines|e] eqn:Hlines; simpl.
  - eexists _, _. split; [reflexivity|]. repeat split. extends_tac.
  - rewrite (Hopen e eq_refl).
    eexists _, _. split; [reflexivity|]. repeat split. extends_tac.
Qed.
End SkipClaims.

(** ** Concrete instances *)

Lemma aggregator_correct_witness :
  ∃ mn mx md,
    _get_mccabe_stats (Z.of_nat (length [3; 1; 2])) [3; 1; 2]
      = Ok (spec_sum [3; 1; 2], mn, mx, spec_mean [3; 1; 2], md)
    ∧ is_least mn [3; 1; 2] ∧ is_greatest mx [3; 1; 2]
    ∧ spec_mean [3; 1; 2] = spec_sum [3; 1; 2] ÷ Z.of_nat (length [3; 1; 2])
    ∧ ∀ s, Sorted Z.le s → s ≡ₚ [3; 1; 2] → md = spec_median s.
Proof.
  apply (aggregator_correct [3; 1; 2]); [done|].
  repeat constructor; lia.
Defined.

Lemma zero_units_unset_witness :
  fst (get_MccabeComplexity mccabe_env c_file fs_empty)
    = Ok (None, None, None, None, None, None).
Proof.
  apply (zero_units_unset mccabe_env c_file fs_empty "/usr/bin/mccabe").
  simpl. split; reflexivity.
Defined.

Lemma retry_bound_witness :
  ∃ w1 evs,
    __checkout stale_env "a.c" "/tmp/tmpmetrics" None "5" fs_empty []
      = (Ok tt, w1, [] ++ evs)
    ∧ attempts evs = 2.
Proof.
  apply (retry_bound stale_env 1 "a.c" "/tmp/tmpmetrics" None "5" fs_empty []).
  - reflexivity.
  - reflexivity.
  - intros p w. simpl. discriminate.
  - lia.
Defined.

Lemma batch_flush_boundary_witness :
  flush_sizes (log (snd (run plain_env "cvs" [] items250 None fs_empty)))
    = [100; 100; 50].
Proof.
  apply (batch_flush_boundary plain_env "cvs" [] items250 None fs_empty
           (snd (run plain_env "cvs" [] items250 None fs_empty))).
  - vm_compute. reflexivity.
  - vm_compute. reflexivity.
Defined.

Lemma resume_skips_measured_witness :
  (∀ it', pair_in (item_pair it') (__get_metrics (table (snd first_run))) = true
          ↔ ∃ row, row ∈ table (snd first_run) ∧ row_pair row = item_pair it')
  ∧ ∃ new,
    table (snd second_run) ++ self_metrics (snd second_run)
      = table (snd first_run) ++ new
    ∧ Forall (λ row,
        pair_in (row_pair row) (__get_metrics (table (snd first_run))) = false
        ∧ row_pair row ≠ item_pair (item "1.1" "a" 1 1)) new
    ∧ (Forall (λ it',
         pair_in (item_pair it') (__get_metrics (table (snd first_run))) = true)
         items_ab →
       new = [] ∧ table (snd second_run) = table (snd first_run)
       ∧ self_metrics (snd second_run) = []).
Proof.
  apply (resume_skips_measured plain_env "cvs" [] items_ab
           (table (snd first_run)) (world (snd first_run)) (item "1.1" "a" 1 1)).
  - left.
  - vm_compute. reflexivity.
Defined.

(** Counterexample to C1 as worded: two files of one CVS commit.  The
    first run measures the first file only (the second is not checked
    out, its revision being the current one); the second run, on the
    table and the world the first run left, skips the first file,
    checks out the second and adds a row for it. *)
Lemma second_run_adds_row :
  world (snd first_run) = fs_empty
  ∧ fst first_run = Ok tt
  ∧ map row_pair (table (snd first_run)) = [(1, 1)]
  ∧ In (EvPrinterr "Error measuring %s@%s. File not found"
          [VStr "/tmp/tmpmetrics/b"; VStr "1.1"]) (log (snd first_run))
  ∧ fst second_run = Ok tt
  ∧ map row_pair (table (snd second_run)) = [(1, 1); (2, 1)]
  ∧ In (EvCheckout "b" "/tmp/tmpmetrics" None "1.1") (log (snd second_run))
  ∧ length (table (snd second_run)) ≠ length (table (snd first_run)).
Proof.
  vm_compute. repeat split; try done.
  - do 6 right. by left.
  - do 1 right. by left.
Qed.

Lemma skip_on_delete_witness :
  ∃ st',
    loop_body deleted_env "svn" [("trunk", "1")] "/tmp/tmpmetrics" []
      (item "7" "trunk/a.c" 3 4) (state0 fs_empty) = (Ok tt, st')
    ∧ world st' = world (state0 fs_empty)
    ∧ unchanged_db (state0 fs_empty) st'
    ∧ current_revision st' = current_revision (state0 fs_empty)
    ∧ log st' = log (state0 fs_empty) ++
        (if pair_in (item_pair (item "7" "trunk/a.c" 3 4)) [] then []
         else [EvDeletedLookup (filepath (item "7" "trunk/a.c" 3 4))
                 (file_id (item "7" "trunk/a.c" 3 4))
                 (resolve_rev (item "7" "trunk/a.c" 3 4));
               EvPrintdbg "Path %s is deleted in revision %s, skipping"
                 [VStr (filepath (item "7" "trunk/a.c" 3 4));
                  VStr (resolve_rev (item "7" "trunk/a.c" 3 4))]]).
Proof.
  apply (skip_on_delete deleted_env "svn" [("trunk", "1")] "/tmp/tmpmetrics" []
           (item "7" "trunk/a.c" 3 4) (state0 fs_empty)).
  - discriminate.
  - reflexivity.
Defined.

Lemma dir_or_missing_skip_witness :
  ∃ st',
    measure_item plain_env "/tmp/tmpmetrics" "src" "1.1" (item "1.1" "src" 1 1)
      (state0 dir_world) = (Ok tt, st')
    ∧ world st' = world (state0 dir_world)
    ∧ unchanged_db (state0 dir_world) st'
    ∧ current_revision st' = current_revision (state0 dir_world)
    ∧ log st' = log (state0 dir_world) ++
        (if os_path_isdir plain_env (os_path_join "/tmp/tmpmetrics" "src")
              (world (state0 dir_world))
         then []
         else [EvPrinterr "Error measuring %s@%s. File not found"
                 [VStr (os_path_join "/tmp/tmpmetrics" "src"); VStr "1.1"]]).
Proof.
  apply (dir_or_missing_skip plain_env "/tmp/tmpmetrics" "src" "1.1"
           (item "1.1" "src" 1 1) (state0 dir_world)).
  left. reflexivity.
Defined.

(** Counterexample to C8 as worded: an item whose checkout path is a
    directory is skipped without any error message. *)
Lemma directory_skipped_silently :
  os_path_isdir plain_env (os_path_join "/tmp/tmpmetrics" "src") dir_world = true
  ∧ measure_item plain_env "/tmp/tmpmetrics" "src" "1.1" (item "1.1" "src" 1 1)
      (state0 dir_world) = (Ok tt, state0 dir_world)
  ∧ existsb is_printerr (log (state0 dir_world)) = false
  ∧ fst dir_run = Ok tt
  ∧ table (snd dir_run) = []
  ∧ log (snd dir_run)
    = [EvCommit;
       EvPrintdbg "Checking out %s @ %s" [VStr "src"; VStr "1.1"];
       EvCheckout "src" "/tmp/tmpmetrics" None "1.1";
       EvGetLastRevision "/tmp/tmpmetrics/src";
       EvCommit]
  ∧ existsb is_printerr (log (snd dir_run)) = false.
Proof. vm_compute. repeat split; done. Qed.

Lemma sloccount_missing_gives_zero_witness :
  ∃ m l',
    measure plain_env "/tmp/tmpmetrics/a" "1.1"
      (fs_put "/tmp/tmpmetrics/a" "1.1" fs_empty) [] = (Ok m, l')
    ∧ sloc m = Some (VInt 0)
    ∧ lang m = "unknown"
    ∧ extends (λ e, negb (is_printout e)) [] l'.
Proof.
  apply (sloccount_missing_gives_zero plain_env "/tmp/tmpmetrics/a" "1.1"
           (fs_put "/tmp/tmpmetrics/a" "1.1" fs_empty) []).
  - reflexivity.
  - intros e H. vm_compute in H. discriminate.
Defined.

(** * Further properties of the code *)

(** ** The statistics helper on any arguments *)

Lemma py_getitem_in_range {A} (l : list A) (i : Z) :
  - Z.of_nat (length l) <= i < Z.of_nat (length l) →
  ∃ x, py_getitem l i = Ok x.
Proof.
  intros Hi. unfold py_getitem.
  set (n := Z.of_nat (length l)) in *.
  set (j := if i <? 0 then i + n else i).
  assert (0 <= j < n) as Hj.
  { subst j. destruct (i <? 0) eqn:Hneg;
      [apply Z.ltb_lt in Hneg|apply Z.ltb_ge in Hneg]; lia. }
  assert (((j <? 0) || (n <=? j)) = false) as ->.
  { apply orb_false_iff. split; [apply Z.ltb_ge|apply Z.leb_gt]; lia. }
  destruct (l !! Z.to_nat j) as [x|] eqn:Hx; [by exists x|].
  apply lookup_ge_None in Hx. lia.
Qed.

Lemma get_mccabe_stats_ok (nfunctions : Z) (mccabe_values : list Z) :
  mccabe_values ≠ [] → 1 <= nfunctions →
  ∃ r, _get_mccabe_stats nfunctions mccabe_values = Ok r.
Proof.
  intros Hne H1. unfold _get_mccabe_stats.
  destruct mccabe_values as [|x vs]; [done|].
  set (l := x :: vs).
  change (py_min l) with (Ok (fold_left Z.min vs x)).
  change (py_max l) with (Ok (fold_left Z.max vs x)).
  cbn [bind].
  assert (length (py_sort l) = length l) as Hlen.
  { unfold py_sort. by rewrite merge_sort_Permutation. }
  set (n := Z.of_nat (length (py_sort l))).
  assert (1 <= n) as Hn by (subst n l; rewrite Hlen; simpl; lia).
  assert ((1 <=? nfunctions) = true) as -> by lia.
  destruct (nfunctions =? 1) eqn:Hone; [by eexists|].
  apply Z.eqb_neq in Hone.
  assert ((2 <=? nfunctions) = true) as -> by lia.
  assert (0 <= n / 2 < n) as Hhalf.
  { split; [apply Z.div_pos; lia|apply Z.div_lt_upper_bound; lia]. }
  destruct (py_getitem_in_range (py_sort l) (n / 2)) as [b Hb]; [fold n; lia|].
  destruct (py_getitem_in_range (py_sort l) (n / 2 - 1)) as [a Ha]; [fold n; lia|].
  destruct (negb _); rewrite ?Ha, Hb; by eexists.
Qed.

(** X1. [_get_mccabe_stats] returns exactly when the list of values is
    not empty and [nfunctions] is at least 1.  On an empty list [min]
    raises; with values and [nfunctions] below 1 no branch binds the
    mean and the median, and the [return] raises an unbound local. *)
Theorem get_mccabe_stats_returns (nfunctions : Z) (mccabe_values : list Z) :
  match _get_mccabe_stats nfunctions mccabe_values with
  | Ok _ => mccabe_values ≠ [] ∧ 1 <= nfunctions
  | Raise e =>
      (mccabe_values = [] ∧ e = Exception "min() arg is an empty sequence")
      ∨ (mccabe_values ≠ [] ∧ nfunctions < 1 ∧ e = Exception "UnboundLocalError")
  end.
Proof.
  destruct mccabe_values as [|x vs]; [by left|].
  destruct (Z.le_gt_cases 1 nfunctions) as [H1|H1].
  - destruct (get_mccabe_stats_ok nfunctions (x :: vs)) as [r ->]; done.
  - unfold _get_mccabe_stats.
    change (py_min (x :: vs)) with (Ok (fold_left Z.min vs x)).
    change (py_max (x :: vs)) with (Ok (fold_left Z.max vs x)).
    assert ((1 <=? nfunctions) = false) as -> by lia.
    assert ((nfunctions =? 1) = false) as -> by lia.
    assert ((2 <=? nfunctions) = false) as -> by lia.
    cbn. right. repeat split; [done|lia].
Qed.

(** ** The scans as a filter and a map *)

Section ScanShape.
Context {W : Type} (E : Env W).

Lemma fourth_of_five (values : list string) :
  Z.of_nat (length values) = 5 →
  int_or_zero E (py_getitem values (-2)) = default 0 (py_int E (nth 3 values "")).
Proof.
  intros H5.
  destruct values as [|a [|b [|c [|d [|e [|]]]]]]; simpl in H5; try lia.
  reflexivity.
Qed.

Lemma scan_C_shape lines : ∀ n vs,
  fold_left
    (fun '(nfunctions, mccabe_values) l =>
       let values := split_on tab l in
       if negb (Z.of_nat (length values) =? 5) then (nfunctions, mccabe_values)
       else
         let mccabe := int_or_zero E (py_getitem values (-2)) in
         (nfunctions + 1, mccabe_values ++ [mccabe]))
    lines (n, vs)
  = (n + Z.of_nat (length (List.filter is_function_line lines)),
     vs ++ map (λ l, default 0 (py_int E (nth 3 (split_on tab l) "")))
             (List.filter is_function_line lines)).
Proof.
  induction lines as [|l lines IH]; intros n vs; simpl.
  { by rewrite Z.add_0_r, app_nil_r. }
  fold (is_function_line l).
  destruct (is_function_line l) eqn:H5; simpl.
  - rewrite IH. apply Z.eqb_eq in H5. rewrite (fourth_of_five _ H5).
    f_equal; [lia|]. by rewrite <- app_assoc.
  - apply IH.
Qed.

Lemma scan_Python_shape lines : ∀ n vs,
  fold_left
    (fun '(nfunctions, mccabe_values) line =>
       match match_mccabe line with
       | Some group1 =>
           let nfunctions := nfunctions + 1 in
           let mccabe := int_or_zero E (Ok group1) in
           (nfunctions, mccabe_values ++ [mccabe])
       | None => (nfunctions, mccabe_values)
       end)
    lines (n, vs)
  = (n + Z.of_nat (length (omap match_mccabe lines)),
     vs ++ map (λ g, default 0 (py_int E g)) (omap match_mccabe lines)).
Proof.
  induction lines as [|l lines IH]; intros n vs; simpl.
  { by rewrite Z.add_0_r, app_nil_r. }
  destruct (match_mccabe l) as [g|]; simpl.
  - rewrite IH. f_equal; [|by rewrite <- app_assoc].
    change (list_omap string string match_mccabe lines)
      with (omap match_mccabe lines).
    lia.
  - apply IH.
Qed.

(** X2. The two line scans are a filter followed by a map.  For C the
    lines of exactly five tab fields are kept, in order, and each gives
    the integer of its fourth field, or 0 when [int] fails; for Python
    the lines the mccabe pattern matches are kept, and each gives the
    integer of its group, or 0.  In both the counter is the number of
    lines kept. *)
Theorem mccabe_scans_shape (lines : list string) :
  mccabe_scan_C E lines
    = (Z.of_nat (length (List.filter is_function_line lines)),
       map (λ l, default 0 (py_int E (nth 3 (split_on tab l) "")))
         (List.filter is_function_line lines))
  ∧ mccabe_scan_Python E lines
    = (Z.of_nat (length (omap match_mccabe lines)),
       map (λ g, default 0 (py_int E g)) (omap match_mccabe lines)).
Proof.
  split.
  - unfold mccabe_scan_C. by rewrite scan_C_shape.
  - unfold mccabe_scan_Python. by rewrite scan_Python_shape.
Qed.
End ScanShape.

(** ** Fields of a split *)

Lemma split_on_cons sep s : ∃ f fs, split_on sep s = f :: fs.
Proof.
  induction s as [|c s (f & fs & IH)]; simpl; [by eexists _, _|].
  destruct (Ascii.eqb c sep); [by eexists _, _|].
  rewrite IH. by eexists _, _.
Qed.

Lemma py_getitem_lookup {A} (l : list A) (i : nat) :
  py_getitem l (Z.of_nat i)
  = match l !! i with
    | Some x => Ok x
    | None => Raise (Exception "list index out of range")
    end.
Proof.
  unfold py_getitem.
  assert ((Z.of_nat i <? 0) = false) as Hneg by (apply Z.ltb_ge; lia).
  cbv zeta. rewrite Hneg. cbv iota. rewrite Hneg, Nat2Z.id.
  destruct (l !! i) as [x|] eqn:Hx.
  - apply lookup_lt_Some in Hx.
    assert ((Z.of_nat (length l) <=? Z.of_nat i) = false) as ->
      by (apply Z.leb_gt; lia).
    reflexivity.
  - by destruct (_ || _).
Qed.

Section Tools.
Context {W : Type} (E : Env W).

(** ** halstead *)

Lemma int_or_None_lookup values (i : nat) :
  int_or_None E values (Z.of_nat i) = VInt <$> (values !! i ≫= py_int E).
Proof.
  unfold int_or_None. rewrite py_getitem_lookup.
  by destruct (values !! i).
Qed.

(** X3. When halstead is installed, [FileMetricsC.get_HalsteadComplexity]
    never raises, whatever the program prints: the first field of a
    split always exists and every conversion sits in a bare [except].
    The length, the volume and the mental discriminations are the
    [int] of the fields 1, 2 and 4, and [None] where the field is
    missing or [int] fails.  The level is the [float] of the field 3
    read with the comma as the decimal point, whenever that value
    prints as something else than inf or nan, and it is [None]
    otherwise.  So only those two printed forms are filtered: a
    negative infinity, which prints as -inf, is returned as it is. *)
Theorem halstead_never_raises (self : FileMetrics) (w : W) (halstead : string) :
  find_program E "halstead" = Some halstead →
  let values := split_on tab (getoutput E (halstead +:+ " " +:+ path self) w) in
  ∃ hl hv hlev hmd,
    get_HalsteadComplexity_C E self w = Ok (hl, hv, hlev, hmd)
    ∧ hl = VInt <$> (values !! 1%nat ≫= py_int E)
    ∧ hv = VInt <$> (values !! 2%nat ≫= py_int E)
    ∧ hmd = VInt <$> (values !! 4%nat ≫= py_int E)
    ∧ (∀ v, hlev = Some v →
         ∃ s repr, values !! 3%nat = Some s
                   ∧ py_float E (replace_char "," "." s) = Some repr
                   ∧ repr ≠ "inf" ∧ repr ≠ "nan"
                   ∧ v = VFloat repr)
    ∧ (∀ s repr, values !! 3%nat = Some s →
         py_float E (replace_char "," "." s) = Some repr →
         repr ≠ "inf" → repr ≠ "nan" →
         hlev = Some (VFloat repr))
    ∧ (∀ s, values !! 3%nat = Some s →
         py_float E (replace_char "," "." s) = Some "-inf" →
         hlev = Some (VFloat "-inf")).
Proof.
  intros Hfind values. unfold get_HalsteadComplexity_C. rewrite Hfind. cbv zeta.
  fold values.
  destruct (split_on_cons tab (getoutput E (halstead +:+ " " +:+ path self) w))
    as (f & fs & Hsplit).
  assert (py_getitem values 0 = Ok f) as -> by (subst values; by rewrite Hsplit).
  cbn [bind].
  eexists _, _, _, _. split; [reflexivity|].
  split; [apply (int_or_None_lookup values 1)|].
  split; [apply (int_or_None_lookup values 2)|].
  split; [apply (int_or_None_lookup values 4)|].
  unfold float_or_None.
  pose proof (py_getitem_lookup values 3) as H3.
  change (Z.of_nat 3) with 3 in H3. rewrite H3. split.
  - intros v. destruct (values !! 3%nat) as [s|]; [|done].
    destruct (py_float E _) as [repr|] eqn:Hf; [|done].
    destruct (String.eqb repr "inf") eqn:Hinf; [done|].
    destruct (String.eqb repr "nan") eqn:Hnan; [done|].
    apply String.eqb_neq in Hinf, Hnan.
    intros [= <-]. by exists s, repr.
  - split.
    + intros s repr -> -> Hinf%String.eqb_neq Hnan%String.eqb_neq.
      by rewrite Hinf, Hnan.
    + intros s -> ->. done.
Qed.

(** ** cccc *)

Lemma startElement_inv h name attributes h' :
  handler_inv h → startElement E h name attributes = Ok h' → handler_inv h'.
Proof.
  intros (Hnf & Hcur & Hval). unfold startElement.
  destruct (String.eqb name "project_summary") eqn:Hps.
  { apply String.eqb_eq in Hps as ->. intros [= <-].
    repeat split; simpl; [done|discriminate|exact Hval]. }
  destruct (_ && _).
  { destruct (attr_int E attributes); [|done]. intros [= <-]. by repeat split. }
  destruct (String.eqb name "module") eqn:Hmod.
  { intros [= <-]. repeat split; simpl; intros; lia. }
  destruct (_ && _) eqn:Hmc.
  { apply andb_true_iff in Hmc as [_ Hc].
    destruct (attr_int E attributes); [|done]. intros [= <-].
    assert (h_current h = Some "module") as Hmodule.
    { unfold option_eqb in Hc. destruct (h_current h) as [c|]; [|done].
      by apply String.eqb_eq in Hc as ->. }
    repeat split; simpl; auto. }
  by intros [= <-].
Qed.

Lemma endElement_inv h name : handler_inv h → handler_inv (endElement h name).
Proof.
  intros (Hnf & Hcur & Hval). unfold endElement.
  destruct (_ || _); [|done]. by repeat split.
Qed.

Lemma feed_inv events : ∀ h, handler_inv h → handler_inv (fst (feed E h events)).
Proof.
  induction events as [|[name attributes|name] rest IH]; intros h Hh; simpl; [done| |].
  - destruct (startElement E h name attributes) as [h'|e] eqn:Hs; [|done].
    apply IH. by eapply startElement_inv.
  - apply IH. by apply endElement_inv.
Qed.

Lemma handler_init_inv : handler_inv XMLMetricsHandler_init.
Proof. by repeat split. Qed.

Lemma ensure_handler_ok self w :
  handler_ok self →
  handler_ok (snd (ensure_handler E self w))
  ∧ match fst (ensure_handler E self w) with
    | Ok h => handler_inv h ∧ handler (snd (ensure_handler E self w)) = Some h
    | Raise _ => True
    end.
Proof.
  unfold handler_ok, ensure_handler.
  destruct (handler self) as [h|] eqn:Hh.
  { intros Hinv. simpl. rewrite Hh. done. }
  intros _.
  destruct (find_program E "cccc") as [cccc|]; [|simpl; by rewrite Hh].
  destruct (cccc_xml E _ w) as [[events err]|].
  - pose proof (feed_inv events _ handler_init_inv) as Hf.
    destruct (feed E XMLMetricsHandler_init events) as [h [e|]]; simpl in *; [done|].
    by destruct err.
  - simpl. split; [apply handler_init_inv|done].
Qed.

Lemma mccabe_result_ok nfunctions mccabe_values :
  (mccabe_values ≠ [] → 1 <= nfunctions) →
  ∃ t, mccabe_result nfunctions mccabe_values = Ok t.
Proof.
  intros H. unfold mccabe_result.
  destruct mccabe_values as [|x vs]; [by eexists|].
  destruct (get_mccabe_stats_ok nfunctions (x :: vs)) as [[[[[a b] c] d] e] ->];
    [done|by apply H|].
  by eexists.
Qed.

(** X4. The handler of cccc collects values only inside a module, and
    has counted every module it entered.  So, on a file whose handler
    (if any) was built that way, [FileMetricsCCCC.get_MccabeComplexity]
    raises only what [__ensure_handler] raises: its own call of
    [_get_mccabe_stats] cannot fail.  Both methods leave a handler of
    the same kind behind. *)
Theorem cccc_statistics_never_raise (self : FileMetrics) (w : W) :
  handler_ok self →
  match fst (get_MccabeComplexity_CCCC E self w) with
  | Ok _ => True
  | Raise e => fst (ensure_handler E self w) = Raise e
  end
  ∧ handler_ok (snd (get_MccabeComplexity_CCCC E self w))
  ∧ handler_ok (snd (get_CommentsBlank_CCCC E self w)).
Proof.
  intros Hok.
  destruct (ensure_handler_ok self w Hok) as [Hok' Hres].
  unfold get_MccabeComplexity_CCCC, get_CommentsBlank_CCCC.
  destruct (ensure_handler E self w) as [[h|e] self']; cbn [fst snd] in *; [|done].
  destruct Hres as [(Hnf & Hcur & Hval) Hself'].
  destruct (mccabe_result_ok (h_nfunctions h) (h_mccabe_values h) Hval) as [t ->].
  split; [done|]. split; [|done].
  destruct (h_mccabe_values h) as [|x vs] eqn:Hvs; [done|].
  unfold handler_ok, set_handler. cbn [handler].
  repeat split; cbn; [done..|]. intros _. apply Hval. done.
Qed.

(** X5. [__ensure_handler] runs cccc at most once for a file: after
    its first call the handler is stored, also when that call raised,
    and every later call returns the stored handler without a command.
    In particular when the XML file of cccc cannot be opened,
    [get_CommentsBlank] raises and a following [get_MccabeComplexity]
    returns the unset statistics from the empty handler instead of
    raising. *)
Theorem ensure_handler_runs_once (self : FileMetrics) (w : W) (cccc : string) :
  find_program E "cccc" = Some cccc →
  handler self = None →
  ∃ h,
    handler (snd (ensure_handler E self w)) = Some h
    ∧ (∀ w', ensure_handler E (snd (ensure_handler E self w)) w'
             = (Ok h, snd (ensure_handler E self w)))
    ∧ (cccc_xml E (cccc +:+ " --lang=" +:+ cccc_lang (fm_cls self) +:+ " "
                     +:+ path self) w = None →
       fst (get_CommentsBlank_CCCC E self w) = Raise (Exception "IOError: cccc.xml")
       ∧ ∀ w', fst (get_MccabeComplexity_CCCC E
                      (snd (get_CommentsBlank_CCCC E self w)) w')
               = Ok mccabe_unset).
Proof.
  intros Hfind Hnone.
  assert (∀ self' h, handler self' = Some h →
            ∀ w', ensure_handler E self' w' = (Ok h, self')) as Hcached.
  { intros self' h Hh w'. unfold ensure_handler. by rewrite Hh. }
  assert (∃ r h,
    ensure_handler E self w = (r, set_handler self h)
    ∧ (cccc_xml E (cccc +:+ " --lang=" +:+ cccc_lang (fm_cls self) +:+ " "
                     +:+ path self) w = None →
       r = Raise (Exception "IOError: cccc.xml") ∧ h = XMLMetricsHandler_init))
    as (r & h & Hens & Hio).
  { unfold ensure_handler. rewrite Hnone, Hfind.
    destruct (cccc_xml E _ w) as [[events err]|].
    - destruct (feed E XMLMetricsHandler_init events) as [h [e|]];
        [|destruct err]; by eexists _, h.
    - by eexists _, _. }
  unfold get_CommentsBlank_CCCC, get_MccabeComplexity_CCCC.
  rewrite Hens. cbn [fst snd].
  exists h. split; [done|]. split; [by apply Hcached|].
  intros Hx. destruct (Hio Hx) as [-> ->]. split; [done|].
  intros w'. cbn [snd]. rewrite (Hcached _ XMLMetricsHandler_init) by done. done.
Qed.
End Tools.

(** ** The retry loops against any backend *)

Lemma warnings_app l1 l2 : warnings (l1 ++ l2) = warnings l1 + warnings l2.
Proof. unfold warnings. rewrite List.filter_app, length_app. lia. Qed.

Lemma attempts_cons e l :
  attempts (e :: l) = (if is_attempt e then 1 else 0) + attempts l.
Proof. unfold attempts. simpl. destruct (is_attempt e); simpl; lia. Qed.

Lemma warnings_cons e l :
  warnings (e :: l) = (if is_printout e then 1 else 0) + warnings l.
Proof. unfold warnings. simpl. destruct (is_printout e); simpl; lia. Qed.

Ltac count_events :=
  rewrite ?attempts_cons, ?warnings_cons;
  cbn [is_attempt is_printout];
  change (attempts []) with 0; change (warnings []) with 0; lia.

Section AnyBackend.
Context {W : Type} (E : Env W).

Lemma checkout_loop_bounded retries uri rootdir newdir rev file_path :
  ∀ fuel count w l,
    ∃ evs,
      snd (checkout_loop E retries fuel uri rootdir newdir rev file_path count w l)
        = l ++ evs
      ∧ attempts evs <= Z.of_nat fuel
      ∧ warnings evs <= attempts evs <= warnings evs + 1.
Proof.
  induction fuel as [|fuel IH]; intros count w l; cbn [checkout_loop].
  { exists []. rewrite app_nil_r.
    split; [by destruct (0 <=? retries - count)|]. count_events. }
  destruct (0 <=? retries - count).
  2:{ exists []. rewrite app_nil_r. split; [done|]. count_events. }
  destruct (repo_checkout E uri rootdir newdir rev w) as [w1 [e|]].
  { eexists [_]. split; [done|]. count_events. }
  destruct (repo_get_last_revision E file_path w1) as [w2 [new_rev|e]].
  - destruct (String.eqb rev new_rev).
    { eexists [_; _]. split; [by rewrite <- app_assoc|].
      count_events. }
    edestruct IH as (evs & -> & Ha & Hw).
    eexists (_ :: _ :: _ :: evs). split; [by rewrite <- !app_assoc|].
    count_events.
  - destruct (is_Exception e).
    2:{ eexists [_; _]. split; [by rewrite <- app_assoc|].
        count_events. }
    edestruct IH as (evs & -> & Ha & Hw).
    eexists (_ :: _ :: _ :: evs). split; [by rewrite <- !app_assoc|].
    count_events.
Qed.

Lemma update_loop_bounded retries uri rev :
  ∀ fuel count w l,
    ∃ evs,
      snd (update_loop E retries fuel uri rev count w l) = l ++ evs
      ∧ attempts evs <= Z.of_nat fuel
      ∧ warnings evs <= attempts evs <= warnings evs + 1.
Proof.
  induction fuel as [|fuel IH]; intros count w l; cbn [update_loop].
  { exists []. rewrite app_nil_r.
    split; [by destruct (0 <=? retries - count)|]. count_events. }
  destruct (0 <=? retries - count).
  2:{ exists []. rewrite app_nil_r. split; [done|]. count_events. }
  destruct (repo_update E uri rev w) as [w1 [e|]].
  { eexists [_]. split; [done|]. count_events. }
  destruct (repo_get_last_revision E uri w1) as [w2 [new_rev|e]].
  - destruct (String.eqb rev new_rev).
    { eexists [_; _]. split; [by rewrite <- app_assoc|].
      count_events. }
    edestruct IH as (evs & -> & Ha & Hw).
    eexists (_ :: _ :: _ :: evs). split; [by rewrite <- !app_assoc|].
    count_events.
  - destruct (is_Exception e).
    2:{ eexists [_; _]. split; [by rewrite <- app_assoc|].
        count_events. }
    edestruct IH as (evs & -> & Ha & Hw).
    eexists (_ :: _ :: _ :: evs). split; [by rewrite <- !app_assoc|].
    count_events.
Qed.

(** X6. Against any backend and for any value of [retries], the loops of
    [__checkout] and [__update] only add events to the log, call the
    backend at most [retries + 1] times (never when that is negative),
    and print a warning for every attempt except possibly the last
    one. *)
Theorem retries_bounded retries uri rootdir newdir rev w l :
  (∃ evs,
     snd (checkout_with E retries uri rootdir newdir rev w l) = l ++ evs
     ∧ attempts evs <= Z.max 0 (retries + 1)
     ∧ warnings evs <= attempts evs <= warnings evs + 1)
  ∧ (∃ evs,
       snd (update_with E retries uri rev w l) = l ++ evs
       ∧ attempts evs <= Z.max 0 (retries + 1)
       ∧ warnings evs <= attempts evs <= warnings evs + 1).
Proof.
  split.
  - unfold checkout_with.
    edestruct checkout_loop_bounded as (evs & -> & Ha & Hw).
    exists evs. split; [done|]. split; [lia|done].
  - unfold update_with.
    edestruct update_loop_bounded as (evs & -> & Ha & Hw).
    exists evs. split; [done|]. split; [lia|done].
Qed.
End AnyBackend.

Section Isolation.
Context {W : Type} (E : Env W).

Lemma create_file_metrics_path p w fm :
  create_file_metrics E p w = Ok fm →
  path fm = p ∧ pymetrics fm = None ∧ handler fm = None
  ∧ fm_cls fm = _metrics (fm_lang fm).
Proof.
  unfold create_file_metrics.
  destruct (find_program E "sloccount").
  - destruct (sloccount_scan _ _ _) as [[sl la]|e]; [|done]. by intros [= <-].
  - by intros [= <-].
Qed.

Lemma sizes_set_comments m t :
  lang (set_comments m t) = lang m ∧ sloc (set_comments m t) = sloc m
  ∧ loc (set_comments m t) = loc m.
Proof. by destruct t as [[a b] c]. Qed.

Lemma sizes_set_halstead m t :
  lang (set_halstead m t) = lang m ∧ sloc (set_halstead m t) = sloc m
  ∧ loc (set_halstead m t) = loc m.
Proof. by destruct t as [[[a b] c] d]. Qed.

Lemma sizes_set_mccabe m t :
  lang (set_mccabe m t) = lang m ∧ sloc (set_mccabe m t) = sloc m
  ∧ loc (set_mccabe m t) = loc m.
Proof. by destruct t as [[[[[a b] c] d] e] f]. Qed.

(** X7. A failure of an analyzer never costs the sizes.  When
    [create_file_metrics] gives a file and reading the lines can only
    fail with an [Exception], measuring returns a record, whatever the
    three analyzers do; its language and sloc are those of
    [create_file_metrics], and its loc is the number of lines, or
    [None] when the file could not be read. *)
Theorem measure_isolates_failures checkout_path rev w l fm :
  create_file_metrics E checkout_path w = Ok fm →
  (∀ e, open_readlines E checkout_path w = Raise e → is_Exception e = true) →
  ∃ m l',
    measure E checkout_path rev w l = (Ok m, l')
    ∧ lang m = fm_lang fm
    ∧ sloc m = Some (fm_sloc fm)
    ∧ loc m = match open_readlines E checkout_path w with
              | Ok lines => Some (VInt (Z.of_nat (length lines)))
              | Raise _ => None
              end.
Proof.
  intros Hfm Hopen.
  destruct (create_file_metrics_path _ _ _ Hfm) as (Hpath & _).
  unfold measure. rewrite Hfm. unfold get_LOC, get_SLOCLang. rewrite Hpath.
  set (sized := λ m : Measures,
         lang m = fm_lang fm ∧ sloc m = Some (fm_sloc fm)
         ∧ loc m = match open_readlines E checkout_path w with
                   | Ok lines => Some (VInt (Z.of_nat (length lines)))
                   | Raise _ => None
                   end).
  assert (∀ m t, sized m → sized (set_comments m t)) as Hc.
  { intros m t. unfold sized. destruct (sizes_set_comments m t) as (-> & -> & ->). done. }
  assert (∀ m t, sized m → sized (set_halstead m t)) as Hh.
  { intros m t. unfold sized. destruct (sizes_set_halstead m t) as (-> & -> & ->). done. }
  assert (∀ m t, sized m → sized (set_mccabe m t)) as Hm.
  { intros m t. unfold sized. destruct (sizes_set_mccabe m t) as (-> & -> & ->). done. }
  assert (∃ m1 l1,
    match
      match (try! lines <- open_readlines E checkout_path w ; Ok (Z.of_nat (length lines))) with
      | Ok v => Ok (set_loc Measures_init (Some (VInt v)),
                    (l ++ [EvAnalyze checkout_path]) ++
                    [EvPrintdbg "Measuring %s @ %s" [VStr checkout_path; VStr rev]])
      | Raise e =>
          if is_Exception e then
            Ok (Measures_init,
                ((l ++ [EvAnalyze checkout_path]) ++
                 [EvPrintdbg "Measuring %s @ %s" [VStr checkout_path; VStr rev]]) ++
                [EvPrinterr "Error running loc for %s@%s. Exception: %s"
                   ([VStr checkout_path; VStr rev] ++ [VStr (str_exn e)])])
          else Raise e
      end
    with
    | Ok (m1', l1') => m1' = m1 ∧ l1' = l1
    | Raise _ => False
    end
    ∧ sized (set_sloc_lang m1 (fm_sloc fm) (fm_lang fm))) as (m1 & l1 & Hloc & Hsized).
  { unfold sized.
    destruct (open_readlines E checkout_path w) as [lines|e] eqn:Hl; cbn [bind].
    - by eexists _, _.
    - rewrite (Hopen e eq_refl). by eexists _, _. }
  destruct (match (try! lines <- open_readlines E checkout_path w ; _) with
            | Ok v => _ | Raise e => _ end) as [[m1' l1']|e]; [|done].
  destruct Hloc as [-> ->].
  set (m2 := set_sloc_lang m1 (fm_sloc fm) (fm_lang fm)) in *.
  destruct (get_CommentsBlank E fm w) as [rc fm1].
  assert (∃ m3 l3,
    match rc with
    | Ok t => (set_comments m2 t, l1)
    | Raise NotImplementedError => (m2, l1)
    | Raise (ProgramNotFound p) =>
        (m2, l1 ++ [EvPrintout "Program %s is not installed. Skipping CommentsBlank metric"
                      [VStr p]])
    | Raise e =>
        (m2, l1 ++ [EvPrinterr "Error running CommentsBlank for %s@%s. Exception: %s"
                      ([VStr checkout_path; VStr rev] ++ [VStr (str_exn e)])])
    end = (m3, l3) ∧ sized m3) as (m3 & l3 & -> & Hs3).
  { destruct rc as [t|[p| |msg]]; eexists _, _; (split; [reflexivity|]); auto. }
  assert (∃ m4 l4,
    match get_HalsteadComplexity E fm1 w with
    | Ok t => (set_halstead m3 t, l3)
    | Raise NotImplementedError => (m3, l3)
    | Raise (ProgramNotFound p) =>
        (m3, l3 ++ [EvPrintout "Program %s is not installed. Skipping halstead metric"
                      [VStr p]])
    | Raise e =>
        (m3, l3 ++ [EvPrinterr "Error running cmetrics halstead for %s@%s. Exception: %s"
                      ([VStr checkout_path; VStr rev] ++ [VStr (str_exn e)])])
    end = (m4, l4) ∧ sized m4) as (m4 & l4 & -> & Hs4).
  { destruct (get_HalsteadComplexity E fm1 w) as [t|[p| |msg]];
      eexists _, _; (split; [reflexivity|]); auto. }
  destruct (get_MccabeComplexity E fm1 w) as [rm fm2].
  assert (∃ m5 l5,
    match rm with
    | Ok t => (set_mccabe m4 t, l4)
    | Raise NotImplementedError => (m4, l4)
    | Raise (ProgramNotFound p) =>
        (m4, l4 ++ [EvPrintout "Program %s is not installed. Skipping mccabe metric"
                      [VStr p]])
    | Raise e =>
        (m4, l4 ++ [EvPrinterr "Error running cmetrics mccabe for %s@%s. Exception: %s"
                      ([VStr checkout_path; VStr rev] ++ [VStr (str_exn e)])])
    end = (m5, l5) ∧ sized m5) as (m5 & l5 & -> & Hs5).
  { destruct rm as [t|[p| |msg]]; eexists _, _; (split; [reflexivity|]); auto. }
  by exists m5, l5.
Qed.
End Isolation.

Section Runs.
Context {W : Type} (E : Env W).
Implicit Types (st : @state W) (it : workitem).

(** The shape of a run: a state after the set up, then either the
    set up failed, or the loop ran and, when it ended normally, the
    pending rows were written and committed. *)
Lemma run_shape type topdir_rows items db w r st' :
  run E type topdir_rows items db w = (r, st') →
  ∃ st0,
    table st0 = default [] db ∧ self_metrics st0 = []
    ∧ id_counter st0 = seed_of db
    ∧ flush_sizes (log st0) = []
    ∧ ((∃ e, r = Raise e ∧ st' = st0)
       ∨ ∃ topdirs tmpdir r1 st1,
           loop E type topdirs tmpdir (__get_metrics (default [] db)) items st0
             = (r1, st1)
           ∧ match r1 with
             | Raise e => r = Raise e ∧ st' = st1
             | Ok _ =>
                 r = Ok tt
                 ∧ table st' ++ self_metrics st' = table st1 ++ self_metrics st1
                 ∧ self_metrics st' = []
                 ∧ id_counter st' = id_counter st1
             end).
Proof.
  unfold run.
  set (tbl := default [] db).
  set (l0 := match db with None => [EvCommit] | Some _ => [] end).
  assert (match db with
          | None => ([], 1, [], [EvCommit])
          | Some rows =>
              (rows, match select_max_id rows with
                     | Some id => id + 1
                     | None => 1
                     end, __get_metrics rows, [])
          end = (tbl, seed_of db, __get_metrics tbl, l0)) as ->.
  { by destruct db. }
  assert (flush_sizes l0 = []) as Hl0 by (by destruct db).
  destruct (mkdtemp E w) as [w1 tmpdir].
  set (st0 := {| world := w1; table := tbl; self_metrics := [];
                 id_counter := seed_of db; current_revision := None; log := l0 |}).
  assert (∃ topdirs st,
    (if String.eqb type "svn" then
       match checkout_topdirs E topdir_rows tmpdir [] w1 l0 with
       | (Ok topdirs, w, l) =>
           (Ok topdirs,
            with_io st0 w (l ++ [EvPrintdbg "SVN checkout first rev finished" []]))
       | (Raise e, w, l) => (Raise e, with_io st0 w l)
       end
     else (Ok [], st0)) = (topdirs, st)
    ∧ table st = tbl ∧ self_metrics st = [] ∧ id_counter st = seed_of db
    ∧ flush_sizes (log st) = []) as (topdirs & st & -> & Ht & Hs & Hi & Hl).
  { destruct (String.eqb type "svn"); [|by eexists _, _].
    pose proof (checkout_topdirs_extends E topdir_rows tmpdir [] w1 l0)
      as (evs & Hevs & Hq).
    destruct (checkout_topdirs E _ _ _ _ _) as [[[topdirs|e] w2] l2];
      simpl in Hevs; subst l2; eexists _, _; (split; [reflexivity|]); simpl;
      rewrite ?flush_sizes_app, Hl0, flush_sizes_quiet; try done;
      (rewrite forallb_forall in *; intros; apply work_event_quiet; auto). }
  destruct topdirs as [topdirs|e].
  2:{ intros [= <- <-]. exists st. repeat split; try done. left. by exists e. }
  destruct (loop E type topdirs tmpdir (__get_metrics tbl) items st)
    as [r1 st1] eqn:Hloop.
  intros Hrun. exists st. repeat split; try done.
  right. exists topdirs, tmpdir, r1, st1. split; [done|].
  destruct r1 as [[]|e]; injection Hrun as <- <-; [|done].
  destruct (insert_many_frame st1) as (_ & _ & Hid).
  cbn [table self_metrics id_counter with_io commit emit].
  rewrite Hid. split; [done|].
  destruct (self_metrics st1) as [|row pend] eqn:Hpend.
  - assert (__insert_many st1 = st1) as -> by (unfold __insert_many; by rewrite Hpend).
    by rewrite Hpend.
  - destruct (insert_many_nonempty st1) as (Ht1 & Hs1 & _); [by rewrite Hpend|].
    rewrite Ht1, Hs1, Hpend, app_nil_r. done.
Qed.

(** X8. A run that ends with an exception has written whole batches
    only: the table has grown by a multiple of [MAX_METRICS] rows, one
    [executemany] of that size each, and the rows measured since the
    last full batch are still pending in [self.metrics], unwritten. *)
Theorem aborted_run_loses_pending type topdir_rows items db w e st :
  run E type topdir_rows items db w = (Raise e, st) →
  ∃ new,
    table st ++ self_metrics st = default [] db ++ new
    ∧ plen st = Z.of_nat (length new) mod MAX_METRICS
    ∧ Z.of_nat (length (table st))
      = Z.of_nat (length (default [] db))
        + MAX_METRICS * (Z.of_nat (length new) / MAX_METRICS)
    ∧ flush_sizes (log st)
      = replicate (Z.to_nat (Z.of_nat (length new) / MAX_METRICS)) MAX_METRICS.
Proof.
  intros Hrun.
  apply run_shape in Hrun
    as (st0 & Ht & Hs & Hi & Hl & [(e' & _ & ->)|(topdirs & tmpdir & r1 & st1 & Hloop & Hr1)]).
  { exists []. unfold plen. rewrite Ht, Hs, Hl, app_nil_r.
    change (Z.of_nat (length [])) with 0.
    change (0 / MAX_METRICS) with 0. change (0 mod MAX_METRICS) with 0.
    repeat split; try done. lia. }
  destruct r1 as [[]|e1]; [by destruct Hr1|]. destruct Hr1 as [_ ->].
  apply loop_post in Hloop
    as (new & evs & G1 & _ & _ & _ & G5 & G6 & G7 & (fl & G8));
    [|unfold plen; rewrite Hs; done].
  unfold plen in *. rewrite Ht, Hs in *.
  change (Z.of_nat (length [])) with 0 in G6, G7.
  rewrite Z.add_0_l in G6, G7. rewrite app_nil_r in G1.
  exists new. split; [done|]. split; [done|]. split.
  - apply (f_equal length) in G1. rewrite !length_app in G1.
    pose proof (Z.div_mod (Z.of_nat (length new)) MAX_METRICS ltac:(done)). lia.
  - by rewrite G5, flush_sizes_app, Hl, G6.
Qed.

(** X9. When the ids of the table are distinct at the start of a run,
    the ids of the table and of the pending rows are distinct at its
    end, however the run ends. *)
Theorem ids_stay_unique type topdir_rows items db w :
  NoDup (map r_id (default [] db)) →
  let st := snd (run E type topdir_rows items db w) in
  NoDup (map r_id (table st ++ self_metrics st)).
Proof.
  intros Hnd st. subst st.
  destruct (run E type topdir_rows items db w) as [r st] eqn:Hrun.
  apply run_post in Hrun as (new & H1 & H2 & _). simpl.
  rewrite H1, map_app, H2. apply NoDup_app. split; [done|].
  split; [|apply NoDup_seqZ].
  intros id Hid Hseq. apply elem_of_seqZ in Hseq.
  assert (id < seed_of db); [|lia].
  destruct db as [[|row rows]|]; simpl in Hid; try (by inversion Hid).
  unfold seed_of.
  destruct (select_max_id (row :: rows)) as [mx|] eqn:Hmax; [|done].
  apply select_max_id_greatest in Hmax as [_ Hall].
  rewrite Forall_forall in Hall. specialize (Hall id). simpl in Hall.
  assert (id <= mx); [|lia]. by apply Hall.
Qed.

Lemma body_post_rows P it st r st' :
  body_post P it st r st' →
  table st' ++ self_metrics st' = table st ++ self_metrics st
  ∨ ∃ m, table st' ++ self_metrics st'
         = (table st ++ self_metrics st) ++ [mkrow (id_counter st) it m].
Proof.
  intros [r1 st1 (Ht & Hs & _) _|st1 m evs _ _ Hpend].
  - left. by rewrite Ht, Hs.
  - right. exists m. cbv zeta in Hpend.
    destruct (MAX_METRICS <=? _); destruct Hpend as (-> & -> & _).
    + by rewrite app_nil_r, app_assoc.
    + by rewrite app_assoc.
Qed.

Lemma loop_pairs type topdirs tmpdir metrics items :
  ∀ st r st',
    loop E type topdirs tmpdir metrics items st = (r, st') →
    ∃ new,
      table st' ++ self_metrics st' = (table st ++ self_metrics st) ++ new
      ∧ map row_pair new `sublist_of` map item_pair items
      ∧ Forall (λ row, row_pair row ∉ metrics) new.
Proof.
  induction items as [|it items IH]; intros st r st' Hloop.
  { injection Hloop as <- <-. exists []. by rewrite app_nil_r. }
  simpl in Hloop.
  destruct (loop_body E type topdirs tmpdir metrics it st) as [r1 st1] eqn:Hbody.
  apply loop_body_post in Hbody as [Hpost Hskip].
  assert (∃ new1,
    table st1 ++ self_metrics st1 = (table st ++ self_metrics st) ++ new1
    ∧ map row_pair new1 `sublist_of` [item_pair it]
    ∧ Forall (λ row, row_pair row ∉ metrics) new1) as (new1 & H1 & H2 & H3).
  { destruct (pair_in (item_pair it) metrics) eqn:Hin.
    - rewrite (Hskip eq_refl). exists []. rewrite app_nil_r.
      split; [done|]. split; [apply sublist_nil_l|done].
    - destruct (body_post_rows _ _ _ _ _ Hpost) as [Hsame|[m Happ]].
      + exists []. rewrite app_nil_r. split; [done|]. split; [apply sublist_nil_l|done].
      + exists [mkrow (id_counter st) it m]. split; [done|]. split; [done|].
        constructor; [|done]. intros Hmem%pair_in_elem.
        unfold row_pair, mkrow in Hmem. simpl in Hmem.
        unfold item_pair in Hin. congruence. }
  destruct r1 as [[]|e].
  2:{ injection Hloop as <- <-. exists new1. split; [done|]. split; [|done].
      simpl. change (item_pair it :: map item_pair items)
        with ([item_pair it] ++ map item_pair items).
      by apply sublist_inserts_r. }
  apply IH in Hloop as (new2 & G1 & G2 & G3).
  exists (new1 ++ new2). rewrite G1, H1, <- app_assoc. split; [done|]. split.
  - rewrite map_app. simpl.
    change (item_pair it :: map item_pair items)
      with ([item_pair it] ++ map item_pair items).
    by apply sublist_app.
  - by apply Forall_app.
Qed.

(** X10. When the query gives no (file, commit) pair twice and the
    table holds none twice, no pair is measured twice: at the end of
    the run, however it ends, the pairs of the table and of the pending
    rows are distinct. *)
Theorem pairs_stay_unique type topdir_rows items db w :
  NoDup (map item_pair items) →
  NoDup (map row_pair (default [] db)) →
  let st := snd (run E type topdir_rows items db w) in
  NoDup (map row_pair (table st ++ self_metrics st)).
Proof.
  intros Hitems Hrows st. subst st.
  destruct (run E type topdir_rows items db w) as [r st] eqn:Hrun. simpl.
  apply run_shape in Hrun
    as (st0 & Ht & Hs & _ & _ & [(e' & _ & ->)|(topdirs & tmpdir & r1 & st1 & Hloop & Hr1)]).
  { by rewrite Ht, Hs, app_nil_r. }
  apply loop_pairs in Hloop as (new & G1 & G2 & G3).
  assert (table st ++ self_metrics st = table st1 ++ self_metrics st1) as ->.
  { destruct r1 as [[]|e1]; [by destruct Hr1 as (_ & -> & _)|by destruct Hr1 as [_ ->]]. }
  rewrite G1, Ht, Hs, app_nil_r, map_app. apply NoDup_app. split; [done|]. split.
  - intros p Hp Hnew. apply list_elem_of_fmap in Hnew as (row & -> & Hrow).
    rewrite Forall_forall in G3. by apply (G3 row Hrow).
  - exact (sublist_NoDup _ _ Hitems G2).
Qed.
End Runs.

(** ** Paths *)

Lemma prefix_cons a s1 b s2 :
  String.prefix (String a s1) (String b s2)
  = if Ascii.eqb a b then String.prefix s1 s2 else false.
Proof.
  simpl. destruct (ascii_dec a b) as [->|Hne].
  - by rewrite Ascii.eqb_refl.
  - apply Ascii.eqb_neq in Hne. by rewrite Hne.
Qed.

Lemma prefix_nil s : String.prefix "" s = true.
Proof. by destruct s. Qed.

Lemma prefix_app (a b : string) : String.prefix a (a +:+ b) = true.
Proof.
  induction a as [|c a IH]; [apply prefix_nil|].
  change (String c a +:+ b) with (String c (a +:+ b)).
  by rewrite prefix_cons, Ascii.eqb_refl.
Qed.

Lemma lstrip_head c s : String.prefix (str1 c) (lstrip c s) = false.
Proof.
  induction s as [|a s IH]; simpl; [done|].
  destruct (Ascii.eqb a c) eqn:Hac; [done|].
  unfold str1. rewrite prefix_cons, Ascii.eqb_sym, Hac. done.
Qed.

Lemma rstrip_head c s :
  String.prefix (str1 c) s = false → String.prefix (str1 c) (rstrip c s) = false.
Proof.
  destruct s as [|a s]; [done|].
  unfold str1. rewrite prefix_cons, prefix_nil.
  destruct (Ascii.eqb c a) eqn:Hca; [done|]. intros _.
  cbn [rstrip]. destruct (rstrip c s).
  - rewrite Ascii.eqb_sym, Hca. unfold str1. by rewrite prefix_cons, Hca.
  - by rewrite prefix_cons, Hca.
Qed.

Lemma strip_head c s : String.prefix (str1 c) (strip c s) = false.
Proof. unfold strip. apply rstrip_head, lstrip_head. Qed.

Lemma os_path_join_prefix a b :
  String.prefix "/" b = false → String.prefix a (os_path_join a b) = true.
Proof.
  intros Hb. unfold os_path_join. rewrite Hb.
  destruct (_ || _); apply prefix_app.
Qed.

Section Paths.
Context {W : Type} (E : Env W).

(** ** The first checkout of svn *)

Lemma checkout_raises uri rootdir newdir rev w l e :
  snd (repo_checkout E uri rootdir newdir rev w) = Some e →
  __checkout E uri rootdir newdir rev w l
  = (Raise e, fst (repo_checkout E uri rootdir newdir rev w),
     l ++ [EvCheckout uri rootdir newdir rev]).
Proof.
  intros He. unfold __checkout, checkout_with.
  change (Z.to_nat (RETRIES + 1)) with 2%nat. cbn [checkout_loop].
  change (0 <=? RETRIES - 0) with true. cbv iota.
  destruct (repo_checkout E uri rootdir newdir rev w) as [w1 raised].
  simpl in He. by subst raised.
Qed.

(** X12. For svn, a failure of the first checkout of a top directory
    is fatal and is not retried: when the backend raises an [Exception]
    on checkout, [run] raises the exception that names the first
    revision and the error, after exactly one attempt, with the table
    as it found it and no file analysed. *)
Theorem initial_checkout_failure_is_fatal
    topdir topdir_id first_rev rows items db w msg :
  (∀ uri rootdir newdir rev w',
     snd (repo_checkout E uri rootdir newdir rev w') = Some (Exception msg)) →
  ∃ st,
    run E "svn" ((topdir, topdir_id, first_rev) :: rows) items db w
      = (Raise (Exception ("SVN checkout first rev (" +:+ first_rev +:+
                           ") failed. Error: " +:+ msg)), st)
    ∧ table st = default [] db
    ∧ self_metrics st = []
    ∧ attempts (log st) = 1
    ∧ existsb is_analyze (log st) = false.
Proof.
  intros Hraise. unfold run.
  destruct (mkdtemp E w) as [w1 tmpdir].
  change (String.eqb "svn" "svn") with true. cbv iota.
  cbn [checkout_topdirs].
  destruct db as [rows0|].
  - rewrite (checkout_raises _ _ _ _ _ _ _ (Hraise _ _ _ _ _)).
    cbn [is_Exception str_exn]. eexists. split; [reflexivity|].
    cbn [table self_metrics log with_io app]. repeat split; reflexivity.
  - rewrite (checkout_raises _ _ _ _ _ _ _ (Hraise _ _ _ _ _)).
    cbn [is_Exception str_exn]. eexists. split; [reflexivity|].
    cbn [table self_metrics log with_io app]. repeat split; reflexivity.
Qed.
End Paths.

(** ** The lines of sloccount *)

Lemma last_cons_Some {A} (l : list A) : ∀ x, ∃ z, last (x :: l) = Some z.
Proof.
  induction l as [|y l IH]; intros x; [by exists x|].
  destruct (IH y) as [z Hz]. exists z. exact Hz.
Qed.

Lemma last_cons_default {A} (x : A) (l : list A) (d : A) :
  default d (last (x :: l)) = default x (last l).
Proof.
  destruct l as [|y l]; [done|].
  change (last (x :: y :: l)) with (last (y :: l)).
  by destruct (last_cons_Some l y) as [z ->].
Qed.

(** X13. Of the lines sloccount prints, [create_file_metrics] reads
    those with the top_dir field, and the last of them wins.  It
    returns when each of them has exactly four tab fields, and then
    gives the first two fields of the last one, or the defaults when
    there is none; it raises the unpack error as soon as one of them
    has another number of fields. *)
Theorem sloccount_scan_last_wins (lines : list string) (sloc0 : value) (lang0 : string) :
  match sloccount_scan lines sloc0 lang0 with
  | Ok r =>
      Forall (λ l, top_dir_fields l ≠ None) (List.filter is_top_dir_line lines)
      ∧ r = default (sloc0, lang0)
              (last (omap top_dir_fields (List.filter is_top_dir_line lines)))
  | Raise e =>
      Exists (λ l, is_top_dir_line l = true ∧ top_dir_fields l = None) lines
      ∧ e = Exception "ValueError: unpack"
  end.
Proof.
  revert sloc0 lang0. induction lines as [|l lines IH]; intros sloc0 lang0; simpl.
  { done. }
  fold (is_top_dir_line l). destruct (is_top_dir_line l) eqn:Htop.
  - assert (match split_on tab l with
            | [sloc'; lang'; _; _] => sloccount_scan lines (VStr sloc') lang'
            | _ => Raise (Exception "ValueError: unpack")
            end
            = match top_dir_fields l with
              | Some (s, la) => sloccount_scan lines s la
              | None => Raise (Exception "ValueError: unpack")
              end) as ->.
    { unfold top_dir_fields.
      by destruct (split_on tab l) as [|a [|b [|c [|d [|]]]]]. }
    destruct (top_dir_fields l) as [[s la]|] eqn:Hf.
    + specialize (IH s la). destruct (sloccount_scan lines s la) as [r|e].
      * destruct IH as [Hall ->]. split.
        { constructor; [by rewrite Hf|done]. }
        simpl. rewrite Hf. simpl. by rewrite last_cons_default.
      * destruct IH as [Hex ->]. split; [by right|done].
    + split; [by left|done].
  - specialize (IH sloc0 lang0). destruct (sloccount_scan lines sloc0 lang0) as [r|e].
    + done.
    + destruct IH as [Hex ->]. split; [by right|done].
Qed.

(** ** The options of main *)

(** X14. The test of the driver option in [main] is a substring test
    on a string, not a membership test on a tuple.  On the option names
    that [getopt] can give this makes no difference: the iteration
    returns only on help and version, and it sets the driver exactly
    when the option is --db-driver. *)
Theorem driver_test_on_getopt_names (opt value : string) (o : options) :
  opt ∈ getopt_names →
  match option_step o opt value with
  | Continue o' =>
      driver o' = (if String.eqb opt "--db-driver" then value else driver o)
  | Return _ _ => in_tuple opt ["-h"; "--help"; "-V"; "--version"] = true
  end.
Proof.
  unfold getopt_names. intros Hin.
  repeat (apply elem_of_cons in Hin as [->|Hin]; [reflexivity|]).
  by apply elem_of_nil in Hin.
Qed.

Lemma option_loop_app (a b : list (string * string)) : ∀ o,
  option_loop (a ++ b) o
  = match option_loop a o with
    | Return p c => Return p c
    | Continue o' => option_loop b o'
    end.
Proof.
  induction a as [|[opt value] a IH]; intros o; simpl; [done|].
  destruct (option_step o opt value); [done|]. apply IH.
Qed.

(** X15. The loop over the options of [main] runs left to right and
    stops at the first help or version: the options after it are not
    read, and those before it have no effect on what is returned.  An
    option of the user sets the user and leaves the driver alone. *)
Theorem option_loop_composes (a b : list (string * string)) (o : options)
    (value : string) :
  option_loop (a ++ b) o
  = match option_loop a o with
    | Return p c => Return p c
    | Continue o' => option_loop b o'
    end
  ∧ match option_loop a o with
    | Return p c => option_loop (a ++ ("--help", value) :: b) o = Return p c
    | Continue o' =>
        option_loop (a ++ ("--help", value) :: b) o = Return Usage 0
        ∧ option_loop (a ++ ("--version", value) :: b) o = Return Version 0
        ∧ match option_loop (a ++ [("--db-user", value)]) o with
          | Continue o'' => user o'' = value ∧ driver o'' = driver o'
          | Return _ _ => False
          end
    end.
Proof.
  split; [apply option_loop_app|].
  rewrite !option_loop_app.
  by destruct (option_loop a o).
Qed.

(** ** The name of a new repository *)

Lemma split_on_no_sep sep s :
  Forall (λ f, has_char sep f = false) (split_on sep s).
Proof.
  induction s as [|c s IH]; simpl; [by repeat constructor|].
  destruct (Ascii.eqb c sep) eqn:Hc; [by constructor|].
  destruct (split_on sep s) as [|f fs]; [constructor; [simpl; by rewrite Hc|done]|].
  apply Forall_cons in IH as [Hf Hfs]. constructor; [|done].
  simpl. by rewrite Hc.
Qed.

Lemma split_on_snoc sep s :
  split_on sep (s +:+ str1 sep) = split_on sep s ++ [""].
Proof.
  induction s as [|c s IH]; simpl.
  - by rewrite Ascii.eqb_refl.
  - rewrite IH. destruct (Ascii.eqb c sep); [done|].
    destruct (split_on_cons sep s) as (f & fs & ->). done.
Qed.

Lemma py_getitem_elem {A} (l : list A) i x : py_getitem l i = Ok x → x ∈ l.
Proof.
  unfold py_getitem. destruct (_ || _); [done|].
  destruct (l !! _) as [y|] eqn:Hy; [|done]. intros [= <-].
  by eapply list_elem_of_lookup_2.
Qed.

Lemma py_getitem_last {A} (l : list A) x : py_getitem (l ++ [x]) (-1) = Ok x.
Proof.
  unfold py_getitem. rewrite length_app. simpl.
  change (-1 <? 0) with true. cbv iota.
  set (n := Z.of_nat (length l + 1)).
  assert (-1 + n = Z.of_nat (length l)) as -> by lia.
  assert (((Z.of_nat (length l) <? 0) || (n <=? Z.of_nat (length l))) = false) as ->.
  { apply orb_false_iff. split; [apply Z.ltb_ge|apply Z.leb_gt]; lia. }
  rewrite Nat2Z.id, list_lookup_middle by done. done.
Qed.

Lemma has_char_lstrip_ws c s :
  has_char c s = false → has_char c (lstrip_ws s) = false.
Proof.
  induction s as [|a s IH]; simpl; [done|].
  intros [Ha Hs]%orb_false_iff.
  destruct (is_space a); [by apply IH|]. simpl. by rewrite Ha, Hs.
Qed.

Lemma has_char_rstrip_ws c s :
  has_char c s = false → has_char c (rstrip_ws s) = false.
Proof.
  induction s as [|a s IH]; simpl; [done|].
  intros [Ha Hs]%orb_false_iff. specialize (IH Hs).
  destruct (rstrip_ws s) as [|b r].
  - destruct (is_space a); [done|]. simpl. by rewrite Ha.
  - simpl in *. by rewrite Ha, IH.
Qed.

(** X16. The name [main] gives a new repository is the text after the
    last slash of the uri, stripped: it is always defined and holds no
    slash.  A uri that ends in a slash gets the empty name. *)
Theorem repo_name_last_component (uri : string) :
  (∃ name, repo_name uri = Ok name ∧ has_char "/" name = false)
  ∧ repo_name (uri +:+ "/") = Ok "".
Proof.
  split.
  - unfold repo_name.
    destruct (split_on_cons "/" uri) as (f & fs & Hsplit).
    destruct (py_getitem_in_range (split_on "/" uri) (-1)) as [x Hx].
    { rewrite Hsplit. simpl. lia. }
    rewrite Hx. cbn [bind]. eexists. split; [reflexivity|].
    apply py_getitem_elem in Hx.
    pose proof (split_on_no_sep "/" uri) as Hall.
    rewrite Forall_forall in Hall.
    unfold strip_ws. by apply has_char_rstrip_ws, has_char_lstrip_ws, Hall.
  - unfold repo_name. change "/"%string with (str1 "/") at 1.
    rewrite split_on_snoc, py_getitem_last. done.
Qed.

(** ** Languages without an analyzer *)

Lemma _metrics_default la : la ∉ analyzed_langs → _metrics la = CFileMetrics.
Proof.
  unfold analyzed_langs, _metrics. intros Hnot.
  destruct (String.eqb la "unknown"); [done|].
  destruct (String.eqb la "ansic") eqn:H1.
  { apply String.eqb_eq in H1 as ->. exfalso. apply Hnot. by left. }
  destruct (String.eqb la "python") eqn:H2.
  { apply String.eqb_eq in H2 as ->. exfalso. apply Hnot. right. by left. }
  destruct (String.eqb la "cpp") eqn:H3.
  { apply String.eqb_eq in H3 as ->. exfalso. apply Hnot. do 2 right. by left. }
  destruct (String.eqb la "java") eqn:H4.
  { apply String.eqb_eq in H4 as ->. exfalso. apply Hnot. do 3 right. by left. }
  done.
Qed.

Section Others.
Context {W : Type} (E : Env W).

(** X17. A file whose language is none of ansic, python, cpp and java
    is measured with the base class: its record holds the language and
    the sizes only, every field of the analyzers stays [None], and no
    message about a missing program is printed. *)
Theorem other_languages_get_sizes_only checkout_path rev w l fm :
  create_file_metrics E checkout_path w = Ok fm →
  fm_lang fm ∉ analyzed_langs →
  (∀ e, open_readlines E checkout_path w = Raise e → is_Exception e = true) →
  ∃ m l',
    measure E checkout_path rev w l = (Ok m, l')
    ∧ lang m = fm_lang fm
    ∧ Forall (λ f, f = None) (analyzer_fields m)
    ∧ extends (λ e, negb (is_printout e)) l l'.
Proof.
  intros Hfm Hlang Hopen.
  destruct (create_file_metrics_path E _ _ _ Hfm) as (Hpath & _ & _ & Hcls).
  rewrite (_metrics_default _ Hlang) in Hcls.
  unfold measure. rewrite Hfm.
  destruct fm as [cls p la sl py hd]. cbn [fm_cls path fm_lang] in *. subst cls p.
  unfold get_LOC, get_SLOCLang, get_CommentsBlank, get_HalsteadComplexity,
    get_MccabeComplexity.
  cbn [fm_cls path fm_lang fm_sloc].
  destruct (open_readlines E checkout_path w) as [lines|e] eqn:Hl; cbn [bind].
  - eexists _, _. split; [reflexivity|]. split; [done|].
    split; [by repeat constructor|]. extends_tac.
  - rewrite (Hopen e eq_refl).
    eexists _, _. split; [reflexivity|]. split; [done|].
    split; [by repeat constructor|]. extends_tac.
Qed.

(** ** kdsi *)

(** X18. When kdsi is installed, [FileMetricsC.get_CommentsBlank] keeps
    the non-empty pieces between the spaces of the output; it returns
    exactly when there are five of them, and then gives the fourth, the
    third and the second as number of comments, comment lines and blank
    lines; otherwise the unpacking raises. *)
Theorem kdsi_comments (self : FileMetrics) (w : W) (kdsi : string) :
  find_program E "kdsi" = Some kdsi →
  let tokens :=
    filter (λ x, x ≠ "") (split_on " " (getoutput E (kdsi +:+ " " +:+ path self) w)) in
  Forall (λ t, t ≠ "" ∧ has_char " " t = false) tokens
  ∧ match get_CommentsBlank_C E self w with
    | Ok (n, l, b) =>
        ∃ d1 b' l' n' d2,
          tokens = [d1; b'; l'; n'; d2]
          ∧ n = Some (VStr n') ∧ l = Some (VStr l') ∧ b = Some (VStr b')
    | Raise e => length tokens ≠ 5%nat ∧ e = Exception "ValueError: unpack"
    end.
Proof.
  intros Hfind tokens. split.
  - apply Forall_forall. intros t Ht. subst tokens.
    apply list_elem_of_filter in Ht as [Hne Hin]. split; [done|].
    pose proof (split_on_no_sep " " (getoutput E (kdsi +:+ " " +:+ path self) w)) as Hall.
    rewrite Forall_forall in Hall. by apply Hall.
  - unfold get_CommentsBlank_C. rewrite Hfind. cbv zeta. fold tokens.
    destruct tokens as [|a [|b [|c [|d [|e [|f rest]]]]]]; try done.
    by eexists _, _, _, _, _.
Qed.
End Others.

(** ** The lines pymetrics prints for a function *)






Section Order.
Context {W : Type} (E : Env W).

(** X20. The rows a run adds follow the order of the query: their
    pairs are a subsequence of the pairs of the work items, and their
    ids count up from the seed in that order, however the run ends. *)
Theorem rows_follow_query_order type topdir_rows items db w :
  let st := snd (run E type topdir_rows items db w) in
  ∃ new,
    table st ++ self_metrics st = default [] db ++ new
    ∧ map row_pair new `sublist_of` map item_pair items
    ∧ map r_id new = seqZ (seed_of db) (Z.of_nat (length new)).
Proof.
  intros st. subst st.
  destruct (run E type topdir_rows items db w) as [r st] eqn:Hrun. simpl.
  pose proof (run_post E _ _ _ _ _ _ _ Hrun) as (new' & H1 & H2 & _).
  apply run_shape in Hrun
    as (st0 & Ht & Hs & _ & _ & [(e' & _ & ->)|(topdirs & tmpdir & r1 & st1 & Hloop & Hr1)]).
  { exists []. rewrite Ht, Hs, app_nil_r. split; [done|].
    split; [apply sublist_nil_l|]. by rewrite seqZ_nil. }
  apply loop_pairs in Hloop as (new & G1 & G2 & _).
  assert (table st ++ self_metrics st = table st1 ++ self_metrics st1) as Heq.
  { destruct r1 as [[]|e1]; [by destruct Hr1 as (_ & -> & _)|by destruct Hr1 as [_ ->]]. }
  rewrite Heq, G1, Ht, Hs, app_nil_r in H1. apply app_inv_head in H1 as <-.
  exists new. rewrite Heq, G1, Ht, Hs, app_nil_r. done.
Qed.
End Order.

(** ** The files that are analysed *)

Ltac under_tac :=
  repeat first
    [ apply extends_refl
    | assumption
    | apply extends_snoc; [|first [reflexivity|assumption]] ].

Section Under.
Context {W : Type} (E : Env W).
Implicit Types (st : @state W) (it : workitem).

Lemma checkout_loop_under d retries uri rootdir newdir rev file_path fuel :
  ∀ count w l,
    extends (analysed_under d) l
      (snd (checkout_loop E retries fuel uri rootdir newdir rev file_path count w l)).
Proof.
  induction fuel as [|fuel IH]; intros count w l; cbn [checkout_loop].
  - destruct (0 <=? retries - count); apply extends_refl.
  - destruct (0 <=? retries - count); [|apply extends_refl].
    destruct (repo_checkout E uri rootdir newdir rev w) as [w1 [e|]];
      [simpl; under_tac|].
    destruct (repo_get_last_revision E file_path w1) as [w2 [new_rev|e]].
    + destruct (String.eqb rev new_rev); [simpl; under_tac|].
      eapply extends_trans; [|apply IH]. under_tac.
    + destruct (is_Exception e); [|simpl; under_tac].
      eapply extends_trans; [|apply IH]. under_tac.
Qed.

Lemma update_loop_under d retries uri rev fuel :
  ∀ count w l,
    extends (analysed_under d) l
      (snd (update_loop E retries fuel uri rev count w l)).
Proof.
  induction fuel as [|fuel IH]; intros count w l; cbn [update_loop].
  - destruct (0 <=? retries - count); apply extends_refl.
  - destruct (0 <=? retries - count); [|apply extends_refl].
    destruct (repo_update E uri rev w) as [w1 [e|]];
      [simpl; under_tac|].
    destruct (repo_get_last_revision E uri w1) as [w2 [new_rev|e]].
    + destruct (String.eqb rev new_rev); [simpl; under_tac|].
      eapply extends_trans; [|apply IH]. under_tac.
    + destruct (is_Exception e); [|simpl; under_tac].
      eapply extends_trans; [|apply IH]. under_tac.
Qed.

Lemma update_topdirs_under d topdirs relative_path rev tmpdir :
  ∀ w l,
    extends (analysed_under d) l
      (snd (update_topdirs E topdirs relative_path rev tmpdir w l)).
Proof.
  induction topdirs as [|[topdir first_rev] rest IH]; intros w l; simpl.
  - apply extends_refl.
  - destruct (_ && _); [apply IH|].
    destruct (negb _); [apply IH|].
    pose proof (update_loop_under d RETRIES (os_path_join tmpdir topdir) rev
                  (Z.to_nat (RETRIES + 1)) 0 w
                  (l ++ [EvPrintdbg "Updating tree %s to revision %s"
                           [VStr topdir; VStr rev]])) as Hu.
    unfold __update, update_with.
    destruct (update_loop E _ _ _ _ _ _ _) as [[[[]|e] w1] l1]; simpl in Hu.
    + eapply extends_trans; [|apply IH].
      eapply extends_trans; [|exact Hu]. under_tac.
    + simpl. eapply extends_trans; [|exact Hu]. under_tac.
Qed.

Lemma checkout_under d uri rootdir newdir rev w l :
  extends (analysed_under d) l (snd (__checkout E uri rootdir newdir rev w l)).
Proof. unfold __checkout, checkout_with. apply checkout_loop_under. Qed.

Lemma materialize_under d type topdirs tmpdir relative_path rev w l :
  extends (analysed_under d) l
    (snd (materialize E type topdirs tmpdir relative_path rev w l)).
Proof.
  unfold materialize. destruct (String.eqb type "svn").
  - apply update_topdirs_under.
  - eapply extends_trans; [|apply checkout_under]. under_tac.
Qed.

Lemma checkout_topdirs_under d rows tmpdir :
  ∀ topdirs w l,
    extends (analysed_under d) l (snd (checkout_topdirs E rows tmpdir topdirs w l)).
Proof.
  induction rows as [|[[topdir topdir_id] first_rev] rest IH]; intros topdirs w l;
    cbn [checkout_topdirs].
  - apply extends_refl.
  - pose proof (checkout_under d
                  (strip "/" (get_path_for_revision E topdir topdir_id first_rev))
                  tmpdir (Some topdir) first_rev w l) as Hc.
    destruct (__checkout E _ _ _ _ _ _) as [[[[]|e] w1] l1]; simpl in Hc.
    + eapply extends_trans; [exact Hc|apply IH].
    + by destruct (is_Exception e).
Qed.

Lemma measure_under d checkout_path rev w l :
  String.prefix d checkout_path = true →
  extends (analysed_under d) l (snd (measure E checkout_path rev w l)).
Proof.
  intros Hp.
  assert (analysed_under d (EvAnalyze checkout_path) = true) as Ha by exact Hp.
  unfold measure.
  repeat case_match; simplify_eq; simpl; under_tac.
Qed.

Lemma measure_item_under tmpdir relative_path rev it st :
  String.prefix "/" relative_path = false →
  extends (analysed_under tmpdir) (log st)
    (log (snd (measure_item E tmpdir relative_path rev it st))).
Proof.
  intros Hrel. unfold measure_item. cbv zeta.
  destruct (os_path_isdir E _ _); [apply extends_refl|].
  destruct (negb _); [simpl; under_tac|].
  pose proof (measure_under tmpdir (os_path_join tmpdir relative_path) rev
                (world st) (log st) (os_path_join_prefix _ _ Hrel)) as Hm.
  destruct (measure E _ _ _ _) as [[m|e] l1]; simpl in Hm; [|exact Hm].
  destruct (MAX_METRICS <=? _); [|exact Hm].
  cbn [snd log incr_id_counter commit emit with_io].
  destruct (insert_many_nonempty (append_row (with_io st (world st) l1) it m))
    as (_ & _ & ->).
  { simpl. by destruct (self_metrics st). }
  simpl. under_tac.
Qed.

Lemma advance_and_measure_under type topdirs tmpdir relative_path rev it st :
  String.prefix "/" relative_path = false →
  extends (analysed_under tmpdir) (log st)
    (log (snd (advance_and_measure E type topdirs tmpdir relative_path rev it st))).
Proof.
  intros Hrel. unfold advance_and_measure.
  destruct (negb _); [|by apply measure_item_under].
  pose proof (materialize_under tmpdir type topdirs tmpdir relative_path rev
                (world st) (log st)) as Hmat.
  destruct (materialize E _ _ _ _ _ _ _) as [[[[]|e] w1] l1]; simpl in Hmat.
  - eapply extends_trans; [|by apply measure_item_under]. exact Hmat.
  - destruct (is_Exception e); [|exact Hmat].
    eapply extends_trans; [|by apply measure_item_under]. simpl. under_tac.
Qed.

Lemma loop_body_under type topdirs tmpdir metrics it st :
  type ≠ "cvs" →
  extends (analysed_under tmpdir) (log st)
    (log (snd (loop_body E type topdirs tmpdir metrics it st))).
Proof.
  intros Hcvs%String.eqb_neq. unfold loop_body. rewrite Hcvs. cbv zeta.
  destruct (pair_in _ _); [apply extends_refl|]. cbn [negb].
  destruct (path_is_deleted_for_revision E _ _ _); [simpl; under_tac|].
  eapply extends_trans; [|apply advance_and_measure_under, (strip_head "/")].
  simpl. under_tac.
Qed.

Lemma loop_under type topdirs tmpdir metrics items :
  type ≠ "cvs" →
  ∀ st, extends (analysed_under tmpdir) (log st)
          (log (snd (loop E type topdirs tmpdir metrics items st))).
Proof.
  intros Hcvs. induction items as [|it items IH]; intros st; simpl.
  { apply extends_refl. }
  pose proof (loop_body_under type topdirs tmpdir metrics it st Hcvs) as Hb.
  destruct (loop_body E _ _ _ _ _ _) as [[[]|e] st1]; simpl in Hb; [|exact Hb].
  eapply extends_trans; [exact Hb|apply IH].
Qed.

Lemma finish_under d st :
  extends (analysed_under d) (log st) (log (commit (__insert_many st))).
Proof.
  unfold commit, emit, __insert_many.
  destruct (self_metrics st); simpl; under_tac.
Qed.

(** X11. In a run on a repository that is not cvs, every file that is
    analysed lies under the temporary directory of the run: the slashes
    are stripped from the relative path before [os.path.join], so the
    join cannot discard the directory. *)
Theorem analysed_paths_under_tmpdir type topdir_rows items db w p :
  type ≠ "cvs" →
  EvAnalyze p ∈ log (snd (run E type topdir_rows items db w)) →
  String.prefix (snd (mkdtemp E w)) p = true.
Proof.
  intros Hcvs Hin.
  assert (∃ l0, Forall (λ e, analysed_under (snd (mkdtemp E w)) e = true) l0
    ∧ extends (analysed_under (snd (mkdtemp E w))) l0
        (log (snd (run E type topdir_rows items db w)))) as (l0 & Hl0 & evs & Hlog & Hall).
  { unfold run.
    exists (match db with None => [EvCommit] | Some _ => [] end).
    split; [destruct db; by repeat constructor|].
    destruct (mkdtemp E w) as [w1 tmpdir]. cbn [snd].
    assert (∀ tbl id0 metrics l0,
      extends (analysed_under tmpdir) l0
        (log (snd
           (let st0 :=
              {| world := w1; table := tbl; self_metrics := []; id_counter := id0;
                 current_revision := None; log := l0 |} in
            let '(topdirs, st) :=
              if String.eqb type "svn" then
                match checkout_topdirs E topdir_rows tmpdir [] w1 l0 with
                | (Ok topdirs, w, l) =>
                    (Ok topdirs,
                     with_io st0 w
                       (l ++ [EvPrintdbg "SVN checkout first rev finished" []]))
                | (Raise e, w, l) => (Raise e, with_io st0 w l)
                end
              else (Ok [], st0) in
            match topdirs with
            | Raise e => (Raise e, st)
            | Ok topdirs =>
                match loop E type topdirs tmpdir metrics items st with
                | (Raise e, st) => (Raise e, st)
                | (Ok _, st) =>
                    let st := commit (__insert_many st) in
                    (Ok tt, with_io st (remove_directory E tmpdir (world st)) (log st))
                end
            end)))) as Hgen.
    { intros tbl id0 metrics l0. cbv zeta.
      assert (∀ topdirs st,
        extends (analysed_under tmpdir) l0 (log st) →
        extends (analysed_under tmpdir) l0
          (log (snd
             match loop E type topdirs tmpdir metrics items st with
             | (Raise e, st) => (Raise e, st)
             | (Ok _, st) =>
                 (Ok tt,
                  with_io (commit (__insert_many st))
                    (remove_directory E tmpdir (world (commit (__insert_many st))))
                    (log (commit (__insert_many st))))
             end))) as Hloop.
      { intros topdirs st Hst.
        pose proof (loop_under type topdirs tmpdir metrics items Hcvs st) as Hl.
        destruct (loop E _ _ _ _ _ _) as [[[]|e] st1]; simpl in Hl.
        - cbn [snd log with_io].
          eapply extends_trans; [exact Hst|].
          eapply extends_trans; [exact Hl|apply finish_under].
        - eapply extends_trans; [exact Hst|exact Hl]. }
      destruct (String.eqb type "svn").
      - pose proof (checkout_topdirs_under tmpdir topdir_rows tmpdir [] w1 l0) as Hc.
        destruct (checkout_topdirs E _ _ _ _ _) as [[[topdirs|e] w2] l2]; simpl in Hc.
        + apply Hloop. simpl. under_tac.
        + exact Hc.
      - apply Hloop. apply extends_refl. }
    destruct db as [rows|]; apply Hgen. }
  rewrite Hlog in Hin. apply elem_of_app in Hin as [Hin|Hin].
  - rewrite Forall_forall in Hl0. exact (Hl0 _ Hin).
  - rewrite forallb_forall in Hall. apply list_elem_of_In in Hin.
    exact (Hall _ Hin).
Qed.
End Under.

(** ** The analyzers of C and Python and their tools *)

Lemma comment_lines_last (lines : list string) : ∀ acc,
  fold_left
    (fun comment_lines line =>
       match match_numComments line with
       | Some group1 => Some (VStr group1)
       | None => comment_lines
       end)
    lines acc
  = match last (omap match_numComments lines) with
    | Some g => Some (VStr g)
    | None => acc
    end.
Proof.
  induction lines as [|line lines IH]; intros acc; simpl; [done|].
  rewrite IH. destruct (match_numComments line) as [g|]; [|done].
  rewrite last_cons. by destruct (last _).
Qed.

Section ToolsOnly.
Context {W : Type} (E : Env W).

Lemma counted_result acc :
  counted acc → ∃ t, mccabe_result (fst acc) (snd acc) = Ok t.
Proof.
  destruct acc as [n vs]. unfold counted. simpl. intros ->.
  apply mccabe_result_ok. intros Hne. destruct vs; [done|]. simpl. lia.
Qed.

(** X21. The mccabe methods of the C and the Python analyzer raise
    nothing but the missing program: when mccabe is found the C method
    returns, whatever the tool prints, and the Python method returns
    whenever pymetrics is known or found, and then keeps it in the
    instance.  When pymetrics is not found nothing is kept, so the next
    call looks for it again. *)
Theorem mccabe_only_missing_program (self : FileMetrics) (w : W) :
  match get_MccabeComplexity_C E self w with
  | Ok _ => find_program E "mccabe" ≠ None
  | Raise e => e = ProgramNotFound "mccabe" ∧ find_program E "mccabe" = None
  end
  ∧ match fst (get_MccabeComplexity_Python E self w) with
    | Ok _ => pymetrics (snd (get_MccabeComplexity_Python E self w)) ≠ None
    | Raise e =>
        e = ProgramNotFound "pymetrics"
        ∧ pymetrics self = None ∧ find_program E "pymetrics" = None
        ∧ pymetrics (snd (get_MccabeComplexity_Python E self w)) = None
    end.
Proof.
  split.
  - unfold get_MccabeComplexity_C.
    destruct (find_program E "mccabe") as [mccabe|]; [|done]. cbv zeta.
    pose proof (mccabe_scan_C_counted E
                  (split_on newline (getoutput E (mccabe +:+ " -n " +:+ path self) w)))
      as Hc.
    apply counted_result in Hc as [t Ht].
    destruct (mccabe_scan_C E _) as [n vs]. simpl in Ht. by rewrite Ht.
  - unfold get_MccabeComplexity_Python, ensure_pymetrics.
    destruct (pymetrics self) as [p|] eqn:Hp.
    + cbv zeta.
      pose proof (mccabe_scan_Python_counted E
                    (split_on newline
                       (getoutput E (p +:+ " -C -S -B -i mccabe:McCabeMetric "
                                       +:+ path self) w))) as Hc.
      apply counted_result in Hc as [t Ht].
      destruct (mccabe_scan_Python E _) as [n vs]. simpl in Ht.
      rewrite Ht. simpl. by rewrite Hp.
    + destruct (find_program E "pymetrics") as [p|]; [|done]. cbv zeta.
      cbn [path].
      pose proof (mccabe_scan_Python_counted E
                    (split_on newline
                       (getoutput E (p +:+ " -C -S -B -i mccabe:McCabeMetric "
                                       +:+ path self) w))) as Hc.
      apply counted_result in Hc as [t Ht].
      destruct (mccabe_scan_Python E _) as [n vs]. simpl in Ht.
      by rewrite Ht.
Qed.

(** X22. [FileMetricsPython.get_CommentsBlank] raises only when
    pymetrics is missing.  Otherwise the number of comments and the
    blank lines it returns are always [None], and the comment lines are
    the group of the last line the numComments pattern matches, or
    [None] when it matches no line. *)
Theorem python_comments_last_match (self : FileMetrics) (w : W) :
  match fst (get_CommentsBlank_Python E self w), fst (ensure_pymetrics E self) with
  | Ok (n, l, b), Ok p =>
      n = None ∧ b = None
      ∧ l = VStr <$> last (omap match_numComments
                             (split_on newline
                                (getoutput E (p +:+ " -C -S -i simple:SimpleMetric "
                                                +:+ path self) w)))
  | Raise e, Raise e' => e = e' ∧ e = ProgramNotFound "pymetrics"
  | _, _ => False
  end.
Proof.
  unfold get_CommentsBlank_Python.
  assert (∀ p self', ensure_pymetrics E self = (Ok p, self') → path self' = path self)
    as Hpath.
  { unfold ensure_pymetrics. intros p self'.
    destruct (pymetrics self); [by intros [= _ <-]|].
    destruct (find_program E "pymetrics"); [by intros [= _ <-]|done]. }
  assert (∀ e self', ensure_pymetrics E self = (Raise e, self') →
            e = ProgramNotFound "pymetrics") as Hraise.
  { unfold ensure_pymetrics. intros e self'.
    destruct (pymetrics self); [done|].
    destruct (find_program E "pymetrics"); [done|by intros [= <- _]]. }
  destruct (ensure_pymetrics E self) as [[p|e] self'] eqn:Hens; cbn [fst].
  - rewrite (Hpath p self' eq_refl). repeat split.
    rewrite comment_lines_last. by destruct (last _).
  - split; [done|]. by eapply Hraise.
Qed.
End ToolsOnly.

(** ** The line pymetrics prints for the comments *)


(** ** Updates are for svn only *)

Section NoUpdate.
Context {W : Type} (E : Env W).
Implicit Types (st : @state W) (it : workitem).

Lemma checkout_loop_no_update retries uri rootdir newdir rev file_path fuel :
  ∀ count w l,
    extends no_update l
      (snd (checkout_loop E retries fuel uri rootdir newdir rev file_path count w l)).
Proof.
  induction fuel as [|fuel IH]; intros count w l; cbn [checkout_loop].
  - destruct (0 <=? retries - count); apply extends_refl.
  - destruct (0 <=? retries - count); [|apply extends_refl].
    destruct (repo_checkout E uri rootdir newdir rev w) as [w1 [e|]];
      [simpl; extends_tac|].
    destruct (repo_get_last_revision E file_path w1) as [w2 [new_rev|e]].
    + destruct (String.eqb rev new_rev); [simpl; extends_tac|].
      eapply extends_trans; [|apply IH]. extends_tac.
    + destruct (is_Exception e); [|simpl; extends_tac].
      eapply extends_trans; [|apply IH]. extends_tac.
Qed.

Lemma measure_no_update checkout_path rev w l :
  extends no_update l (snd (measure E checkout_path rev w l)).
Proof.
  unfold measure.
  repeat case_match; simplify_eq; simpl; extends_tac.
Qed.

Lemma measure_item_no_update tmpdir relative_path rev it st :
  extends no_update (log st)
    (log (snd (measure_item E tmpdir relative_path rev it st))).
Proof.
  unfold measure_item. cbv zeta.
  destruct (os_path_isdir E _ _); [apply extends_refl|].
  destruct (negb _); [simpl; extends_tac|].
  pose proof (measure_no_update (os_path_join tmpdir relative_path) rev
                (world st) (log st)) as Hm.
  destruct (measure E _ _ _ _) as [[m|e] l1]; simpl in Hm; [|exact Hm].
  destruct (MAX_METRICS <=? _); [|exact Hm].
  cbn [snd log incr_id_counter commit emit with_io].
  destruct (insert_many_nonempty (append_row (with_io st (world st) l1) it m))
    as (_ & _ & ->).
  { simpl. by destruct (self_metrics st). }
  simpl. extends_tac.
Qed.

Lemma loop_body_no_update type topdirs tmpdir metrics it st :
  type ≠ "svn" →
  extends no_update (log st)
    (log (snd (loop_body E type topdirs tmpdir metrics it st))).
Proof.
  intros Hsvn%String.eqb_neq.
  assert (∀ relative_path rev st0,
    extends no_update (log st0)
      (log (snd (advance_and_measure E type topdirs tmpdir relative_path rev it st0))))
    as Hadv.
  { intros relative_path rev st0. unfold advance_and_measure.
    destruct (negb _); [|apply measure_item_no_update].
    unfold materialize. rewrite Hsvn. unfold __checkout, checkout_with.
    pose proof (checkout_loop_no_update RETRIES relative_path tmpdir None rev
                  (os_path_join tmpdir relative_path) (Z.to_nat (RETRIES + 1)) 0
                  (world st0)
                  (log st0 ++ [EvPrintdbg "Checking out %s @ %s"
                                 [VStr relative_path; VStr rev]])) as Hc.
    destruct (checkout_loop E _ _ _ _ _ _ _ _ _ _) as [[[[]|e] w1] l1]; simpl in Hc.
    - eapply extends_trans; [|apply measure_item_no_update].
      simpl. eapply extends_trans; [|exact Hc]. extends_tac.
    - assert (extends no_update (log st0) l1) as Hl1.
      { eapply extends_trans; [|exact Hc]. extends_tac. }
      destruct (is_Exception e); [|exact Hl1].
      eapply extends_trans; [|apply measure_item_no_update]. simpl. extends_tac. }
  unfold loop_body. cbv zeta.
  destruct (pair_in _ _); [apply extends_refl|].
  destruct (negb (String.eqb type "cvs")); [|apply Hadv].
  destruct (path_is_deleted_for_revision E _ _ _); [simpl; extends_tac|].
  eapply extends_trans; [|apply Hadv]. simpl. extends_tac.
Qed.

Lemma loop_no_update type topdirs tmpdir metrics items :
  type ≠ "svn" →
  ∀ st, extends no_update (log st)
          (log (snd (loop E type topdirs tmpdir metrics items st))).
Proof.
  intros Hsvn. induction items as [|it items IH]; intros st; simpl.
  { apply extends_refl. }
  pose proof (loop_body_no_update type topdirs tmpdir metrics it st Hsvn) as Hb.
  destruct (loop_body E _ _ _ _ _ _) as [[[]|e] st1]; simpl in Hb; [|exact Hb].
  eapply extends_trans; [exact Hb|apply IH].
Qed.

(** X24. In a run on a repository that is not svn the working copy is
    only ever checked out: [__update] is not called, so the log holds
    no update of the backend. *)
Theorem updates_are_for_svn_only type topdir_rows items db w :
  type ≠ "svn" →
  Forall (λ e, is_update e = false)
    (log (snd (run E type topdir_rows items db w))).
Proof.
  intros Hsvn.
  assert (extends no_update [] (log (snd (run E type topdir_rows items db w))))
    as (evs & Hlog & Hall).
  { unfold run.
    destruct (mkdtemp E w) as [w1 tmpdir].
    pose proof Hsvn as Hneq%String.eqb_neq. rewrite Hneq.
    assert (∀ metrics st,
      extends no_update [] (log st) →
      extends no_update []
        (log (snd
           match loop E type [] tmpdir metrics items st with
           | (Raise e, st) => (Raise e, st)
           | (Ok _, st) =>
               (Ok tt,
                with_io (commit (__insert_many st))
                  (remove_directory E tmpdir (world (commit (__insert_many st))))
                  (log (commit (__insert_many st))))
           end))) as Hloop.
    { intros metrics st Hst.
      pose proof (loop_no_update type [] tmpdir metrics items Hsvn st) as Hl.
      destruct (loop E _ _ _ _ _ _) as [[[]|e] st1]; simpl in Hl.
      - cbn [snd log with_io].
        eapply extends_trans; [exact Hst|].
        eapply extends_trans; [exact Hl|].
        unfold commit, emit, __insert_many.
        destruct (self_metrics st1); simpl; extends_tac.
      - eapply extends_trans; [exact Hst|exact Hl]. }
    destruct db as [rows|]; apply Hloop; simpl.
    - apply extends_refl.
    - by exists [EvCommit]. }
  simpl in Hlog. rewrite Hlog. apply Forall_forall. intros e He.
  rewrite forallb_forall in Hall. apply list_elem_of_In in He.
  specialize (Hall e He). unfold no_update in Hall. by destruct (is_update e).
Qed.
End NoUpdate.

(** ** Concrete instances of the further properties *)

Lemma halstead_never_raises_witness :
  get_HalsteadComplexity_C halstead_lab_env c_file fs_empty
    = Ok (Some (VInt 120), Some (VInt 640), Some (VFloat "0.05"), Some (VInt 7))
  ∧ let values :=
      split_on tab (getoutput halstead_lab_env
                      ("/usr/bin/halstead" +:+ " " +:+ path c_file) fs_empty) in
    ∃ hl hv hlev hmd,
      get_HalsteadComplexity_C halstead_lab_env c_file fs_empty
        = Ok (hl, hv, hlev, hmd)
      ∧ hl = VInt <$> (values !! 1%nat ≫= py_int halstead_lab_env)
      ∧ hv = VInt <$> (values !! 2%nat ≫= py_int halstead_lab_env)
      ∧ hmd = VInt <$> (values !! 4%nat ≫= py_int halstead_lab_env)
      ∧ (∀ v, hlev = Some v →
           ∃ s repr, values !! 3%nat = Some s
                     ∧ py_float halstead_lab_env (replace_char "," "." s) = Some repr
                     ∧ repr ≠ "inf" ∧ repr ≠ "nan"
                     ∧ v = VFloat repr)
      ∧ (∀ s repr, values !! 3%nat = Some s →
           py_float halstead_lab_env (replace_char "," "." s) = Some repr →
           repr ≠ "inf" → repr ≠ "nan" →
           hlev = Some (VFloat repr))
      ∧ (∀ s, values !! 3%nat = Some s →
           py_float halstead_lab_env (replace_char "," "." s) = Some "-inf" →
           hlev = Some (VFloat "-inf")).
Proof.
  split; [vm_compute; reflexivity|].
  apply (halstead_never_raises halstead_lab_env c_file fs_empty "/usr/bin/halstead").
  reflexivity.
Defined.

Lemma cccc_statistics_never_raise_witness :
  handler cpp_file_measured
    = Some {| h_comment_lines := 4; h_nfunctions := 2; h_mccabe_values := [5; 3];
              h_current := None |}
  ∧ fst (get_MccabeComplexity_CCCC cccc_lab_env cpp_file_measured fs_empty)
    = Ok (Some 8, Some 3, Some 5, Some 4, Some 4, Some 2)
  ∧ match fst (get_MccabeComplexity_CCCC cccc_lab_env cpp_file_measured fs_empty) with
    | Ok _ => True
    | Raise e => fst (ensure_handler cccc_lab_env cpp_file_measured fs_empty) = Raise e
    end
  ∧ handler_ok (snd (get_MccabeComplexity_CCCC cccc_lab_env cpp_file_measured fs_empty))
  ∧ handler_ok (snd (get_CommentsBlank_CCCC cccc_lab_env cpp_file_measured fs_empty)).
Proof.
  split; [vm_compute; reflexivity|]. split; [vm_compute; reflexivity|].
  apply (cccc_statistics_never_raise cccc_lab_env cpp_file_measured fs_empty).
  vm_compute. repeat split; intros; discriminate.
Defined.

Lemma ensure_handler_runs_once_witness :
  ∃ h,
    handler (snd (ensure_handler cccc_env cpp_file fs_empty)) = Some h
    ∧ (∀ w', ensure_handler cccc_env (snd (ensure_handler cccc_env cpp_file fs_empty)) w'
             = (Ok h, snd (ensure_handler cccc_env cpp_file fs_empty)))
    ∧ (cccc_xml cccc_env ("/usr/bin/cccc" +:+ " --lang=" +:+ cccc_lang (fm_cls cpp_file)
                            +:+ " " +:+ path cpp_file) fs_empty = None →
       fst (get_CommentsBlank_CCCC cccc_env cpp_file fs_empty)
         = Raise (Exception "IOError: cccc.xml")
       ∧ ∀ w', fst (get_MccabeComplexity_CCCC cccc_env
                      (snd (get_CommentsBlank_CCCC cccc_env cpp_file fs_empty)) w')
               = Ok mccabe_unset).
Proof.
  apply (ensure_handler_runs_once cccc_env cpp_file fs_empty "/usr/bin/cccc").
  - reflexivity.
  - reflexivity.
Defined.

Lemma measure_isolates_failures_witness :
  In (EvPrinterr "Error running CommentsBlank for %s@%s. Exception: %s"
        [VStr "/tmp/tmpmetrics/a.c"; VStr "1.1"; VStr "ValueError: unpack"])
    (snd (measure mixed_env "/tmp/tmpmetrics/a.c" "1.1" mixed_world []))
  ∧ In (EvPrintout "Program %s is not installed. Skipping halstead metric"
          [VStr "halstead"])
      (snd (measure mixed_env "/tmp/tmpmetrics/a.c" "1.1" mixed_world []))
  ∧ ∃ m l',
      measure mixed_env "/tmp/tmpmetrics/a.c" "1.1" mixed_world [] = (Ok m, l')
      ∧ lang m = fm_lang mixed_file
      ∧ sloc m = Some (fm_sloc mixed_file)
      ∧ loc m = match open_readlines mixed_env "/tmp/tmpmetrics/a.c" mixed_world with
                | Ok lines => Some (VInt (Z.of_nat (length lines)))
                | Raise _ => None
                end.
Proof.
  split; [vm_compute; repeat first [left; reflexivity | right]|].
  split; [vm_compute; repeat first [left; reflexivity | right]|].
  apply (measure_isolates_failures mixed_env "/tmp/tmpmetrics/a.c" "1.1" mixed_world []
           mixed_file).
  - vm_compute. reflexivity.
  - intros e H. vm_compute in H. discriminate.
Defined.

Lemma aborted_run_loses_pending_witness :
  ∃ new,
    table (snd (run broken_sloccount_env "cvs" [] items_ab2 None fs_empty))
      ++ self_metrics (snd (run broken_sloccount_env "cvs" [] items_ab2 None fs_empty))
      = default [] None ++ new
    ∧ plen (snd (run broken_sloccount_env "cvs" [] items_ab2 None fs_empty))
      = Z.of_nat (length new) mod MAX_METRICS
    ∧ Z.of_nat (length (table (snd (run broken_sloccount_env "cvs" [] items_ab2 None
                                      fs_empty))))
      = Z.of_nat (length (default [] (@None (list row))))
        + MAX_METRICS * (Z.of_nat (length new) / MAX_METRICS)
    ∧ flush_sizes (log (snd (run broken_sloccount_env "cvs" [] items_ab2 None fs_empty)))
      = replicate (Z.to_nat (Z.of_nat (length new) / MAX_METRICS)) MAX_METRICS.
Proof.
  apply (aborted_run_loses_pending broken_sloccount_env "cvs" [] items_ab2 None fs_empty
           (Exception "ValueError: unpack")).
  vm_compute. reflexivity.
Defined.

Lemma ids_stay_unique_witness :
  NoDup (map r_id
           (table (snd (run plain_env "cvs" [] items_ab
                          (Some [row0 5 9 9; row0 2 8 8]) fs_empty))
            ++ self_metrics (snd (run plain_env "cvs" [] items_ab
                                    (Some [row0 5 9 9; row0 2 8 8]) fs_empty)))).
Proof.
  apply (ids_stay_unique plain_env "cvs" [] items_ab
           (Some [row0 5 9 9; row0 2 8 8]) fs_empty).
  apply (bool_decide_unpack _). vm_compute. exact I.
Defined.

Lemma pairs_stay_unique_witness :
  NoDup (map row_pair
           (table (snd (run plain_env "cvs" [] items_ab2 None fs_empty))
            ++ self_metrics (snd (run plain_env "cvs" [] items_ab2 None fs_empty)))).
Proof.
  apply (pairs_stay_unique plain_env "cvs" [] items_ab2 None fs_empty).
  - apply (bool_decide_unpack _). vm_compute. exact I.
  - apply (bool_decide_unpack _). vm_compute. exact I.
Defined.

Lemma initial_checkout_failure_is_fatal_witness :
  ∃ st,
    run failing_env "svn" [("trunk", 1, "1")] items_ab None fs_empty
      = (Raise (Exception ("SVN checkout first rev (" +:+ "1" +:+
                           ") failed. Error: " +:+ "connection refused")), st)
    ∧ table st = default [] None
    ∧ self_metrics st = []
    ∧ attempts (log st) = 1
    ∧ existsb is_analyze (log st) = false.
Proof.
  apply (initial_checkout_failure_is_fatal failing_env "trunk" 1 "1" [] items_ab None
           fs_empty "connection refused").
  reflexivity.
Defined.

Lemma driver_test_on_getopt_names_witness :
  match option_step default_options "-d" "log" with
  | Continue o' =>
      driver o' = (if String.eqb "-d" "--db-driver" then "log" else driver default_options)
  | Return _ _ => in_tuple "-d" ["-h"; "--help"; "-V"; "--version"] = true
  end.
Proof.
  apply (driver_test_on_getopt_names "-d" "log" default_options).
  unfold getopt_names. do 6 right. left.
Defined.

Lemma other_languages_get_sizes_only_witness :
  ∃ m l',
    measure kdsi_env "/tmp/tmpmetrics/a" "1.1" fs_empty [] = (Ok m, l')
    ∧ lang m = fm_lang (base_file "/tmp/tmpmetrics/a")
    ∧ Forall (λ f, f = None) (analyzer_fields m)
    ∧ extends (λ e, negb (is_printout e)) [] l'.
Proof.
  apply (other_languages_get_sizes_only kdsi_env "/tmp/tmpmetrics/a" "1.1" fs_empty []
           (base_file "/tmp/tmpmetrics/a")).
  - reflexivity.
  - apply (bool_decide_unpack _). vm_compute. exact I.
  - intros e H. vm_compute in H. injection H as <-. reflexivity.
Defined.

Lemma kdsi_comments_witness :
  Forall (λ t, t ≠ "" ∧ has_char " " t = false)
    (filter (λ x, x ≠ "")
       (split_on " " (getoutput kdsi_env ("/usr/bin/kdsi" +:+ " " +:+ path c_file)
                        fs_empty)))
  ∧ match get_CommentsBlank_C kdsi_env c_file fs_empty with
    | Ok (n, l, b) =>
        ∃ d1 b' l' n' d2,
          filter (λ x, x ≠ "")
            (split_on " " (getoutput kdsi_env ("/usr/bin/kdsi" +:+ " " +:+ path c_file)
                             fs_empty))
          = [d1; b'; l'; n'; d2]
          ∧ n = Some (VStr n') ∧ l = Some (VStr l') ∧ b = Some (VStr b')
    | Raise e =>
        length (filter (λ x, x ≠ "")
                  (split_on " " (getoutput kdsi_env
                                   ("/usr/bin/kdsi" +:+ " " +:+ path c_file) fs_empty)))
        ≠ 5%nat
        ∧ e = Exception "ValueError: unpack"
    end.
Proof.
  apply (kdsi_comments kdsi_env c_file fs_empty "/usr/bin/kdsi").
  reflexivity.
Defined.

Lemma analysed_paths_under_tmpdir_witness :
  String.prefix (snd (mkdtemp plain_env fs_empty)) "/tmp/tmpmetrics/a" = true.
Proof.
  apply (analysed_paths_under_tmpdir plain_env "git" [] items_ab None fs_empty
           "/tmp/tmpmetrics/a").
  - discriminate.
  - apply list_elem_of_In. vm_compute.
    repeat first [left; reflexivity | right].
Defined.

Lemma updates_are_for_svn_only_witness :
  Forall (λ e, is_update e = false)
    (log (snd (run plain_env "git" [] items_ab None fs_empty))).
Proof.
  apply (updates_are_for_svn_only plain_env "git" [] items_ab None fs_empty).
  discriminate.
Defined.
